(** * The application loader service (applications/services/loader/loader.c)

    A shallow embedding of the loader's command handlers: the lifecycle slot
    ([loader->app]), the name resolver, the external-application pipeline, the
    insomnia bookkeeping and the persisted menu file, together with the
    properties the specification states about them. *)

From Stdlib Require Import ZArith String Ascii List Bool Lia DecimalString.
From stdpp Require Import gmap strings.
Import ListNotations.

Local Open Scope string_scope.
Local Open Scope Z_scope.

(** ** Enumerations (loader.h, flipper_application.h, dialogs.h) *)

Inductive LoaderStatus :=
| LoaderStatusOk
| LoaderStatusErrorAppStarted
| LoaderStatusErrorUnknownApp
| LoaderStatusErrorInternal.

Inductive LoaderStatusError :=
| LoaderStatusErrorUnknown
| LoaderStatusErrorInvalidFile
| LoaderStatusErrorInvalidManifest
| LoaderStatusErrorMissingImports
| LoaderStatusErrorHWMismatch
| LoaderStatusErrorOutdatedApp
| LoaderStatusErrorOutdatedFirmware
| LoaderStatusErrorOutOfMemory.

Record LoaderMessageLoaderStatusResult := mkStatusResult {
  value : LoaderStatus;
  error : LoaderStatusError;
}.

Inductive LoaderEventType :=
| LoaderEventTypeApplicationBeforeLoad
| LoaderEventTypeApplicationLoadFailed
| LoaderEventTypeApplicationStopped.

(** The enumerators the loader names, and [..Other] for any further value of
    the C enumeration (the [default:] arm of the switches). *)
Inductive FlipperApplicationPreloadStatus :=
| FlipperApplicationPreloadStatusSuccess
| FlipperApplicationPreloadStatusInvalidFile
| FlipperApplicationPreloadStatusNotEnoughMemory
| FlipperApplicationPreloadStatusInvalidManifest
| FlipperApplicationPreloadStatusApiTooOld
| FlipperApplicationPreloadStatusApiTooNew
| FlipperApplicationPreloadStatusTargetMismatch
| FlipperApplicationPreloadStatusOther (code : Z).

Inductive FlipperApplicationLoadStatus :=
| FlipperApplicationLoadStatusSuccess
| FlipperApplicationLoadStatusMissingImports
| FlipperApplicationLoadStatusOther (code : Z).

Inductive DialogMessageButton :=
| DialogMessageButtonBack
| DialogMessageButtonLeft
| DialogMessageButtonCenter
| DialogMessageButtonRight.

#[export] Instance LoaderStatus_eq_dec : EqDecision LoaderStatus.
Proof. solve_decision. Defined.
#[export] Instance LoaderStatusError_eq_dec : EqDecision LoaderStatusError.
Proof. solve_decision. Defined.
#[export] Instance PreloadStatus_eq_dec : EqDecision FlipperApplicationPreloadStatus.
Proof. solve_decision. Defined.
#[export] Instance LoadStatus_eq_dec : EqDecision FlipperApplicationLoadStatus.
Proof. solve_decision. Defined.
#[export] Instance DialogMessageButton_eq_dec : EqDecision DialogMessageButton.
Proof. solve_decision. Defined.

(** ** Data *)

(** [FlipperApplicationFlag] is a bit mask. *)
Definition FlipperApplicationFlag := Z.

Record Icon := mkIcon {
  frame_count : Z;
  frame_rate : Z;
  width : Z;
  height : Z;
  frames : list string;
}.

(** Entries of the tables of applications.h.  A [const Icon*] is an
    [option Icon], [None] being the null pointer. *)
Record FlipperInternalApplication := mkInternalApp {
  int_app : Z;                   (* entry point *)
  int_name : string;
  int_appid : string;
  int_stack_size : Z;
  int_icon : option Icon;
  int_flags : FlipperApplicationFlag;
}.

Record FlipperExternalApplication := mkExternalApp {
  ext_name : string;
  ext_icon : option Icon;
  ext_path : string;
  ext_flags : FlipperApplicationFlag;
}.

Record MenuApp := mkMenuApp {
  label : string;
  icon : Icon;
  exe : string;
}.

Record FlipperApplicationManifest := mkManifest {
  manifest_name : string;
  manifest_stack_size : Z;
  api_version_major : Z;
  api_version_minor : Z;
}.

(** A [FlipperApplication] object: what [flipper_application_preload] and
    [flipper_application_map_to_memory] have done to it so far. *)
Record FlipperApplication := mkFap {
  fap_path : option string;
  fap_mapped : bool;
}.

(** What a thread runs: the entry point of a built-in application, or the
    entry point of the binary mapped from a path. *)
Inductive ThreadEntry :=
| InternalEntry (entry : Z)
| FapEntry (path : string).

(** The thread object behind a [FuriThread*].  [thread_appid] is [None] until
    [furi_thread_set_appid] tags the thread. *)
Record FuriThread := mkThread {
  thread_name : string;
  thread_stack_size : Z;
  thread_entry : ThreadEntry;
  thread_args : option string;
  thread_appid : option string;
  heap_trace : bool;
  state_callback : bool;         (* loader_thread_state_callback installed *)
  started : bool;
}.

(** The three kinds of value [loader->app.thread] takes: the null pointer, the
    constant [(FuriThread* )0xDEADBEEF], which is no address of the heap, and a
    pointer to a thread object. *)
Inductive FuriThreadPtr :=
| NULL
| LOADER_MAGIC_THREAD_VALUE
| Thread (t : FuriThread).

Record DialogMessage := mkDialog {
  dialog_header : string;
  dialog_text : string;
  dialog_buttons : option string * option string * option string;
}.

(** [Loader], with [loader->app.x] flattened to [app_x].  The message queue
    and the pubsub handle carry no state of their own here: published events
    are recorded in the [World]. *)
Record Loader := mkLoader {
  loader_menu : option bool;     (* the menu view and its [settings] flag *)
  loader_applications : bool;    (* the applications browser is open *)
  app_args : option string;
  app_thread : FuriThreadPtr;
  app_insomniac : bool;
  app_fap : option FlipperApplication;
  menu_apps : list MenuApp;
}.

(** What the loader changes outside itself. *)
Record World := mkWorld {
  files : gmap string string;    (* storage: path to contents *)
  insomnia : Z;                  (* furi_hal_power's insomnia counter *)
  published : list LoaderEventType;  (* furi_pubsub_publish, oldest first *)
  shown : list DialogMessage;    (* dialog_message_show, oldest first *)
}.

Record State := mkState {
  loader : Loader;
  world : World;
}.

Definition set_thread (p : FuriThreadPtr) (l : Loader) : Loader :=
  mkLoader (loader_menu l) (loader_applications l) (app_args l) p
           (app_insomniac l) (app_fap l) (menu_apps l).
Definition set_args (a : option string) (l : Loader) : Loader :=
  mkLoader (loader_menu l) (loader_applications l) a (app_thread l)
           (app_insomniac l) (app_fap l) (menu_apps l).
Definition set_insomniac (b : bool) (l : Loader) : Loader :=
  mkLoader (loader_menu l) (loader_applications l) (app_args l) (app_thread l)
           b (app_fap l) (menu_apps l).
Definition set_fap (f : option FlipperApplication) (l : Loader) : Loader :=
  mkLoader (loader_menu l) (loader_applications l) (app_args l) (app_thread l)
           (app_insomniac l) f (menu_apps l).
Definition set_loader_menu (m : option bool) (l : Loader) : Loader :=
  mkLoader m (loader_applications l) (app_args l) (app_thread l)
           (app_insomniac l) (app_fap l) (menu_apps l).
Definition set_loader_applications (b : bool) (l : Loader) : Loader :=
  mkLoader (loader_menu l) b (app_args l) (app_thread l)
           (app_insomniac l) (app_fap l) (menu_apps l).
Definition set_menu_apps (m : list MenuApp) (l : Loader) : Loader :=
  mkLoader (loader_menu l) (loader_applications l) (app_args l) (app_thread l)
           (app_insomniac l) (app_fap l) m.

Definition set_files (f : gmap string string) (w : World) : World :=
  mkWorld f (insomnia w) (published w) (shown w).
Definition set_insomnia (n : Z) (w : World) : World :=
  mkWorld (files w) n (published w) (shown w).
Definition set_published (p : list LoaderEventType) (w : World) : World :=
  mkWorld (files w) (insomnia w) p (shown w).
Definition set_shown (d : list DialogMessage) (w : World) : World :=
  mkWorld (files w) (insomnia w) (published w) d.

(** ** The monad of the handlers: state, and abort on a failed check *)

Inductive Outcome (A : Type) :=
| Ret (a : A) (s : State)
| Crash.
Arguments Ret {A} a s.
Arguments Crash {A}.

Definition M (A : Type) := State -> Outcome A.

Definition ret {A} (a : A) : M A := fun s => Ret a s.
Definition bind {A B} (m : M A) (k : A -> M B) : M B :=
  fun s => match m s with Ret a s' => k a s' | Crash => Crash end.
Definition furi_crash {A} : M A := fun _ => Crash.
Definition furi_check (b : bool) : M unit := if b then ret tt else furi_crash.
Definition furi_assert (b : bool) : M unit := furi_check b.

Definition get_loader : M Loader := fun s => Ret (loader s) s.
Definition get_world : M World := fun s => Ret (world s) s.
Definition modify_loader (f : Loader -> Loader) : M unit :=
  fun s => Ret tt (mkState (f (loader s)) (world s)).
Definition modify_world (f : World -> World) : M unit :=
  fun s => Ret tt (mkState (loader s) (f (world s))).

Declare Scope loader_scope.
Delimit Scope loader_scope with loader.
Notation "x <- c1 ;; c2" := (bind c1 (fun x => c2))
  (at level 100, c1 at next level, right associativity) : loader_scope.
Notation "c1 ;; c2" := (bind c1 (fun _ => c2))
  (at level 100, right associativity) : loader_scope.
Local Open Scope loader_scope.

(** ** The lifecycle slot *)

Definition is_null (p : FuriThreadPtr) : bool :=
  match p with NULL => true | _ => false end.
Definition is_magic (p : FuriThreadPtr) : bool :=
  match p with LOADER_MAGIC_THREAD_VALUE => true | _ => false end.

Definition loader_do_is_locked : M bool :=
  l <- get_loader ;;
  ret (negb (is_null (app_thread l))).

Definition loader_do_lock : M bool :=
  l <- get_loader ;;
  if negb (is_null (app_thread l)) then ret false
  else
    modify_loader (set_thread LOADER_MAGIC_THREAD_VALUE) ;;
    ret true.

Definition loader_do_unlock : M unit :=
  l <- get_loader ;;
  furi_check (is_magic (app_thread l)) ;;
  modify_loader (set_thread NULL).


(** [loader_is_application_running]: a thread pointer that is neither null
    nor the lock constant. *)
Definition loader_is_application_running : M bool :=
  l <- get_loader ;;
  ret (negb (is_null (app_thread l)) && negb (is_magic (app_thread l))).

Definition loader_do_get_application_name : M (option string) :=
  running <- loader_is_application_running ;;
  l <- get_loader ;;
  match running, app_thread l with
  | true, Thread t => ret (Some (thread_name t))
  | _, _ => ret None
  end.

(** ** The menu and applications views *)

Definition loader_do_menu_show (settings : bool) : M unit :=
  l <- get_loader ;;
  match loader_menu l with
  | None => modify_loader (set_loader_menu (Some settings))
  | Some _ => ret tt
  end.

Definition loader_do_menu_closed : M unit :=
  l <- get_loader ;;
  match loader_menu l with
  | Some _ => modify_loader (set_loader_menu None)
  | None => ret tt
  end.

Definition loader_do_applications_show : M unit :=
  l <- get_loader ;;
  if negb (loader_applications l) then modify_loader (set_loader_applications true)
  else ret tt.

Definition loader_do_applications_closed : M unit :=
  l <- get_loader ;;
  if loader_applications l then modify_loader (set_loader_applications false)
  else ret tt.

(** ** Status results and the error-kind mapping *)

(** [error_message] is a [FuriString*]: [None] is the null pointer, [Some m]
    a buffer holding [m].  The functions below return the status together
    with the buffer as they leave it. *)
Definition set_message (error_message : option string) (formatted : string)
  : option string :=
  match error_message with
  | Some _ => Some formatted
  | None => None
  end.

Definition loader_make_status_error
    (status : LoaderStatus) (error_message : option string) (formatted : string)
  : LoaderStatus * option string :=
  (status, set_message error_message formatted).

Definition loader_make_success_status (error_message : option string)
  : LoaderStatus * option string :=
  (LoaderStatusOk, set_message error_message "App started").

Definition loader_status_error_from_preload_status
    (status : FlipperApplicationPreloadStatus) : LoaderStatusError :=
  match status with
  | FlipperApplicationPreloadStatusInvalidFile => LoaderStatusErrorInvalidFile
  | FlipperApplicationPreloadStatusNotEnoughMemory => LoaderStatusErrorOutOfMemory
  | FlipperApplicationPreloadStatusInvalidManifest => LoaderStatusErrorInvalidManifest
  | FlipperApplicationPreloadStatusApiTooOld => LoaderStatusErrorOutdatedApp
  | FlipperApplicationPreloadStatusApiTooNew => LoaderStatusErrorOutdatedFirmware
  | FlipperApplicationPreloadStatusTargetMismatch => LoaderStatusErrorHWMismatch
  | _ => LoaderStatusErrorUnknown
  end.

Definition loader_status_error_from_load_status
    (status : FlipperApplicationLoadStatus) : LoaderStatusError :=
  match status with
  | FlipperApplicationLoadStatusMissingImports => LoaderStatusErrorMissingImports
  | _ => LoaderStatusErrorUnknown
  end.

(** ** What the loader takes from the rest of the firmware *)

(** The tables and constants of applications.h, loader.h and momentum.h. *)
Class Applications := {
  FLIPPER_APPS : list FlipperInternalApplication;
  FLIPPER_SYSTEM_APPS : list FlipperInternalApplication;
  FLIPPER_DEBUG_APPS : list FlipperInternalApplication;
  FLIPPER_EXTERNAL_APPS : list FlipperExternalApplication;
  FLIPPER_SETTINGS_APPS : list FlipperExternalApplication;
  FlipperApplicationFlagDefault : FlipperApplicationFlag;
  FlipperApplicationFlagInsomniaSafe : FlipperApplicationFlag;
  LOADER_APPLICATIONS_NAME : string;
  MAINMENU_APPS_PATH : string;
  XTREME_APPS_PATH : string;     (* CFG_PATH("xtreme_apps.txt") *)
}.

(** The collaborators: the binary loader (flipper_application), the dialogs
    service, the HAL and libc.  The binary loader reads the storage, so its
    functions take the files; the answer of the user to a dialog is a
    function of the dialog shown. *)
Class Collaborators := {
  flipper_application_preload :
    gmap string string -> string -> FlipperApplicationPreloadStatus;
  flipper_application_map_to_memory :
    gmap string string -> string -> FlipperApplicationLoadStatus;
  flipper_application_get_manifest :
    gmap string string -> string -> FlipperApplicationManifest;
  flipper_application_is_plugin : gmap string string -> string -> bool;
  flipper_application_preload_status_to_string :
    FlipperApplicationPreloadStatus -> string;
  flipper_application_load_status_to_string :
    FlipperApplicationLoadStatus -> string;
  (* name and icon data of a binary, when it has them *)
  flipper_application_load_name_and_icon :
    gmap string string -> string -> option (string * string);
  flipper_application_alloc_thread :
    gmap string string -> string -> option string -> FuriThread;
  firmware_api_version_major : Z;
  (* whether the thread takes the signal *)
  furi_thread_signal : FuriThread -> Z -> bool;
  path_extract_filename_no_ext : string -> string;
  dialog_message_show : DialogMessage -> DialogMessageButton;
  furi_hal_rtc_get_heap_track_mode : Z;
  FuriHalRtcHeapTrackModeNone : Z;
  furi_hal_debug_is_gdb_session_active : bool;
  furi_hal_is_normal_boot : bool;
  (* sscanf(line, "MenuAppList Version %lu", &version): the version when the
     call returns 1 *)
  sscanf_MenuAppList_Version : string -> option Z;
}.

(** ** Strings *)

Definition LF : ascii := "010"%char.
Definition CR : ascii := "013"%char.
Definition DQUOTE : string := String "034"%char "".

(** [%i] and [%u] of printf. *)
Definition format_int (z : Z) : string := NilZero.string_of_int (Z.to_int z).

(** [snprintf(buf, size, ...)]: at most [size - 1] characters are kept. *)
Definition snprintf (size : nat) (formatted : string) : string :=
  String.substring 0 (size - 1) formatted.

(** [strncmp(s, p, strlen(p)) == 0] *)
Definition strncmp_strlen_eq (s p : string) : bool := String.prefix p s.

Section Loader.

Context {apps : Applications} {env : Collaborators}.

(** ** Collaborator calls that change the world *)

(** Modelled from the spec: the event publisher, which is not part of the
    loader: a broadcast of the kind of the event, recorded in order. *)
Definition furi_pubsub_publish (e : LoaderEventType) : M unit :=
  modify_world (fun w => set_published (published w ++ [e]) w).

(** Modelled from the spec: the sleep-inhibit hold of furi_hal_power, which is
    not part of the loader: a counted hold, taken by [enter] and given back by
    [exit]. *)
Definition furi_hal_power_insomnia_enter : M unit :=
  modify_world (fun w => set_insomnia (insomnia w + 1) w).
Definition furi_hal_power_insomnia_exit : M unit :=
  modify_world (fun w => set_insomnia (insomnia w - 1) w).

(** Modelled from the spec: the dialogs service, which is not part of the
    loader: a modal message, answered by the button the user chooses. *)
Definition dialog_show (d : DialogMessage) : M DialogMessageButton :=
  modify_world (fun w => set_shown (shown w ++ [d]) w) ;;
  ret (dialog_message_show d).

(** Modelled from the spec: the existence check of the storage, which is
    not part of the loader. *)
Definition storage_file_exists (w : World) (path : string) : bool :=
  bool_decide (is_Some (files w !! path)).

(** ** Threads *)

(** Modelled from the spec: the execution contexts of the kernel, which are
    not part of the loader: a thread is allocated with a name, a stack size,
    an entry point and its argument, is tagged with an application
    identifier, has heap tracing switched on or off and a state callback
    installed, and is started. *)
Definition furi_thread_alloc_ex
    (name : string) (stack_size : Z) (callback : ThreadEntry) (context : option string)
  : FuriThread :=
  mkThread name stack_size callback context None false false false.

Definition furi_thread_set_appid (appid : string) (t : FuriThread) : FuriThread :=
  mkThread (thread_name t) (thread_stack_size t) (thread_entry t) (thread_args t)
           (Some appid) (heap_trace t) (state_callback t) (started t).
Definition furi_thread_set_heap_trace (b : bool) (t : FuriThread) : FuriThread :=
  mkThread (thread_name t) (thread_stack_size t) (thread_entry t) (thread_args t)
           (thread_appid t) b (state_callback t) (started t).
Definition furi_thread_set_state_callback (t : FuriThread) : FuriThread :=
  mkThread (thread_name t) (thread_stack_size t) (thread_entry t) (thread_args t)
           (thread_appid t) (heap_trace t) true (started t).
Definition furi_thread_start (t : FuriThread) : FuriThread :=
  mkThread (thread_name t) (thread_stack_size t) (thread_entry t) (thread_args t)
           (thread_appid t) (heap_trace t) (state_callback t) true.

(** A [furi_thread_*] call on [loader->app.thread]; the pointer has to be a
    thread object. *)
Definition on_app_thread (f : FuriThread -> FuriThread) : M unit :=
  l <- get_loader ;;
  match app_thread l with
  | Thread t => modify_loader (set_thread (Thread (f t)))
  | _ => furi_crash
  end.

Definition insomnia_safe (flags : FlipperApplicationFlag) : bool :=
  negb (Z.land flags FlipperApplicationFlagInsomniaSafe =? 0).

Definition loader_start_app_thread (flags : FlipperApplicationFlag) : M unit :=
  (* setup heap trace *)
  (if furi_hal_rtc_get_heap_track_mode >? FuriHalRtcHeapTrackModeNone
   then on_app_thread (furi_thread_set_heap_trace true)
   else on_app_thread (furi_thread_set_heap_trace false)) ;;
  (* setup insomnia *)
  (if negb (insomnia_safe flags)
   then furi_hal_power_insomnia_enter ;; modify_loader (set_insomniac true)
   else modify_loader (set_insomniac false)) ;;
  (* setup thread state callbacks *)
  on_app_thread furi_thread_set_state_callback ;;
  (* start app thread *)
  on_app_thread furi_thread_start.

Definition strlen_pos (args : option string) : bool :=
  match args with
  | Some a => negb (String.length a =? 0)%nat
  | None => false
  end.

Definition loader_start_internal_app
    (app : FlipperInternalApplication) (args : option string) : M unit :=
  furi_pubsub_publish LoaderEventTypeApplicationBeforeLoad ;;
  (* store args *)
  l <- get_loader ;;
  furi_assert (bool_decide (app_args l = None)) ;;
  (if strlen_pos args then modify_loader (set_args args) else ret tt) ;;
  l <- get_loader ;;
  modify_loader (set_thread (Thread
    (furi_thread_alloc_ex (int_name app) (int_stack_size app)
                          (InternalEntry (int_app app)) (app_args l)))) ;;
  on_app_thread (furi_thread_set_appid (int_appid app)) ;;
  loader_start_app_thread (int_flags app).

(** ** The resolver *)

Definition loader_find_external_application_by_name (app_name : string)
  : option (string * FlipperApplicationFlag) :=
  match List.find (fun e => String.eqb (ext_name e) app_name) FLIPPER_EXTERNAL_APPS with
  | Some e => Some (ext_path e, ext_flags e)
  | None =>
      match List.find (fun e => String.eqb (ext_name e) app_name) FLIPPER_SETTINGS_APPS with
      | Some e => Some (ext_path e, ext_flags e)
      | None => None
      end
  end.

Definition loader_find_application_by_name_in_list
    (name : string) (list : list FlipperInternalApplication)
  : option FlipperInternalApplication :=
  List.find (fun a => String.eqb name (int_name a) || String.eqb name (int_appid a)) list.

Fixpoint first_found (name : string) (lists : list (list FlipperInternalApplication))
  : option FlipperInternalApplication :=
  match lists with
  | [] => None
  | list :: rest =>
      match loader_find_application_by_name_in_list name list with
      | Some application => Some application
      | None => first_found name rest
      end
  end.

Definition loader_find_application_by_name (name : string)
  : option FlipperInternalApplication :=
  first_found name [FLIPPER_APPS; FLIPPER_SYSTEM_APPS; FLIPPER_DEBUG_APPS].

(** ** External applications *)

Definition flipper_application_alloc : FlipperApplication := mkFap None false.

Definition api_mismatch_of (preload_res : FlipperApplicationPreloadStatus) : bool :=
  bool_decide (preload_res = FlipperApplicationPreloadStatusApiTooOld)
  || bool_decide (preload_res = FlipperApplicationPreloadStatusApiTooNew).

(** The dialog shown on a successful map of a binary with an API mismatch. *)
Definition api_mismatch_dialog
    (preload_res : FlipperApplicationPreloadStatus) (manifest : FlipperApplicationManifest)
  : DialogMessage :=
  let app_newer := bool_decide (preload_res = FlipperApplicationPreloadStatusApiTooNew) in
  let header := if app_newer then "App Too New" else "App Too Old" in
  let text :=
    snprintf 63
      ("APP:" ++ format_int (api_version_major manifest) ++ " "
       ++ (if app_newer then ">" else "<") ++ " FW:"
       ++ format_int firmware_api_version_major
       ++ String LF "This app might not work" ++ String LF "Continue anyways?") in
  mkDialog header text (Some "Cancel", None, Some "Continue").

(** [bkpt 0] under an attached debugger: the debugger resumes the loader,
    whose state is as before. *)
Definition debugger_breakpoint : M unit := ret tt.

Definition status_with (r : LoaderStatus * option string) (e : LoaderStatusError)
  : LoaderMessageLoaderStatusResult * option string :=
  (mkStatusResult (fst r) e, snd r).

(** The body of the [do { ... } while(0)] of [loader_start_external_app];
    [error_message] already holds the success message. *)
Definition loader_start_external_app_body
    (path : string) (args : option string) (error_message : option string)
    (flags : FlipperApplicationFlag)
  : M (LoaderMessageLoaderStatusResult * option string) :=
  modify_loader (set_fap (Some flipper_application_alloc)) ;;
  w <- get_world ;;
  let preload_res := flipper_application_preload (files w) path in
  modify_loader (set_fap (Some (mkFap (Some path) false))) ;;
  let api_mismatch := api_mismatch_of preload_res in
  let api_mismatch_bypass_failed :=
    status_with
      (loader_make_status_error LoaderStatusErrorInternal error_message
         ("Preload failed, " ++ path ++ ": "
          ++ flipper_application_preload_status_to_string preload_res))
      (loader_status_error_from_preload_status preload_res) in
  if negb api_mismatch
     && negb (bool_decide (preload_res = FlipperApplicationPreloadStatusSuccess))
  then ret api_mismatch_bypass_failed
  else
    let load_status := flipper_application_map_to_memory (files w) path in
    if negb (bool_decide (load_status = FlipperApplicationLoadStatusSuccess)) then
      if api_mismatch then ret api_mismatch_bypass_failed
      else
        ret (status_with
               (loader_make_status_error LoaderStatusErrorInternal error_message
                  ("Load failed, " ++ path ++ ": "
                   ++ flipper_application_load_status_to_string load_status))
               (loader_status_error_from_load_status load_status))
    else
      modify_loader (set_fap (Some (mkFap (Some path) true))) ;;
      (* Successful map, but found api mismatch -> warn user *)
      res <- (if api_mismatch
              then dialog_show
                     (api_mismatch_dialog preload_res
                        (flipper_application_get_manifest (files w) path))
              else ret DialogMessageButtonRight) ;;
      if negb (bool_decide (res = DialogMessageButtonRight)) then
        ret (status_with
               (loader_make_status_error LoaderStatusErrorAppStarted error_message
                  ("Preload failed, " ++ path ++ ": "
                   ++ flipper_application_preload_status_to_string preload_res))
               (loader_status_error_from_preload_status preload_res))
      else if flipper_application_is_plugin (files w) path then
        ret (status_with
               (loader_make_status_error LoaderStatusErrorInternal error_message
                  ("Plugin " ++ path ++ " is not runnable"))
               LoaderStatusErrorUnknown)
      else
        modify_loader (set_thread (Thread
          (flipper_application_alloc_thread (files w) path args))) ;;
        on_app_thread (furi_thread_set_appid (path_extract_filename_no_ext path)) ;;
        (* This flag is set by the debugger - to break on app start *)
        (if furi_hal_debug_is_gdb_session_active then debugger_breakpoint else ret tt) ;;
        loader_start_app_thread flags ;;
        ret (mkStatusResult LoaderStatusOk LoaderStatusErrorUnknown, error_message).

Definition loader_start_external_app
    (path : string) (args : option string) (error_message : option string)
    (flags : FlipperApplicationFlag)
  : M (LoaderMessageLoaderStatusResult * option string) :=
  let error_message := snd (loader_make_success_status error_message) in
  furi_pubsub_publish LoaderEventTypeApplicationBeforeLoad ;;
  r <- loader_start_external_app_body path args error_message flags ;;
  (if negb (bool_decide (value (fst r) = LoaderStatusOk)) then
     modify_loader (set_fap None) ;;
     furi_pubsub_publish LoaderEventTypeApplicationLoadFailed
   else ret tt) ;;
  ret r.

(** ** Starting by name, and closing *)

(** The name the resolver goes on with: a name that begins with the old
    name of the keyboard application is replaced by its present name. *)
Definition translate_app_name (name : string) : string :=
  if strncmp_strlen_eq name "Bad USB" then "Bad KB" else name.

(** The name and flags after the check of the external applications: the path
    and flags of the table entry with that name, or the name as it is with
    the default flags. *)
Definition external_path_and_flags (name : string) : string * FlipperApplicationFlag :=
  match loader_find_external_application_by_name name with
  | Some (path, flags) => (path, flags)
  | None => (name, FlipperApplicationFlagDefault)
  end.

Definition loader_do_start_by_name
    (name : string) (args : option string) (error_message : option string)
  : M (LoaderMessageLoaderStatusResult * option string) :=
  let error_message := snd (loader_make_success_status error_message) in
  (* check lock *)
  locked <- loader_do_is_locked ;;
  l <- get_loader ;;
  if locked then
    if is_magic (app_thread l) then
      ret (status_with
             (loader_make_status_error LoaderStatusErrorAppStarted error_message
                "Loader is locked")
             LoaderStatusErrorUnknown)
    else
      match app_thread l with
      | Thread t =>
          let current_thread_name := thread_name t in
          ret (status_with
                 (loader_make_status_error LoaderStatusErrorAppStarted error_message
                    ("Loader is locked, please close the " ++ DQUOTE
                     ++ current_thread_name ++ DQUOTE ++ " first"))
                 LoaderStatusErrorUnknown)
      | _ => furi_crash
      end
  else
    (* Translate app names (mainly for RPC) *)
    let name := translate_app_name name in
    (* check internal apps *)
    match loader_find_application_by_name name with
    | Some app =>
        loader_start_internal_app app args ;;
        ret (status_with (loader_make_success_status error_message)
                         LoaderStatusErrorUnknown)
    | None =>
        (* check Applications *)
        if String.eqb name LOADER_APPLICATIONS_NAME then
          loader_do_applications_show ;;
          ret (status_with (loader_make_success_status error_message)
                           LoaderStatusErrorUnknown)
        else
          (* check External Applications *)
          let '(name, flags) := external_path_and_flags name in
          (* check Faps *)
          w <- get_world ;;
          if storage_file_exists w name then
            loader_start_external_app name args error_message flags
          else
            ret (status_with
                   (loader_make_status_error LoaderStatusErrorUnknownApp error_message
                      ("Application " ++ DQUOTE ++ name ++ DQUOTE ++ " not found"))
                   LoaderStatusErrorUnknown)
    end.

(** Modelled from the spec: joining the execution context, which returns
    once the thread has stopped. *)
Definition furi_thread_join (t : FuriThread) : FuriThread :=
  mkThread (thread_name t) (thread_stack_size t) (thread_entry t) (thread_args t)
           (thread_appid t) (heap_trace t) (state_callback t) false.

Definition loader_do_app_closed : M unit :=
  l <- get_loader ;;
  furi_assert (negb (is_null (app_thread l))) ;;
  on_app_thread furi_thread_join ;;
  (match app_args l with
   | Some _ => modify_loader (set_args None)
   | None => ret tt
   end) ;;
  (if app_insomniac l then furi_hal_power_insomnia_exit else ret tt) ;;
  (match app_fap l with
   | Some _ => modify_loader (set_fap None) ;; modify_loader (set_thread NULL)
   | None => modify_loader (set_thread NULL)
   end) ;;
  furi_pubsub_publish LoaderEventTypeApplicationStopped.

Definition loader_do_signal (signal : Z) : M bool :=
  running <- loader_is_application_running ;;
  l <- get_loader ;;
  match running, app_thread l with
  | true, Thread t => ret (furi_thread_signal t signal)
  | _, _ => ret false
  end.

(** ** The persisted menu file *)

(** Modelled from the spec: the storage and stream abstraction, which is not
    part of the loader.  A file is its contents; opening an existing file
    succeeds when the path is present; a file opened with FSOM_CREATE_ALWAYS
    is created empty; writes append at the end of the stream; a line-oriented
    read returns the characters up to and including the next line feed, or
    what is left of the stream, and fails when nothing is left. *)
Definition file_stream_open_existing (path : string) : M (option string) :=
  w <- get_world ;;
  ret (files w !! path).

(** Modelled from the spec: a file opened with FSOM_CREATE_ALWAYS is created
    empty. *)
Definition file_stream_open_create_always (path : string) : M unit :=
  modify_world (fun w => set_files (<[path := ""]> (files w)) w).

(** Modelled from the spec: a write appends at the end of the stream. *)
Definition stream_write (path : string) (data : string) : M unit :=
  modify_world (fun w =>
    set_files (<[path := default "" (files w !! path) ++ data]> (files w)) w).

(** Modelled from the spec: removal of a file of the storage; removing a
    file that is not there changes nothing. *)
Definition storage_common_remove (path : string) : M unit :=
  modify_world (fun w => set_files (delete path (files w)) w).

(** Modelled from the spec: the line-oriented read of a stream, given what
    is left of it: the line, with its line feed when it has one, and the rest;
    the call fails when the line is empty. *)
Fixpoint stream_read_line (stream : string) : string * string :=
  match stream with
  | EmptyString => ("", "")
  | String c rest =>
      if Ascii.eqb c LF then (String c "", rest)
      else let '(line, rest') := stream_read_line rest in (String c line, rest')
  end.

(** The lines that [while(stream_read_line(stream, line))] goes through. *)
Fixpoint stream_lines (stream : string) : list string :=
  match stream with
  | EmptyString => []
  | String c rest =>
      if Ascii.eqb c LF then String c "" :: stream_lines rest
      else match stream_lines rest with
           | [] => [String c ""]
           | line :: lines => String c line :: lines
           end
  end.

(** [furi_string_replace_all(s, c, "")] for a pattern [c] of one character. *)
Fixpoint furi_string_remove_all (c : ascii) (s : string) : string :=
  match s with
  | EmptyString => ""
  | String d rest =>
      if Ascii.eqb d c then furi_string_remove_all c rest
      else String d (furi_string_remove_all c rest)
  end.

(** [for(size_t i = 0; i < n; i++) body(table[i])], where [n] may exceed the
    length of the table: reading past its end aborts. *)
Fixpoint for_each_below {A} (n : Z) (table : list A) (body : A -> M unit) : M unit :=
  if n <=? 0 then ret tt
  else match table with
       | [] => furi_crash
       | x :: rest => body x ;; for_each_below (n - 1) rest body
       end.

(** Subtraction of [size_t], 32 bits wide on the target. *)
Definition size_t_sub (a b : Z) : Z := (a - b) mod 2 ^ 32.

Definition loader_make_menu_file : M unit :=
  w <- get_world ;;
  if negb (storage_file_exists w MAINMENU_APPS_PATH) then
    file_stream_open_create_always MAINMENU_APPS_PATH ;;
    stream_write MAINMENU_APPS_PATH
      ("MenuAppList Version " ++ format_int 1 ++ String LF "") ;;
    for_each_below (Z.of_nat (length FLIPPER_APPS)) FLIPPER_APPS
      (fun a => stream_write MAINMENU_APPS_PATH (int_name a ++ String LF "")) ;;
    for_each_below (size_t_sub (Z.of_nat (length FLIPPER_EXTERNAL_APPS)) 1)
      FLIPPER_EXTERNAL_APPS
      (fun e => stream_write MAINMENU_APPS_PATH (ext_name e ++ String LF "")) ;;
    (* Old additional external apps *)
    old <- file_stream_open_existing XTREME_APPS_PATH ;;
    (match old with
     | Some contents => stream_write MAINMENU_APPS_PATH contents
     | None => ret tt
     end) ;;
    storage_common_remove XTREME_APPS_PATH
  else ret tt.

Definition loader_menu_load_fap_meta (w : World) (path : string)
  : option (string * Icon) :=
  match flipper_application_load_name_and_icon (files w) path with
  | None => None
  | Some (name, icon_buf) => Some (name, mkIcon 1 1 10 10 [icon_buf])
  end.

(** The first line of the stream and the version on it; [None] when the line
    is missing, does not parse, or the version is above 1. *)
Definition read_version (stream : string) : option (Z * string) :=
  let '(line, rest) := stream_read_line stream in
  if (String.length line =? 0)%nat then None
  else match sscanf_MenuAppList_Version line with
       | Some version => if version >? 1 then None else Some (version, rest)
       | None => None
       end.

(** One turn of the reading loop of [loader_alloc]: the values of [label],
    [icon] and [exe] at its end. *)
Definition menu_line_lookup (w : World) (version : Z) (line : string)
  : option string * option Icon * option string :=
  let line := furi_string_remove_all CR line in
  let line := furi_string_remove_all LF line in
  let line :=
    if version =? 0 then
      if String.eqb line "RFID" then "125 kHz RFID"
      else if String.eqb line "SubGHz" then "Sub-GHz"
      else line
    else line in
  if storage_file_exists w line then
    match loader_menu_load_fap_meta w line with
    | Some (name, icon) => (Some name, Some icon, Some line)
    | None => (None, None, None)
    end
  else
    match List.find (fun a => String.eqb line (int_name a)) FLIPPER_APPS with
    | Some a => (Some (int_name a), int_icon a, Some (int_name a))
    | None =>
        match List.find (fun e => String.eqb line (ext_name e)) FLIPPER_EXTERNAL_APPS with
        | Some e => (Some (ext_name e), ext_icon e, Some (ext_name e))
        | None => (None, None, None)
        end
    end.

Definition menu_line_entry (w : World) (version : Z) (line : string) : option MenuApp :=
  match menu_line_lookup w version line with
  | (Some label, Some icon, Some exe) => Some (mkMenuApp label icon exe)
  | _ => None
  end.

Fixpoint loader_read_menu_lines (version : Z) (lines : list string) : M unit :=
  match lines with
  | [] => ret tt
  | line :: rest =>
      w <- get_world ;;
      (match menu_line_entry w version line with
       | Some entry => modify_loader (fun l => set_menu_apps (menu_apps l ++ [entry]) l)
       | None => ret tt
       end) ;;
      loader_read_menu_lines version rest
  end.

Definition loader_init : Loader := mkLoader None false None NULL false None [].

Definition loader_alloc : M unit :=
  modify_loader (fun _ => loader_init) ;;
  if negb furi_hal_is_normal_boot then ret tt
  else
    stream <- file_stream_open_existing MAINMENU_APPS_PATH ;;
    stream <- (match stream with
               | Some contents => ret (Some contents)
               | None =>
                   loader_make_menu_file ;;
                   file_stream_open_existing MAINMENU_APPS_PATH
               end) ;;
    match stream with
    | None => ret tt
    | Some contents =>
        header <- (match read_version contents with
                   | Some header => ret (Some header)
                   | None =>
                       storage_common_remove MAINMENU_APPS_PATH ;;
                       loader_make_menu_file ;;
                       stream <- file_stream_open_existing MAINMENU_APPS_PATH ;;
                       match stream with
                       | Some contents => ret (read_version contents)
                       | None => ret None
                       end
                   end) ;;
        match header with
        | None => ret tt
        | Some (version, rest) => loader_read_menu_lines version (stream_lines rest)
        end
    end.

(** What the user has been shown when the pipeline reaches the runnability
    check: the mismatch dialog, when there was a mismatch. *)
Definition dialogs_before_start (s : State) (path : string) : list DialogMessage :=
  let preload_res := flipper_application_preload (files (world s)) path in
  if api_mismatch_of preload_res
  then [api_mismatch_dialog preload_res
          (flipper_application_get_manifest (files (world s)) path)]
  else [].

(** The pipeline reaches the runnability check: the preload succeeded, or it
    found an API mismatch that the user chose to ignore; and the map
    succeeded. *)
Definition reaches_start (s : State) (path : string) : Prop :=
  let preload_res := flipper_application_preload (files (world s)) path in
  (preload_res = FlipperApplicationPreloadStatusSuccess
   \/ (api_mismatch_of preload_res = true
       /\ dialog_message_show
            (api_mismatch_dialog preload_res
               (flipper_application_get_manifest (files (world s)) path))
          = DialogMessageButtonRight))
  /\ flipper_application_map_to_memory (files (world s)) path
     = FlipperApplicationLoadStatusSuccess.

(** The text of a list of lines, each ended by a line feed. *)
Fixpoint join_lines (lines : list string) : string :=
  match lines with
  | [] => ""
  | line :: rest => line ++ String LF (join_lines rest)
  end.

Fixpoint has_char (c : ascii) (s : string) : bool :=
  match s with
  | EmptyString => false
  | String d rest => Ascii.eqb d c || has_char c rest
  end.

(** The first line of a menu file of version 1. *)
Definition menu_file_header : string :=
  "MenuAppList Version " ++ format_int 1 ++ String LF "".

(** A line as the reading loop looks it up, at version 1. *)
Definition stripped (line : string) : string :=
  furi_string_remove_all LF (furi_string_remove_all CR line).

(** The menu file is absent, or present without a first line of a version
    up to 1: the cases in which [loader_alloc] writes it anew. *)
Definition menu_file_missing (s : State) : Prop :=
  files (world s) !! MAINMENU_APPS_PATH = None
  \/ exists contents,
       files (world s) !! MAINMENU_APPS_PATH = Some contents
       /\ read_version contents = None.

(** What [loader_make_menu_file] writes after the version line when there is
    no old list of additional applications: the names of the built-in
    applications, then those of the external ones but the last. *)
Definition written_entries : list string :=
  map int_name FLIPPER_APPS ++ map ext_name (removelast FLIPPER_EXTERNAL_APPS).

(** ** Outcomes of the pipeline *)

(** The thread [t] as [loader_start_app_thread] leaves it. *)
Definition started_thread (t : FuriThread) : FuriThread :=
  furi_thread_start
    (furi_thread_set_state_callback
       (furi_thread_set_heap_trace
          (furi_hal_rtc_get_heap_track_mode >? FuriHalRtcHeapTrackModeNone) t)).

(** The state in which [loader_start_app_thread flags] leaves [s], whose
    slot holds the thread [t]. *)
Definition app_thread_started
    (flags : FlipperApplicationFlag) (t : FuriThread) (s : State) : State :=
  mkState
    (set_thread (Thread (started_thread t))
       (set_insomniac (negb (insomnia_safe flags)) (loader s)))
    (if insomnia_safe flags then world s
     else set_insomnia (insomnia (world s) + 1) (world s)).

(** The state after a failed load from [s]: the binary is freed, the events
    before-load and load-failed have been published, and [dialogs] have been
    shown. *)
Definition load_failed_state (s : State) (dialogs : list DialogMessage) : State :=
  mkState (set_fap None (loader s))
          (mkWorld (files (world s)) (insomnia (world s))
                   (published (world s)
                    ++ [LoaderEventTypeApplicationBeforeLoad;
                        LoaderEventTypeApplicationLoadFailed])
                   (shown (world s) ++ dialogs)).

(** The state in which the start of the built-in application [app] with
    [args] leaves [s]: the before-load event is published, the arguments are
    stored when they are not empty, and the slot holds the started thread of
    the application. *)
Definition internal_app_started
    (app : FlipperInternalApplication) (args : option string) (s : State) : State :=
  let stored := if strlen_pos args then args else app_args (loader s) in
  app_thread_started (int_flags app)
    (furi_thread_set_appid (int_appid app)
       (furi_thread_alloc_ex (int_name app) (int_stack_size app)
          (InternalEntry (int_app app)) stored))
    (mkState (set_args stored (loader s))
             (set_published
                (published (world s) ++ [LoaderEventTypeApplicationBeforeLoad])
                (world s))).

(** The state in which the start of the binary at [path] leaves [s] when the
    pipeline goes through: the binary is mapped and stays with the slot,
    which holds the started thread of the binary, tagged with the file name
    without extension. *)
Definition external_app_started
    (path : string) (args : option string) (flags : FlipperApplicationFlag)
    (s : State) : State :=
  app_thread_started flags
    (furi_thread_set_appid (path_extract_filename_no_ext path)
       (flipper_application_alloc_thread (files (world s)) path args))
    (mkState (set_fap (Some (mkFap (Some path) true)) (loader s))
             (mkWorld (files (world s)) (insomnia (world s))
                (published (world s) ++ [LoaderEventTypeApplicationBeforeLoad])
                (shown (world s) ++ dialogs_before_start s path))).

Definition preload_failed_message
    (path : string) (preload_res : FlipperApplicationPreloadStatus) : string :=
  "Preload failed, " ++ path ++ ": "
  ++ flipper_application_preload_status_to_string preload_res.

End Loader.

(** ** A firmware configuration to run the handlers on *)

Module Demo.

Definition icon_14 : Icon := mkIcon 1 0 14 14 ["subghz"].

Definition MIN_STACK : Z := 2048.

#[local] Instance apps : Applications := {
  FLIPPER_APPS :=
    [ mkInternalApp 1 "Sub-GHz" "subghz" 3072 (Some icon_14) 0;
      mkInternalApp 2 "Bad KB" "bad_kb" MIN_STACK (Some icon_14) 0;
      mkInternalApp 3 "Clock" "clock" MIN_STACK (Some icon_14) 1 ];
  FLIPPER_SYSTEM_APPS := [ mkInternalApp 4 "UpdaterApp" "updater" MIN_STACK None 0 ];
  FLIPPER_DEBUG_APPS := [];
  FLIPPER_EXTERNAL_APPS :=
    [ mkExternalApp "NFC" (Some icon_14) "/ext/apps/NFC/nfc.fap" 0;
      mkExternalApp "Momentum" (Some icon_14) "/ext/apps/assets/momentum_app.fap" 1 ];
  FLIPPER_SETTINGS_APPS :=
    [ mkExternalApp "Power" None "/ext/apps/Settings/power_settings.fap" 1 ];
  FlipperApplicationFlagDefault := 0;
  FlipperApplicationFlagInsomniaSafe := 1;
  LOADER_APPLICATIONS_NAME := "Apps";
  MAINMENU_APPS_PATH := "/int/.config/mainmenu_apps.txt";
  XTREME_APPS_PATH := "/int/.config/xtreme_apps.txt";
}.

Definition version_digit (c : ascii) : option Z :=
  if Ascii.eqb c "0" then Some 0
  else if Ascii.eqb c "1" then Some 1
  else if Ascii.eqb c "2" then Some 2
  else None.

#[local] Instance env : Collaborators := {
  flipper_application_preload _ path :=
    if String.eqb path "/ext/apps/Tools/old.fap" then FlipperApplicationPreloadStatusApiTooOld
    else if String.eqb path "/ext/apps/Tools/new.fap" then FlipperApplicationPreloadStatusApiTooNew
    else if String.eqb path "/ext/apps/Tools/new_lib.fal" then FlipperApplicationPreloadStatusApiTooNew
    else if String.eqb path "/ext/apps/Tools/old_broken.fap" then FlipperApplicationPreloadStatusApiTooOld
    else FlipperApplicationPreloadStatusSuccess;
  flipper_application_map_to_memory _ path :=
    if String.eqb path "/ext/apps/Tools/old_broken.fap"
    then FlipperApplicationLoadStatusMissingImports
    else FlipperApplicationLoadStatusSuccess;
  flipper_application_get_manifest _ path := mkManifest "app" MIN_STACK 70 2;
  flipper_application_is_plugin _ path :=
    String.eqb path "/ext/apps/Tools/lib.fal" || String.eqb path "/ext/apps/Tools/new_lib.fal";
  flipper_application_preload_status_to_string st :=
    match st with
    | FlipperApplicationPreloadStatusApiTooOld => "App is too old"
    | FlipperApplicationPreloadStatusApiTooNew => "App is too new"
    | _ => "unknown"
    end;
  flipper_application_load_status_to_string st :=
    match st with
    | FlipperApplicationLoadStatusMissingImports => "Missing imports"
    | _ => "unknown"
    end;
  flipper_application_load_name_and_icon _ path := None;
  flipper_application_alloc_thread _ path args :=
    mkThread "app" MIN_STACK (FapEntry path) args None false false false;
  firmware_api_version_major := 78;
  furi_thread_signal t signal := started t;
  path_extract_filename_no_ext path := path;
  dialog_message_show d :=
    if String.eqb (dialog_header d) "App Too Old"
    then DialogMessageButtonLeft else DialogMessageButtonRight;
  furi_hal_rtc_get_heap_track_mode := 0;
  FuriHalRtcHeapTrackModeNone := 0;
  furi_hal_debug_is_gdb_session_active := false;
  furi_hal_is_normal_boot := true;
  sscanf_MenuAppList_Version line :=
    if String.prefix "MenuAppList Version " line
    then match String.get 20 line with Some c => version_digit c | None => None end
    else None;
}.

Definition storage : gmap string string :=
  <["/ext/apps/Tools/old.fap" := "ELF"]>
  (<["/ext/apps/Tools/lib.fal" := "ELF"]>
  (<["/ext/apps/Tools/old_broken.fap" := "ELF"]> ∅)).

Definition empty_world : World := mkWorld storage 0 [] [].

Definition clock_thread : FuriThread :=
  mkThread "Clock" MIN_STACK (InternalEntry 3) None (Some "clock") false true true.

Definition idle : State := mkState loader_init empty_world.

(** A storage without menu file, where the old list of additional
    applications names a binary that is no longer there. *)
Definition stale_world : World :=
  mkWorld (<["/int/.config/xtreme_apps.txt" :=
             "/ext/apps/Games/snake.fap" ++ String LF ""]> storage) 0 [] [].
Definition stale : State := mkState loader_init stale_world.
Definition locked : State :=
  mkState (set_thread LOADER_MAGIC_THREAD_VALUE loader_init) empty_world.
Definition running : State :=
  mkState (set_thread (Thread clock_thread) loader_init) empty_world.

End Demo.

(** ** The error dialogs *)

(** The icons of assets_icons.h that the error dialogs use, and
    [furi_string_replace(s, needle, value)] of the string library, which
    gives [s] with an occurrence of [needle] replaced by [value]. *)
Class Presentation := {
  I_err_01 : Icon;
  I_err_02 : Icon;
  I_err_03 : Icon;
  I_err_04 : Icon;
  I_err_05 : Icon;
  I_err_06 : Icon;
  I_err_07 : Icon;
  I_WarningDolphinFlip_45x42 : Icon;
  furi_string_replace : string -> string -> string -> string;
}.

Record LoaderError := mkLoaderError {
  le_error : string;
  le_description : string;
  le_url : string;
  le_icon : Icon;
}.

(** A dialog message with the icon set on it; positions and alignments are
    left out, as in [DialogMessage]. *)
Record GuiDialog := mkGuiDialog {
  gui_message : DialogMessage;
  gui_icon : option Icon;
}.

Section ErrorDialogs.

Context {apps : Applications} {env : Collaborators} {gui : Presentation}.

Definition err_app_not_found : LoaderError :=
  mkLoaderError "App Not Found" "Update firmware or app" "err_01" I_err_01.
Definition err_invalid_flie : LoaderError :=
  mkLoaderError "Invalid File" "Update the app" "err_02" I_err_02.
Definition err_invalid_manifest : LoaderError :=
  mkLoaderError "Invalid Manifest" "Update firmware or app" "err_03" I_err_03.
Definition err_missing_imports : LoaderError :=
  mkLoaderError "Missing Imports" "Update app or firmware" "err_04" I_err_04.
Definition err_hw_target_mismatch : LoaderError :=
  mkLoaderError ("HW Target" ++ String LF "Mismatch") "App not supported" "err_05" I_err_05.
Definition err_outdated_app : LoaderError :=
  mkLoaderError "Outdated App" "Update the app" "err_06" I_err_06.
Definition err_outdated_firmware : LoaderError :=
  mkLoaderError ("Outdated" ++ String LF "Firmware") "Update firmware" "err_07" I_err_07.

(** The message that [loader_dialog_prepare_and_show] builds. *)
Definition loader_dialog_prepare (err : LoaderError) : GuiDialog :=
  let header := "Error: " ++ le_error err in
  let text :=
    le_description err ++ String LF "Learn more:" ++ String LF "r.flipper.net/"
    ++ le_url err in
  mkGuiDialog (mkDialog header text (None, None, None)) (Some (le_icon err)).

Definition loader_dialog_prepare_and_show (err : LoaderError) : M unit :=
  dialog_show (gui_message (loader_dialog_prepare err)) ;;
  ret tt.

(** The messages of the other branches of [loader_show_gui_error]. *)
Definition update_needed_dialog : GuiDialog :=
  mkGuiDialog
    (mkDialog "Update needed" ("Update firmware" ++ String LF "to run this app")
       (None, None, None))
    (Some I_WarningDolphinFlip_45x42).

Definition out_of_memory_dialog : GuiDialog :=
  mkGuiDialog
    (mkDialog "Error: Out of Memory"
       ("Not enough RAM to run the" ++ String LF "app. Please reboot the device")
       (None, None, Some "Reboot"))
    None.

Definition generic_error_text (error_message : string) : string :=
  let m := furi_string_replace error_message ":" (String LF "") in
  let m := furi_string_replace m "/ext/apps/" "" in
  let m := furi_string_replace m ", " (String LF "") in
  furi_string_replace m ": " (String LF "").

Definition generic_error_dialog (error_message : string) : GuiDialog :=
  mkGuiDialog (mkDialog "Error" (generic_error_text error_message) (None, None, None))
              None.

(** Modelled from the spec: the device-restart action of the HAL, which is
    not part of the loader: the device restarts, and the call does not
    return to the handler. *)
Definition furi_hal_power_reset : M unit := furi_crash.

Definition loader_show_gui_error
    (status : LoaderMessageLoaderStatusResult) (name : string)
    (error_message : option string) : M unit :=
  if bool_decide (value status = LoaderStatusErrorUnknownApp)
     && bool_decide (loader_find_external_application_by_name name <> None) then
    (* Special case for external apps *)
    dialog_show (gui_message update_needed_dialog) ;;
    ret tt
  else if bool_decide (value status = LoaderStatusErrorUnknownApp) then
    loader_dialog_prepare_and_show err_app_not_found
  else if bool_decide (value status = LoaderStatusErrorInternal) then
    match error status with
    | LoaderStatusErrorInvalidFile => loader_dialog_prepare_and_show err_invalid_flie
    | LoaderStatusErrorInvalidManifest =>
        loader_dialog_prepare_and_show err_invalid_manifest
    | LoaderStatusErrorMissingImports =>
        loader_dialog_prepare_and_show err_missing_imports
    | LoaderStatusErrorHWMismatch =>
        loader_dialog_prepare_and_show err_hw_target_mismatch
    | LoaderStatusErrorOutdatedApp => loader_dialog_prepare_and_show err_outdated_app
    | LoaderStatusErrorOutdatedFirmware =>
        loader_dialog_prepare_and_show err_outdated_firmware
    | LoaderStatusErrorOutOfMemory =>
        res <- dialog_show (gui_message out_of_memory_dialog) ;;
        if bool_decide (res = DialogMessageButtonRight) then furi_hal_power_reset
        else ret tt
    | LoaderStatusErrorUnknown =>
        (* Generic error *)
        match error_message with
        | Some m => dialog_show (gui_message (generic_error_dialog m)) ;; ret tt
        | None => furi_crash
        end
    end
  else ret tt.

(** ** The dispatcher *)

(** The messages of the queue, with what each carries. *)
Inductive LoaderMessage :=
| LoaderMessageTypeStartByName (name : string) (args error_message : option string)
| LoaderMessageTypeStartByNameDetachedWithGuiError (name : string) (args : option string)
| LoaderMessageTypeShowMenu
| LoaderMessageTypeShowSettings
| LoaderMessageTypeMenuClosed
| LoaderMessageTypeIsLocked
| LoaderMessageTypeAppClosed
| LoaderMessageTypeLock
| LoaderMessageTypeUnlock
| LoaderMessageTypeApplicationsClosed
| LoaderMessageTypeSignal (signal : Z)
| LoaderMessageTypeGetApplicationName.

(** What the handler of a message writes for the caller that waits: nothing,
    a status with the message buffer, a boolean, or the name of the running
    application ([None] for the answer false). *)
Inductive LoaderMessageResult :=
| NoResult
| StatusValue (status : LoaderMessageLoaderStatusResult) (error_message : option string)
| BoolValue (b : bool)
| ApplicationName (name : option string).

(** The [switch] of [loader_srv], for one message taken from the queue. *)
Definition loader_srv_dispatch (message : LoaderMessage) : M LoaderMessageResult :=
  match message with
  | LoaderMessageTypeStartByName name args error_message =>
      r <- loader_do_start_by_name name args error_message ;;
      ret (StatusValue (fst r) (snd r))
  | LoaderMessageTypeStartByNameDetachedWithGuiError name args =>
      let error_message := Some "" in
      r <- loader_do_start_by_name name args error_message ;;
      loader_show_gui_error (fst r) name (snd r) ;;
      ret NoResult
  | LoaderMessageTypeShowMenu => loader_do_menu_show false ;; ret NoResult
  | LoaderMessageTypeShowSettings => loader_do_menu_show true ;; ret NoResult
  | LoaderMessageTypeMenuClosed => loader_do_menu_closed ;; ret NoResult
  | LoaderMessageTypeIsLocked => b <- loader_do_is_locked ;; ret (BoolValue b)
  | LoaderMessageTypeAppClosed => loader_do_app_closed ;; ret NoResult
  | LoaderMessageTypeLock => b <- loader_do_lock ;; ret (BoolValue b)
  | LoaderMessageTypeUnlock => loader_do_unlock ;; ret NoResult
  | LoaderMessageTypeApplicationsClosed => loader_do_applications_closed ;; ret NoResult
  | LoaderMessageTypeSignal signal => b <- loader_do_signal signal ;; ret (BoolValue b)
  | LoaderMessageTypeGetApplicationName =>
      name <- loader_do_get_application_name ;;
      ret (ApplicationName name)
  end.

(** The loop of [loader_srv] over the messages that the queue delivers, in
    their order. *)
Fixpoint loader_srv_loop (messages : list LoaderMessage) : M (list LoaderMessageResult) :=
  match messages with
  | [] => ret []
  | message :: rest =>
      r <- loader_srv_dispatch message ;;
      rs <- loader_srv_loop rest ;;
      ret (r :: rs)
  end.

(** ** States of the service *)

Definition is_thread (p : FuriThreadPtr) : bool :=
  match p with Thread _ => true | _ => false end.

(** A slot that holds no thread object owns neither an argument buffer nor a
    binary. *)
Definition slot_owns_nothing (l : Loader) : Prop :=
  is_thread (app_thread l) = false -> app_args l = None /\ app_fap l = None.

(** What [loader_alloc] and the menu file leave alone: everything of the
    world but the menu file and the old list of additional applications. *)
Definition same_but_menu_files (w w' : World) : Prop :=
  insomnia w' = insomnia w
  /\ published w' = published w
  /\ shown w' = shown w
  /\ forall p, p <> MAINMENU_APPS_PATH -> p <> XTREME_APPS_PATH ->
               files w' !! p = files w !! p.

(** The states of the service: what [loader_alloc] returns, and from there
    what the dispatcher makes of a message, the world changing in any way
    between two messages. *)
Inductive reachable : State -> Prop :=
| reachable_alloc (s0 s : State) :
    loader_alloc s0 = Ret tt s -> reachable s
| reachable_dispatch (s : State) (message : LoaderMessage)
    (r : LoaderMessageResult) (s' : State) :
    reachable s -> loader_srv_dispatch message s = Ret r s' -> reachable s'
| reachable_world (s : State) (w : World) :
    reachable s -> reachable (mkState (loader s) w).

End ErrorDialogs.

Module DemoService.

(** [furi_string_replace] on the first occurrence. *)
Fixpoint replace_first (fuel : nat) (s needle value : string) : string :=
  match fuel with
  | O => s
  | S fuel =>
      if String.prefix needle s
      then value ++ String.substring (String.length needle) (String.length s) s
      else match s with
           | EmptyString => ""
           | String c rest => String c (replace_first fuel rest needle value)
           end
  end.

#[local] Instance gui : Presentation := {
  I_err_01 := mkIcon 1 0 25 25 ["err_01"];
  I_err_02 := mkIcon 1 0 25 25 ["err_02"];
  I_err_03 := mkIcon 1 0 25 25 ["err_03"];
  I_err_04 := mkIcon 1 0 25 25 ["err_04"];
  I_err_05 := mkIcon 1 0 25 25 ["err_05"];
  I_err_06 := mkIcon 1 0 25 25 ["err_06"];
  I_err_07 := mkIcon 1 0 25 25 ["err_07"];
  I_WarningDolphinFlip_45x42 := mkIcon 1 0 45 42 ["dolphin"];
  furi_string_replace s needle value := replace_first (S (String.length s)) s needle value;
}.

(** Collaborators as in [Demo], but for a binary built for other hardware
    and one that does not fit into memory. *)
#[local] Instance env : Collaborators := {
  flipper_application_preload _ path :=
    if String.eqb path "/ext/apps/Tools/f18.fap"
    then FlipperApplicationPreloadStatusTargetMismatch
    else if String.eqb path "/ext/apps/Tools/huge.fap"
    then FlipperApplicationPreloadStatusNotEnoughMemory
    else @flipper_application_preload Demo.env ∅ path;
  flipper_application_map_to_memory := @flipper_application_map_to_memory Demo.env;
  flipper_application_get_manifest := @flipper_application_get_manifest Demo.env;
  flipper_application_is_plugin := @flipper_application_is_plugin Demo.env;
  flipper_application_preload_status_to_string :=
    @flipper_application_preload_status_to_string Demo.env;
  flipper_application_load_status_to_string :=
    @flipper_application_load_status_to_string Demo.env;
  flipper_application_load_name_and_icon files path :=
    if String.eqb path "/ext/apps/Tools/old.fap" then Some ("Old App", "old") else None;
  flipper_application_alloc_thread := @flipper_application_alloc_thread Demo.env;
  firmware_api_version_major := 78;
  furi_thread_signal := @furi_thread_signal Demo.env;
  path_extract_filename_no_ext path := "new";
  dialog_message_show := @dialog_message_show Demo.env;
  furi_hal_rtc_get_heap_track_mode := 0;
  FuriHalRtcHeapTrackModeNone := 0;
  furi_hal_debug_is_gdb_session_active := false;
  furi_hal_is_normal_boot := true;
  sscanf_MenuAppList_Version := @sscanf_MenuAppList_Version Demo.env;
}.

Definition storage : gmap string string :=
  <["/ext/apps/Tools/f18.fap" := "ELF"]>
  (<["/ext/apps/Tools/huge.fap" := "ELF"]>
  (<["/ext/apps/Tools/new.fap" := "ELF"]> Demo.storage)).

(** A storage with a menu file of version 1, written on another system. *)
Definition menu_storage : gmap string string :=
  <["/int/.config/mainmenu_apps.txt" :=
      "MenuAppList Version 1" ++ String LF ("Clock" ++ String CR (String LF
      ("/ext/apps/Tools/old.fap" ++ String LF ("Snake" ++ String LF
      ("NFC" ++ String LF "")))))]> storage.

Definition idle : State := mkState loader_init (mkWorld storage 0 [] []).
Definition with_menu_file : State := mkState loader_init (mkWorld menu_storage 0 [] []).
Definition locked : State :=
  mkState (set_thread LOADER_MAGIC_THREAD_VALUE loader_init) (mkWorld storage 0 [] []).
Definition running : State :=
  mkState (set_thread (Thread Demo.clock_thread) loader_init) (mkWorld storage 0 [] []).

(** The state of the service after [loader_alloc] on the storage with the
    menu file. *)
Definition booted : State :=
  match loader_alloc (apps := Demo.apps) (env := env) with_menu_file with
  | Ret _ s => s
  | Crash => with_menu_file
  end.

End DemoService.

(** * Properties *)

Lemma set_message_twice (error_message : option string) (a b : string) :
  set_message (set_message error_message a) b = set_message error_message b.
Proof. destruct error_message; reflexivity. Qed.

(** Steps of the monad, for the proofs below. *)
Ltac step :=
  unfold bind, ret, get_loader, get_world, modify_loader, modify_world,
         furi_check, furi_assert, furi_crash in *; cbn [loader world] in *.

(** The same, through the collaborator calls. *)
Ltac run :=
  unfold furi_pubsub_publish, furi_hal_power_insomnia_enter,
         furi_hal_power_insomnia_exit, dialog_show, storage_file_exists;
  unfold bind, ret, get_loader, get_world, modify_loader, modify_world,
         furi_check, furi_assert, furi_crash;
  cbn [loader world files insomnia published shown set_published set_insomnia
       set_shown set_files].

(** Decisions between distinct or equal constructors, and the result pairs. *)
Ltac decide_bools :=
  repeat first [ rewrite bool_decide_eq_true_2 by reflexivity
               | rewrite bool_decide_eq_false_2 by discriminate ].

Ltac results :=
  unfold status_with, loader_make_status_error, loader_make_success_status;
  cbn [fst snd value error negb andb orb];
  decide_bools;
  cbn [fst snd value error negb andb orb];
  rewrite ?set_message_twice.

(** ** The lifecycle slot: lock and unlock *)

Lemma loader_do_lock_empty (s : State) :
  app_thread (loader s) = NULL ->
  loader_do_lock s =
    Ret true (mkState (set_thread LOADER_MAGIC_THREAD_VALUE (loader s)) (world s)).
Proof. intros H. unfold loader_do_lock. step. rewrite H. reflexivity. Qed.

Lemma loader_do_lock_occupied (s : State) :
  app_thread (loader s) <> NULL -> loader_do_lock s = Ret false s.
Proof.
  intros H. unfold loader_do_lock. step.
  destruct (app_thread (loader s)); [congruence | reflexivity | reflexivity].
Qed.

Lemma loader_do_is_locked_spec (s : State) :
  loader_do_is_locked s = Ret (negb (is_null (app_thread (loader s)))) s.
Proof. reflexivity. Qed.

(** C4: [loader_do_lock] answers true exactly when the slot is empty, and then
    leaves it administratively locked; on an occupied slot it answers false
    and changes nothing; [loader_do_unlock] after a successful lock empties
    the slot again, nothing else of the loader or the world having changed. *)
Theorem lock_unlock_slot (s : State) :
  (exists b s', loader_do_lock s = Ret b s'
     /\ (b = true <-> app_thread (loader s) = NULL)
     /\ (b = true -> app_thread (loader s') = LOADER_MAGIC_THREAD_VALUE
                     /\ s' = mkState (set_thread LOADER_MAGIC_THREAD_VALUE (loader s)) (world s))
     /\ (b = false -> s' = s))
  /\ (forall s', loader_do_lock s = Ret true s' ->
        exists s'', loader_do_unlock s' = Ret tt s''
          /\ app_thread (loader s'') = NULL
          /\ s'' = s).
Proof.
  split.
  - destruct (app_thread (loader s)) eqn:E.
    + exists true, (mkState (set_thread LOADER_MAGIC_THREAD_VALUE (loader s)) (world s)).
      rewrite loader_do_lock_empty by assumption.
      repeat split; auto; discriminate.
    + exists false, s. rewrite loader_do_lock_occupied by congruence.
      repeat split; auto; intros; discriminate.
    + exists false, s. rewrite loader_do_lock_occupied by congruence.
      repeat split; auto; intros; discriminate.
  - intros s' Hl.
    destruct (app_thread (loader s)) eqn:E.
    + rewrite loader_do_lock_empty in Hl by assumption. inversion Hl; subst s'.
      exists s. destruct s as [l w]; destruct l; cbn in E; subst.
      split; [reflexivity | split; reflexivity].
    + rewrite loader_do_lock_occupied in Hl by congruence. discriminate.
    + rewrite loader_do_lock_occupied in Hl by congruence. discriminate.
Qed.

(** Unlocking a slot that is not administratively locked is a failed check. *)
Lemma loader_do_unlock_not_locked (s : State) :
  app_thread (loader s) <> LOADER_MAGIC_THREAD_VALUE -> loader_do_unlock s = Crash.
Proof.
  intros H. unfold loader_do_unlock. step.
  destruct (app_thread (loader s)); [reflexivity | congruence | reflexivity].
Qed.

(** The name and signal queries see a running application only: not the
    empty slot, and not the administratively locked one. *)
Lemma loader_do_get_application_name_spec (s : State) :
  loader_do_get_application_name s
  = Ret (match app_thread (loader s) with
         | Thread t => Some (thread_name t)
         | _ => None
         end) s.
Proof.
  unfold loader_do_get_application_name, loader_is_application_running. step.
  destruct (app_thread (loader s)); reflexivity.
Qed.

(** ** The error-kind mapping *)

(** C3: the two mapping functions are total functions of the status alone;
    each failure category has the error kind of the table, and every other
    status, success included, has [LoaderStatusErrorUnknown]. *)
Theorem status_error_mapping :
  loader_status_error_from_preload_status FlipperApplicationPreloadStatusInvalidFile
    = LoaderStatusErrorInvalidFile
  /\ loader_status_error_from_preload_status FlipperApplicationPreloadStatusInvalidManifest
    = LoaderStatusErrorInvalidManifest
  /\ loader_status_error_from_preload_status FlipperApplicationPreloadStatusNotEnoughMemory
    = LoaderStatusErrorOutOfMemory
  /\ loader_status_error_from_preload_status FlipperApplicationPreloadStatusApiTooOld
    = LoaderStatusErrorOutdatedApp
  /\ loader_status_error_from_preload_status FlipperApplicationPreloadStatusApiTooNew
    = LoaderStatusErrorOutdatedFirmware
  /\ loader_status_error_from_preload_status FlipperApplicationPreloadStatusTargetMismatch
    = LoaderStatusErrorHWMismatch
  /\ loader_status_error_from_load_status FlipperApplicationLoadStatusMissingImports
    = LoaderStatusErrorMissingImports
  /\ (forall st,
        ~ In st [FlipperApplicationPreloadStatusInvalidFile;
                 FlipperApplicationPreloadStatusInvalidManifest;
                 FlipperApplicationPreloadStatusNotEnoughMemory;
                 FlipperApplicationPreloadStatusApiTooOld;
                 FlipperApplicationPreloadStatusApiTooNew;
                 FlipperApplicationPreloadStatusTargetMismatch] ->
        loader_status_error_from_preload_status st = LoaderStatusErrorUnknown)
  /\ (forall st,
        st <> FlipperApplicationLoadStatusMissingImports ->
        loader_status_error_from_load_status st = LoaderStatusErrorUnknown)
  /\ (forall st, exists! e, loader_status_error_from_preload_status st = e)
  /\ (forall st, exists! e, loader_status_error_from_load_status st = e).
Proof.
  do 7 (split; [reflexivity |]).
  split; [| split; [| split]].
  - intros st H. destruct st; try reflexivity; exfalso; apply H; cbn; tauto.
  - intros st H. destruct st; try reflexivity; congruence.
  - intros st. eexists. split; [reflexivity | auto].
  - intros st. eexists. split; [reflexivity | auto].
Qed.

(** The failure categories of the preload step have pairwise distinct kinds. *)
Lemma preload_error_kinds_distinct (a b : FlipperApplicationPreloadStatus) :
  loader_status_error_from_preload_status a <> LoaderStatusErrorUnknown ->
  loader_status_error_from_preload_status a = loader_status_error_from_preload_status b ->
  a = b.
Proof. destruct a, b; cbn; congruence. Qed.

(** ** Starting while the slot is occupied *)

Section StartOccupied.

Context {apps : Applications} {env : Collaborators}.

(** C1: a start on a slot that is not empty returns
    [LoaderStatusErrorAppStarted] and leaves the loader and the world as they
    were; the message written to the caller's buffer is the generic one when
    the slot is administratively locked, and names the thread of the running
    application when there is one. *)
Theorem start_while_occupied
    (name : string) (args error_message : option string) (s : State) :
  app_thread (loader s) <> NULL ->
  exists msg,
    loader_do_start_by_name name args error_message s
      = Ret (mkStatusResult LoaderStatusErrorAppStarted LoaderStatusErrorUnknown,
             set_message error_message msg) s
    /\ (app_thread (loader s) = LOADER_MAGIC_THREAD_VALUE -> msg = "Loader is locked")
    /\ (forall t, app_thread (loader s) = Thread t ->
          msg = "Loader is locked, please close the " ++ DQUOTE
                ++ thread_name t ++ DQUOTE ++ " first").
Proof.
  intros H. unfold loader_do_start_by_name, loader_do_is_locked. step.
  destruct (app_thread (loader s)) as [| |t] eqn:E; [congruence | |]; cbn.
  - exists "Loader is locked". unfold status_with, loader_make_status_error; cbn.
    rewrite set_message_twice. split; [reflexivity |].
    split; [reflexivity | discriminate].
  - eexists. unfold status_with, loader_make_status_error; cbn.
    rewrite set_message_twice. split; [reflexivity |].
    split; [discriminate |]. intros t' Ht. inversion Ht; subst. reflexivity.
Qed.

End StartOccupied.

Lemma start_while_occupied_witness :
  (exists msg,
     loader_do_start_by_name (apps := Demo.apps) (env := Demo.env)
         "Sub-GHz" None (Some "") Demo.running
       = Ret (mkStatusResult LoaderStatusErrorAppStarted LoaderStatusErrorUnknown,
              Some msg) Demo.running
     /\ msg = "Loader is locked, please close the " ++ DQUOTE ++ "Clock" ++ DQUOTE ++ " first")
  /\ (exists msg,
      loader_do_start_by_name (apps := Demo.apps) (env := Demo.env)
          "Sub-GHz" None (Some "") Demo.locked
        = Ret (mkStatusResult LoaderStatusErrorAppStarted LoaderStatusErrorUnknown,
               Some msg) Demo.locked
      /\ msg = "Loader is locked").
Proof.
  split.
  - destruct (@start_while_occupied Demo.apps Demo.env "Sub-GHz" None (Some "") Demo.running)
      as (msg & Hrun & _ & Hname); [discriminate |].
    exists msg. split; [exact Hrun | exact (Hname _ eq_refl)].
  - destruct (@start_while_occupied Demo.apps Demo.env "Sub-GHz" None (Some "") Demo.locked)
      as (msg & Hrun & Hlock & _); [discriminate |].
    exists msg. split; [exact Hrun | exact (Hlock eq_refl)].
Defined.

(** ** Activation, and the insomnia hold *)

Ltac threads :=
  unfold on_app_thread; run;
  cbn [set_fap set_thread set_args set_insomniac set_loader_menu
       set_loader_applications set_menu_apps
       loader_menu loader_applications app_args app_thread
       app_insomniac app_fap menu_apps].

Section Activation.

Context {apps : Applications} {env : Collaborators}.

Lemma loader_start_app_thread_spec
    (flags : FlipperApplicationFlag) (s : State) (t : FuriThread) :
  app_thread (loader s) = Thread t ->
  loader_start_app_thread flags s = Ret tt (app_thread_started flags t s).
Proof.
  intros Ht. unfold loader_start_app_thread, app_thread_started, started_thread.
  destruct (furi_hal_rtc_get_heap_track_mode >? FuriHalRtcHeapTrackModeNone);
    threads; rewrite Ht; destruct (insomnia_safe flags); threads; reflexivity.
Qed.

(** A start of the thread of a slot that holds no thread object is a failed
    check. *)
Lemma loader_start_app_thread_no_thread (flags : FlipperApplicationFlag) (s : State) :
  (forall t, app_thread (loader s) <> Thread t) ->
  loader_start_app_thread flags s = Crash.
Proof.
  intros Hn. unfold loader_start_app_thread.
  destruct (furi_hal_rtc_get_heap_track_mode >? FuriHalRtcHeapTrackModeNone);
    threads; destruct (app_thread (loader s)) as [| |t]; try reflexivity;
    exfalso; exact (Hn t eq_refl).
Qed.

Lemma loader_do_app_closed_spec (s : State) (t : FuriThread) :
  app_thread (loader s) = Thread t ->
  loader_do_app_closed s
    = Ret tt
        (mkState
           (set_thread NULL (set_fap None (set_args None (loader s))))
           (set_published
              (published (world s) ++ [LoaderEventTypeApplicationStopped])
              (if app_insomniac (loader s)
               then set_insomnia (insomnia (world s) - 1) (world s)
               else world s))).
Proof.
  intros Ht. destruct s as [[m a ar th ins f ma] w]. cbn in Ht. subst th.
  destruct ar, ins, f; reflexivity.
Qed.

(** C5: activation takes the insomnia hold and records that it did exactly
    when the flags of the application do not declare it insomnia-safe; the
    close gives the hold back exactly when that was recorded; so whatever
    the application did to the world in between, the enter of the activation
    and the exit of the close cancel, and the slot is empty again. *)
Theorem insomnia_hold_balanced
    (flags : FlipperApplicationFlag) (s : State) (t : FuriThread) :
  app_thread (loader s) = Thread t ->
  exists s1,
    loader_start_app_thread flags s = Ret tt s1
    /\ (app_insomniac (loader s1) = true <-> insomnia_safe flags = false)
    /\ insomnia (world s1)
       = insomnia (world s) + (if insomnia_safe flags then 0 else 1)
    /\ forall w : World,
         exists s2,
           loader_do_app_closed (mkState (loader s1) w) = Ret tt s2
           /\ insomnia (world s2)
              = insomnia w - (if app_insomniac (loader s1) then 1 else 0)
           /\ (insomnia (world s1) - insomnia (world s))
              + (insomnia (world s2) - insomnia w) = 0
           /\ app_thread (loader s2) = NULL.
Proof.
  intros Ht. exists (app_thread_started flags t s).
  split; [exact (loader_start_app_thread_spec flags s t Ht) |].
  unfold app_thread_started.
  split; [cbn; destruct (insomnia_safe flags); cbn; intuition congruence |].
  split; [destruct (insomnia_safe flags); cbn; lia |].
  intros w. eexists.
  split; [apply (loader_do_app_closed_spec _ (started_thread t)); reflexivity |].
  destruct (insomnia_safe flags); cbn; repeat apply conj; try reflexivity; lia.
Qed.

Lemma loader_do_signal_spec (signal : Z) (s : State) :
  loader_do_signal signal s
  = Ret (match app_thread (loader s) with
         | Thread t => furi_thread_signal t signal
         | _ => false
         end) s.
Proof.
  unfold loader_do_signal, loader_is_application_running. step.
  destruct (app_thread (loader s)); reflexivity.
Qed.

(** Closing an application on a slot that holds no thread object is a failed
    check. *)
Lemma loader_do_app_closed_no_thread (s : State) :
  (forall t, app_thread (loader s) <> Thread t) ->
  loader_do_app_closed s = Crash.
Proof.
  intros Hn. destruct s as [[m a ar th ins f ma] w]. cbn in Hn.
  destruct th as [| |t]; try reflexivity.
  exfalso. exact (Hn t eq_refl).
Qed.

End Activation.

Lemma insomnia_hold_balanced_witness :
  exists s1,
    loader_start_app_thread (apps := Demo.apps) (env := Demo.env) 0 Demo.running
      = Ret tt s1
    /\ (app_insomniac (loader s1) = true
        <-> insomnia_safe (apps := Demo.apps) 0 = false)
    /\ insomnia (world s1) = 0 + 1
    /\ forall w : World,
         exists s2,
           loader_do_app_closed (mkState (loader s1) w) = Ret tt s2
           /\ insomnia (world s2)
              = insomnia w - (if app_insomniac (loader s1) then 1 else 0)
           /\ (insomnia (world s1) - 0) + (insomnia (world s2) - insomnia w) = 0
           /\ app_thread (loader s2) = NULL.
Proof.
  exact (@insomnia_hold_balanced Demo.apps Demo.env 0 Demo.running Demo.clock_thread
           eq_refl).
Defined.

(** ** The external-application pipeline *)

Ltac failed_state :=
  unfold load_failed_state;
  cbn [loader world files insomnia published shown
       set_published set_insomnia set_shown set_files
       set_fap set_thread set_args set_insomniac
       loader_menu loader_applications app_args app_thread
       app_insomniac app_fap menu_apps];
  rewrite <- ?app_assoc, ?app_nil_r; reflexivity.

Section ExternalApp.

Context {apps : Applications} {env : Collaborators}.

Variables (path : string) (args error_message : option string).
Variable flags : FlipperApplicationFlag.
Variable s : State.

Let preload_res := flipper_application_preload (files (world s)) path.
Let load_status := flipper_application_map_to_memory (files (world s)) path.
Let manifest := flipper_application_get_manifest (files (world s)) path.

Lemma load_failed_state_slot (dialogs : list DialogMessage) :
  app_thread (loader (load_failed_state s dialogs)) = app_thread (loader s)
  /\ app_insomniac (loader (load_failed_state s dialogs)) = app_insomniac (loader s)
  /\ app_args (loader (load_failed_state s dialogs)) = app_args (loader s)
  /\ app_fap (loader (load_failed_state s dialogs)) = None
  /\ insomnia (world (load_failed_state s dialogs)) = insomnia (world s).
Proof. repeat apply conj; reflexivity. Qed.

(** A preload that fails for another reason than the API version. *)
Lemma start_external_preload_failed :
  api_mismatch_of preload_res = false ->
  preload_res <> FlipperApplicationPreloadStatusSuccess ->
  loader_start_external_app path args error_message flags s
    = Ret (mkStatusResult LoaderStatusErrorInternal
             (loader_status_error_from_preload_status preload_res),
           set_message error_message (preload_failed_message path preload_res))
          (load_failed_state s []).
Proof.
  intros Hm Hp.
  unfold loader_start_external_app, loader_start_external_app_body. run.
  fold preload_res. rewrite Hm. rewrite (bool_decide_eq_false_2 _ Hp).
  results. run. results. failed_state.
Qed.

(** A map that fails on a binary whose preload succeeded. *)
Lemma start_external_load_failed :
  preload_res = FlipperApplicationPreloadStatusSuccess ->
  load_status <> FlipperApplicationLoadStatusSuccess ->
  loader_start_external_app path args error_message flags s
    = Ret (mkStatusResult LoaderStatusErrorInternal
             (loader_status_error_from_load_status load_status),
           set_message error_message
             ("Load failed, " ++ path ++ ": "
              ++ flipper_application_load_status_to_string load_status))
          (load_failed_state s []).
Proof.
  intros Hp Hl.
  unfold loader_start_external_app, loader_start_external_app_body. run.
  fold preload_res load_status. rewrite Hp. unfold api_mismatch_of.
  rewrite (bool_decide_eq_false_2 _ Hl).
  results. run. results. failed_state.
Qed.

(** An API mismatch followed by a failed map. *)
Lemma start_external_mismatch_load_failed :
  api_mismatch_of preload_res = true ->
  load_status <> FlipperApplicationLoadStatusSuccess ->
  loader_start_external_app path args error_message flags s
    = Ret (mkStatusResult LoaderStatusErrorInternal
             (loader_status_error_from_preload_status preload_res),
           set_message error_message (preload_failed_message path preload_res))
          (load_failed_state s []).
Proof.
  intros Hm Hl.
  unfold loader_start_external_app, loader_start_external_app_body. run.
  fold preload_res load_status. rewrite Hm.
  rewrite (bool_decide_eq_false_2 _ Hl).
  results. run. results. failed_state.
Qed.

(** An API mismatch, a successful map, and a user who does not continue. *)
Lemma start_external_mismatch_declined :
  api_mismatch_of preload_res = true ->
  load_status = FlipperApplicationLoadStatusSuccess ->
  dialog_message_show (api_mismatch_dialog preload_res manifest)
    <> DialogMessageButtonRight ->
  loader_start_external_app path args error_message flags s
    = Ret (mkStatusResult LoaderStatusErrorAppStarted
             (loader_status_error_from_preload_status preload_res),
           set_message error_message (preload_failed_message path preload_res))
          (load_failed_state s [api_mismatch_dialog preload_res manifest]).
Proof.
  intros Hm Hl Hd.
  unfold loader_start_external_app, loader_start_external_app_body. run.
  fold preload_res load_status manifest. rewrite Hm, Hl.
  results. run. fold manifest.
  rewrite (bool_decide_eq_false_2 _ Hd).
  results. run. results. failed_state.
Qed.

Lemma start_external_plugin :
  reaches_start s path ->
  flipper_application_is_plugin (files (world s)) path = true ->
  loader_start_external_app path args error_message flags s
    = Ret (mkStatusResult LoaderStatusErrorInternal LoaderStatusErrorUnknown,
           set_message error_message ("Plugin " ++ path ++ " is not runnable"))
          (load_failed_state s (dialogs_before_start s path)).
Proof.
  intros [Hp Hl] Hplug.
  unfold loader_start_external_app, loader_start_external_app_body. run.
  unfold dialogs_before_start. cbv zeta.
  cbv zeta in Hp. fold preload_res manifest in Hp. fold load_status in Hl.
  fold preload_res load_status manifest. rewrite Hl.
  destruct Hp as [Hp | [Hm Hd]].
  - rewrite Hp. unfold api_mismatch_of. results. run. results.
    rewrite Hplug. results. run. results. failed_state.
  - rewrite Hm. results. run. fold manifest. rewrite Hd.
    results. rewrite Hplug. results. run. results. failed_state.
Qed.

(** A binary that reaches the runnability check and is no plugin is started:
    the slot holds its thread, and the binary stays mapped. *)
Lemma start_external_started :
  reaches_start s path ->
  flipper_application_is_plugin (files (world s)) path = false ->
  loader_start_external_app path args error_message flags s
    = Ret (mkStatusResult LoaderStatusOk LoaderStatusErrorUnknown,
           set_message error_message "App started")
          (external_app_started path args flags s).
Proof.
  intros [Hp Hl] Hplug.
  unfold loader_start_external_app, loader_start_external_app_body. run.
  unfold external_app_started, dialogs_before_start. cbv zeta.
  cbv zeta in Hp. fold preload_res manifest in Hp. fold load_status in Hl.
  fold preload_res load_status manifest. rewrite Hl.
  unfold debugger_breakpoint.
  destruct Hp as [Hp | [Hm Hd]].
  - rewrite Hp. unfold api_mismatch_of. results. run. results.
    rewrite Hplug. threads.
    destruct furi_hal_debug_is_gdb_session_active; run;
      erewrite loader_start_app_thread_spec by reflexivity;
      results; rewrite app_nil_r; reflexivity.
  - rewrite Hm. results. run. fold manifest. rewrite Hd.
    results. rewrite Hplug. threads.
    destruct furi_hal_debug_is_gdb_session_active; run;
      erewrite loader_start_app_thread_spec by reflexivity;
      results; reflexivity.
Qed.

End ExternalApp.

Section ExternalAppClaims.

Context {apps : Applications} {env : Collaborators}.

Variables (path : string) (args error_message : option string).
Variable flags : FlipperApplicationFlag.
Variable s : State.

(** C2: a binary whose preload finds its API too old and whose map succeeds,
    with a user who does not choose to continue: the start returns
    [LoaderStatusErrorAppStarted], which is not [LoaderStatusErrorInternal],
    with the error kind [LoaderStatusErrorOutdatedApp]; the binary is freed,
    the load-failed event is published after the before-load event, and the
    thread pointer of the slot is as it was, so an empty slot stays empty. *)
Theorem declined_outdated_app :
  flipper_application_preload (files (world s)) path
    = FlipperApplicationPreloadStatusApiTooOld ->
  flipper_application_map_to_memory (files (world s)) path
    = FlipperApplicationLoadStatusSuccess ->
  dialog_message_show
    (api_mismatch_dialog FlipperApplicationPreloadStatusApiTooOld
       (flipper_application_get_manifest (files (world s)) path))
    <> DialogMessageButtonRight ->
  exists r s',
    loader_start_external_app path args error_message flags s
      = Ret (r, set_message error_message
                  (preload_failed_message path FlipperApplicationPreloadStatusApiTooOld)) s'
    /\ value r = LoaderStatusErrorAppStarted
    /\ value r <> LoaderStatusErrorInternal
    /\ error r = LoaderStatusErrorOutdatedApp
    /\ app_fap (loader s') = None
    /\ published (world s')
       = (published (world s) ++ [LoaderEventTypeApplicationBeforeLoad;
                                  LoaderEventTypeApplicationLoadFailed])%list
    /\ app_thread (loader s') = app_thread (loader s)
    /\ (app_thread (loader s) = NULL -> app_thread (loader s') = NULL).
Proof.
  intros Hp Hl Hd.
  pose proof (start_external_mismatch_declined path args error_message flags s) as H.
  cbv zeta in H. rewrite Hp in H. specialize (H eq_refl Hl Hd).
  do 2 eexists. split; [exact H |].
  cbn. repeat apply conj; try reflexivity; [discriminate | auto].
Qed.

(** C8: a binary that is a plugin, reached by the runnability check (its
    preload succeeded, or found an API mismatch that the user chose to
    ignore, and its map succeeded): the start returns
    [LoaderStatusErrorInternal] with the kind [LoaderStatusErrorUnknown] and
    the message that the plugin is not runnable; the binary is freed, the
    load-failed event is published, and the thread pointer of the slot is as
    it was, so the slot does not become running. *)
Theorem plugin_not_runnable :
  reaches_start s path ->
  flipper_application_is_plugin (files (world s)) path = true ->
  exists s',
    loader_start_external_app path args error_message flags s
      = Ret (mkStatusResult LoaderStatusErrorInternal LoaderStatusErrorUnknown,
             set_message error_message ("Plugin " ++ path ++ " is not runnable")) s'
    /\ app_fap (loader s') = None
    /\ published (world s')
       = (published (world s) ++ [LoaderEventTypeApplicationBeforeLoad;
                                  LoaderEventTypeApplicationLoadFailed])%list
    /\ app_thread (loader s') = app_thread (loader s)
    /\ insomnia (world s') = insomnia (world s).
Proof.
  intros Hr Hplug.
  eexists. split; [exact (start_external_plugin path args error_message flags s Hr Hplug) |].
  cbn. repeat apply conj; reflexivity.
Qed.

(** C10: a binary whose preload finds an API mismatch and whose map then
    fails: the start returns [LoaderStatusErrorInternal] with the kind of the
    preload status, outdated app or outdated firmware, and the preload-failed
    message; the kind is neither that of missing imports nor the one the
    failed map would have had. *)
Theorem mismatch_then_map_failure :
  api_mismatch_of (flipper_application_preload (files (world s)) path) = true ->
  flipper_application_map_to_memory (files (world s)) path
    <> FlipperApplicationLoadStatusSuccess ->
  exists r s',
    loader_start_external_app path args error_message flags s
      = Ret (r, set_message error_message
                  (preload_failed_message path
                     (flipper_application_preload (files (world s)) path))) s'
    /\ value r = LoaderStatusErrorInternal
    /\ error r = loader_status_error_from_preload_status
                   (flipper_application_preload (files (world s)) path)
    /\ (flipper_application_preload (files (world s)) path
          = FlipperApplicationPreloadStatusApiTooOld ->
        error r = LoaderStatusErrorOutdatedApp)
    /\ (flipper_application_preload (files (world s)) path
          = FlipperApplicationPreloadStatusApiTooNew ->
        error r = LoaderStatusErrorOutdatedFirmware)
    /\ error r <> LoaderStatusErrorMissingImports
    /\ error r <> LoaderStatusErrorUnknown
    /\ error r <> loader_status_error_from_load_status
                    (flipper_application_map_to_memory (files (world s)) path)
    /\ app_fap (loader s') = None
    /\ app_thread (loader s') = app_thread (loader s).
Proof.
  intros Hm Hl.
  do 2 eexists.
  split; [exact (start_external_mismatch_load_failed path args error_message flags s Hm Hl) |].
  cbn [value error].
  destruct (flipper_application_preload (files (world s)) path); try discriminate Hm;
    destruct (flipper_application_map_to_memory (files (world s)) path);
    cbn; repeat apply conj; try reflexivity; try discriminate; try congruence.
Qed.

End ExternalAppClaims.

Lemma declined_outdated_app_witness :
  exists r s',
    loader_start_external_app (apps := Demo.apps) (env := Demo.env)
        "/ext/apps/Tools/old.fap" None (Some "") 0 Demo.idle
      = Ret (r, Some "Preload failed, /ext/apps/Tools/old.fap: App is too old") s'
    /\ value r = LoaderStatusErrorAppStarted
    /\ value r <> LoaderStatusErrorInternal
    /\ error r = LoaderStatusErrorOutdatedApp
    /\ app_fap (loader s') = None
    /\ published (world s')
       = [LoaderEventTypeApplicationBeforeLoad; LoaderEventTypeApplicationLoadFailed]
    /\ app_thread (loader s') = NULL
    /\ (NULL = NULL -> app_thread (loader s') = NULL).
Proof.
  apply (@declined_outdated_app Demo.apps Demo.env
           "/ext/apps/Tools/old.fap" None (Some "") 0 Demo.idle);
    [reflexivity | reflexivity | discriminate].
Defined.

Lemma plugin_not_runnable_witness :
  exists s',
    loader_start_external_app (apps := Demo.apps) (env := Demo.env)
        "/ext/apps/Tools/new_lib.fal" None (Some "") 0 Demo.idle
      = Ret (mkStatusResult LoaderStatusErrorInternal LoaderStatusErrorUnknown,
             Some "Plugin /ext/apps/Tools/new_lib.fal is not runnable") s'
    /\ app_fap (loader s') = None
    /\ published (world s')
       = [LoaderEventTypeApplicationBeforeLoad; LoaderEventTypeApplicationLoadFailed]
    /\ app_thread (loader s') = NULL
    /\ insomnia (world s') = 0.
Proof.
  apply (@plugin_not_runnable Demo.apps Demo.env
           "/ext/apps/Tools/new_lib.fal" None (Some "") 0 Demo.idle).
  - split; [right; split; reflexivity | reflexivity].
  - reflexivity.
Defined.

Lemma mismatch_then_map_failure_witness :
  exists r s',
    loader_start_external_app (apps := Demo.apps) (env := Demo.env)
        "/ext/apps/Tools/old_broken.fap" None (Some "") 0 Demo.idle
      = Ret (r, Some "Preload failed, /ext/apps/Tools/old_broken.fap: App is too old") s'
    /\ value r = LoaderStatusErrorInternal
    /\ error r = LoaderStatusErrorOutdatedApp.
Proof.
  destruct (@mismatch_then_map_failure Demo.apps Demo.env
              "/ext/apps/Tools/old_broken.fap" None (Some "") 0 Demo.idle)
    as (r & s' & Hrun & Hv & He & _); [reflexivity | discriminate |].
  exists r, s'. split; [exact Hrun | split; [exact Hv | exact He]].
Defined.

(** ** Resolution of a name on an empty slot *)

Section Resolver.

Context {apps : Applications} {env : Collaborators}.

Variables (name : string) (args error_message : option string).
Variable s : State.

Hypothesis slot_empty : app_thread (loader s) = NULL.

(** The state in which the start of the built-in application [app] leaves
    [s]. *)
Lemma loader_start_internal_app_spec (app : FlipperInternalApplication) :
  app_args (loader s) = None ->
  loader_start_internal_app app args s
    = Ret tt (internal_app_started app args s).
Proof.
  intros Ha. unfold loader_start_internal_app, internal_app_started.
  destruct s as [[m a ar th ins f ma] w]. cbn in Ha. subst ar.
  unfold loader_start_app_thread, app_thread_started, started_thread.
  destruct (strlen_pos args),
    (furi_hal_rtc_get_heap_track_mode >? FuriHalRtcHeapTrackModeNone) eqn:Hh,
    (insomnia_safe (int_flags app)) eqn:Hi;
    cbn; rewrite ?Hh, ?Hi; reflexivity.
Qed.

Lemma start_by_name_internal (app : FlipperInternalApplication) :
  app_args (loader s) = None ->
  loader_find_application_by_name (translate_app_name name) = Some app ->
  loader_do_start_by_name name args error_message s
    = Ret (mkStatusResult LoaderStatusOk LoaderStatusErrorUnknown,
           set_message error_message "App started")
          (internal_app_started app args s).
Proof.
  intros Ha Hf. unfold loader_do_start_by_name, loader_do_is_locked. run.
  rewrite slot_empty. cbn [is_null negb]. rewrite Hf.
  rewrite (loader_start_internal_app_spec app Ha). results. reflexivity.
Qed.

Lemma start_by_name_applications :
  loader_find_application_by_name (translate_app_name name) = None ->
  translate_app_name name = LOADER_APPLICATIONS_NAME ->
  loader_do_start_by_name name args error_message s
    = Ret (mkStatusResult LoaderStatusOk LoaderStatusErrorUnknown,
           set_message error_message "App started")
          (mkState (set_loader_applications true (loader s)) (world s)).
Proof.
  intros Hf Hn. unfold loader_do_start_by_name, loader_do_is_locked. run.
  rewrite slot_empty. cbn [is_null negb]. rewrite Hf, Hn, String.eqb_refl.
  unfold loader_do_applications_show. run.
  destruct s as [[m a ar th ins f ma] w]; destruct a; results; reflexivity.
Qed.

(** A name that is no built-in application and not the applications browser
    is handed to the external loader when the file it resolves to exists. *)
Lemma start_by_name_external :
  loader_find_application_by_name (translate_app_name name) = None ->
  translate_app_name name <> LOADER_APPLICATIONS_NAME ->
  storage_file_exists (world s)
    (fst (external_path_and_flags (translate_app_name name))) = true ->
  loader_do_start_by_name name args error_message s
    = loader_start_external_app
        (fst (external_path_and_flags (translate_app_name name))) args
        (set_message error_message "App started")
        (snd (external_path_and_flags (translate_app_name name))) s.
Proof.
  intros Hf Hn He. unfold loader_do_start_by_name, loader_do_is_locked. run.
  rewrite slot_empty. cbn [is_null negb]. rewrite Hf.
  apply String.eqb_neq in Hn. rewrite Hn.
  destruct (external_path_and_flags (translate_app_name name)) as [p fl].
  cbn [fst snd] in *. results. unfold storage_file_exists in He. rewrite He.
  reflexivity.
Qed.

Lemma start_by_name_unknown :
  loader_find_application_by_name (translate_app_name name) = None ->
  translate_app_name name <> LOADER_APPLICATIONS_NAME ->
  storage_file_exists (world s)
    (fst (external_path_and_flags (translate_app_name name))) = false ->
  loader_do_start_by_name name args error_message s
    = Ret (mkStatusResult LoaderStatusErrorUnknownApp LoaderStatusErrorUnknown,
           set_message error_message
             ("Application " ++ DQUOTE
              ++ fst (external_path_and_flags (translate_app_name name))
              ++ DQUOTE ++ " not found"))
          s.
Proof.
  intros Hf Hn He. unfold loader_do_start_by_name, loader_do_is_locked. run.
  rewrite slot_empty. cbn [is_null negb]. rewrite Hf.
  apply String.eqb_neq in Hn. rewrite Hn.
  destruct (external_path_and_flags (translate_app_name name)) as [p fl].
  cbn [fst snd] in *. unfold storage_file_exists in He. rewrite He.
  results. reflexivity.
Qed.

End Resolver.

Section ResolverClaims.

Context {apps : Applications} {env : Collaborators}.

Lemma loader_find_application_by_name_some
    (name : string) (app : FlipperInternalApplication) :
  loader_find_application_by_name name = Some app ->
  (In app FLIPPER_APPS \/ In app FLIPPER_SYSTEM_APPS \/ In app FLIPPER_DEBUG_APPS)
  /\ (int_name app = name \/ int_appid app = name).
Proof.
  unfold loader_find_application_by_name, first_found,
         loader_find_application_by_name_in_list.
  intros H.
  assert (Hm : forall l, List.find
                 (fun a => String.eqb name (int_name a) || String.eqb name (int_appid a)) l
               = Some app ->
               In app l /\ (int_name app = name \/ int_appid app = name)).
  { intros l Hl. apply List.find_some in Hl as [Hin Hb]. split; [exact Hin |].
    apply orb_prop in Hb as [Hb | Hb]; apply String.eqb_eq in Hb; auto. }
  destruct (List.find _ FLIPPER_APPS) eqn:E1.
  { inversion H; subst. apply Hm in E1 as [? ?]. auto. }
  destruct (List.find _ FLIPPER_SYSTEM_APPS) eqn:E2.
  { inversion H; subst. apply Hm in E2 as [? ?]. auto. }
  destruct (List.find _ FLIPPER_DEBUG_APPS) eqn:E3; [| discriminate].
  inversion H; subst. apply Hm in E3 as [? ?]. auto.
Qed.

(** C6: on an empty slot, a start of "Bad USB" with empty arguments goes on
    as a start of "Bad KB": with a built-in entry found under that name, the
    start succeeds, as the start of "Bad KB" itself does, and the slot holds
    the started thread of that entry. *)
Theorem bad_usb_starts_bad_kb
    (error_message : option string) (s : State) (app : FlipperInternalApplication) :
  app_thread (loader s) = NULL ->
  app_args (loader s) = None ->
  loader_find_application_by_name "Bad KB" = Some app ->
  translate_app_name "Bad USB" = "Bad KB"
  /\ (int_name app = "Bad KB" \/ int_appid app = "Bad KB")
  /\ exists s' t,
       loader_do_start_by_name "Bad USB" (Some "") error_message s
         = Ret (mkStatusResult LoaderStatusOk LoaderStatusErrorUnknown,
                set_message error_message "App started") s'
       /\ loader_do_start_by_name "Bad KB" (Some "") error_message s
          = loader_do_start_by_name "Bad USB" (Some "") error_message s
       /\ app_thread (loader s') = Thread t
       /\ thread_name t = int_name app
       /\ thread_appid t = Some (int_appid app)
       /\ thread_entry t = InternalEntry (int_app app)
       /\ thread_args t = None
       /\ started t = true
       /\ published (world s')
          = (published (world s) ++ [LoaderEventTypeApplicationBeforeLoad])%list.
Proof.
  intros He Ha Hf.
  split; [reflexivity |].
  split; [exact (proj2 (loader_find_application_by_name_some _ _ Hf)) |].
  do 2 eexists.
  split; [exact (start_by_name_internal "Bad USB" (Some "") error_message s He app Ha Hf) |].
  split.
  { rewrite (start_by_name_internal "Bad USB" (Some "") error_message s He app Ha Hf).
    exact (start_by_name_internal "Bad KB" (Some "") error_message s He app Ha Hf). }
  unfold internal_app_started, app_thread_started. cbn.
  rewrite Ha. repeat apply conj; try reflexivity.
  destruct (insomnia_safe (int_flags app)); reflexivity.
Qed.

(** C7, as the code has it: on an empty slot, a name that after the rewriting
    of the old keyboard name is no built-in application and not the
    applications browser, and whose file, after the substitution of the path
    of an external application of that name, does not exist, gets
    [LoaderStatusErrorUnknownApp]; the message names the name that the
    resolver ended with, which is the requested name when it does not begin
    with the old keyboard name and is no name of the external tables.
    Nothing of the loader or the world changes. *)
Theorem unknown_application
    (name : string) (args error_message : option string) (s : State) :
  app_thread (loader s) = NULL ->
  loader_find_application_by_name (translate_app_name name) = None ->
  translate_app_name name <> LOADER_APPLICATIONS_NAME ->
  storage_file_exists (world s)
    (fst (external_path_and_flags (translate_app_name name))) = false ->
  loader_do_start_by_name name args error_message s
    = Ret (mkStatusResult LoaderStatusErrorUnknownApp LoaderStatusErrorUnknown,
           set_message error_message
             ("Application " ++ DQUOTE
              ++ fst (external_path_and_flags (translate_app_name name))
              ++ DQUOTE ++ " not found"))
          s
  /\ (strncmp_strlen_eq name "Bad USB" = false ->
      loader_find_external_application_by_name name = None ->
      fst (external_path_and_flags (translate_app_name name)) = name).
Proof.
  intros He Hf Hn Hx.
  split; [exact (start_by_name_unknown name args error_message s He Hf Hn Hx) |].
  intros Hb Hext. unfold translate_app_name. rewrite Hb.
  unfold external_path_and_flags. rewrite Hext. reflexivity.
Qed.

End ResolverClaims.

Lemma bad_usb_starts_bad_kb_witness :
  translate_app_name "Bad USB" = "Bad KB"
  /\ ("Bad KB" = "Bad KB" \/ "bad_kb" = "Bad KB")
  /\ exists s' t,
       loader_do_start_by_name (apps := Demo.apps) (env := Demo.env)
           "Bad USB" (Some "") (Some "") Demo.idle
         = Ret (mkStatusResult LoaderStatusOk LoaderStatusErrorUnknown,
                Some "App started") s'
       /\ loader_do_start_by_name (apps := Demo.apps) (env := Demo.env)
             "Bad KB" (Some "") (Some "") Demo.idle
          = loader_do_start_by_name (apps := Demo.apps) (env := Demo.env)
              "Bad USB" (Some "") (Some "") Demo.idle
       /\ app_thread (loader s') = Thread t
       /\ thread_name t = "Bad KB"
       /\ thread_appid t = Some "bad_kb"
       /\ thread_entry t = InternalEntry 2
       /\ thread_args t = None
       /\ started t = true
       /\ published (world s') = [LoaderEventTypeApplicationBeforeLoad].
Proof.
  exact (@bad_usb_starts_bad_kb Demo.apps Demo.env (Some "") Demo.idle
           (mkInternalApp 2 "Bad KB" "bad_kb" Demo.MIN_STACK (Some Demo.icon_14) 0)
           eq_refl eq_refl eq_refl).
Defined.

Lemma unknown_application_witness :
  loader_do_start_by_name (apps := Demo.apps) (env := Demo.env)
      "Nonexistent" (Some "") (Some "") Demo.idle
    = Ret (mkStatusResult LoaderStatusErrorUnknownApp LoaderStatusErrorUnknown,
           Some ("Application " ++ DQUOTE ++ "Nonexistent" ++ DQUOTE ++ " not found"))
          Demo.idle.
Proof.
  exact (proj1 (@unknown_application Demo.apps Demo.env
                  "Nonexistent" (Some "") (Some "") Demo.idle
                  eq_refl eq_refl ltac:(discriminate) eq_refl)).
Defined.

(** C7 as first stated fails: the message names the path that the name of an
    external application stands for, not the requested name; and a name that
    only begins with the old keyboard name starts the keyboard application. *)
Lemma unknown_application_counterexample :
  (loader_find_application_by_name (apps := Demo.apps) "NFC" = None
   /\ "NFC" <> LOADER_APPLICATIONS_NAME (Applications := Demo.apps)
   /\ storage_file_exists Demo.empty_world "/ext/apps/NFC/nfc.fap" = false
   /\ loader_do_start_by_name (apps := Demo.apps) (env := Demo.env)
         "NFC" (Some "") (Some "") Demo.idle
      = Ret (mkStatusResult LoaderStatusErrorUnknownApp LoaderStatusErrorUnknown,
             Some ("Application " ++ DQUOTE ++ "/ext/apps/NFC/nfc.fap" ++ DQUOTE
                   ++ " not found"))
            Demo.idle
   /\ "Application " ++ DQUOTE ++ "/ext/apps/NFC/nfc.fap" ++ DQUOTE ++ " not found"
      <> "Application " ++ DQUOTE ++ "NFC" ++ DQUOTE ++ " not found")
  /\ (loader_find_application_by_name (apps := Demo.apps) "Bad USB Remote" = None
      /\ "Bad USB Remote" <> LOADER_APPLICATIONS_NAME (Applications := Demo.apps)
      /\ storage_file_exists Demo.empty_world "Bad USB Remote" = false
      /\ exists s',
           loader_do_start_by_name (apps := Demo.apps) (env := Demo.env)
               "Bad USB Remote" (Some "") (Some "") Demo.idle
             = Ret (mkStatusResult LoaderStatusOk LoaderStatusErrorUnknown,
                    Some "App started") s').
Proof.
  split.
  - repeat apply conj; try reflexivity; discriminate.
  - repeat apply conj; try reflexivity; try discriminate.
    eexists. lazy. reflexivity.
Defined.

(** ** The persisted menu file *)

Lemma append_cons (c : ascii) (a b : string) : String c a ++ b = String c (a ++ b).
Proof. reflexivity. Qed.

Lemma append_nil_l (a : string) : "" ++ a = a.
Proof. reflexivity. Qed.

Lemma append_nil_r (a : string) : a ++ "" = a.
Proof.
  induction a as [| c a IH]; [reflexivity |]. rewrite append_cons, IH. reflexivity.
Qed.

Lemma append_assoc (a b c : string) : (a ++ b) ++ c = a ++ (b ++ c).
Proof.
  induction a as [| d a IH]; [reflexivity |]. rewrite !append_cons, IH. reflexivity.
Qed.

Lemma join_lines_app (l1 l2 : list string) :
  join_lines (l1 ++ l2) = join_lines l1 ++ join_lines l2.
Proof.
  induction l1 as [| x l1 IH]; cbn [join_lines app]; [reflexivity |].
  rewrite IH, append_assoc, append_cons. reflexivity.
Qed.

(** *** Reading lines *)

Lemma stream_read_line_empty (stream rest : string) :
  stream_read_line stream = ("", rest) -> stream = "" /\ rest = "".
Proof.
  destruct stream as [| c r]; cbn.
  - intros H. inversion H. auto.
  - destruct (Ascii.eqb c LF); [discriminate |].
    destruct (stream_read_line r); discriminate.
Qed.

(** [stream_lines] is the sequence of lines that repeated calls of
    [stream_read_line] return, up to the call that returns nothing. *)
Lemma stream_lines_read_line (stream : string) :
  stream_lines stream
  = let '(line, rest) := stream_read_line stream in
    if (String.length line =? 0)%nat then [] else line :: stream_lines rest.
Proof.
  induction stream as [| c r IH]; cbn; [reflexivity |].
  destruct (Ascii.eqb c LF); cbn; [reflexivity |].
  rewrite IH. destruct (stream_read_line r) as [line rest] eqn:E. cbn.
  destruct line as [| d line]; cbn; [| reflexivity].
  apply stream_read_line_empty in E as [_ ->]. reflexivity.
Qed.

Lemma stream_lines_line (line rest : string) :
  has_char LF line = false ->
  stream_lines (line ++ String LF rest) = (line ++ String LF "") :: stream_lines rest.
Proof.
  induction line as [| c line IH]; intros H.
  - reflexivity.
  - cbn in H. apply orb_false_elim in H as [Hc Hl].
    rewrite !append_cons. cbn [stream_lines]. rewrite Hc, (IH Hl). reflexivity.
Qed.

Lemma stream_lines_join (lines : list string) (rest : string) :
  Forall (fun line => has_char LF line = false) lines ->
  stream_lines (join_lines lines ++ rest)
  = (map (fun line => (line ++ String LF "")%string) lines ++ stream_lines rest)%list.
Proof.
  induction 1 as [| line lines Hl _ IH]; cbn [join_lines map app]; [reflexivity |].
  rewrite append_assoc, append_cons, (stream_lines_line _ _ Hl), IH. reflexivity.
Qed.

Lemma furi_string_remove_all_absent (c : ascii) (s : string) :
  has_char c s = false -> furi_string_remove_all c s = s.
Proof.
  induction s as [| d s IH]; cbn; [reflexivity |]. intros H.
  apply orb_false_elim in H as [Hd Hs]. rewrite Hd, (IH Hs). reflexivity.
Qed.

Lemma furi_string_remove_all_app (c : ascii) (a b : string) :
  furi_string_remove_all c (a ++ b)
  = furi_string_remove_all c a ++ furi_string_remove_all c b.
Proof.
  induction a as [| d a IH]; [reflexivity |].
  rewrite append_cons. cbn [furi_string_remove_all].
  destruct (Ascii.eqb d c); rewrite IH; reflexivity.
Qed.

(** A written line, read back and stripped, is the name that was written. *)
Lemma stripped_line (line : string) :
  has_char LF line = false -> has_char CR line = false ->
  stripped (line ++ String LF "") = line.
Proof.
  intros Hlf Hcr. unfold stripped.
  rewrite !furi_string_remove_all_app.
  rewrite (furi_string_remove_all_absent CR line Hcr). cbn.
  rewrite (furi_string_remove_all_absent LF line Hlf). apply append_nil_r.
Qed.

(** *** Writing the file *)

Section MenuFile.

Context {apps : Applications} {env : Collaborators}.

Lemma stream_write_present
    (p c d : string) (l : Loader) (fs : gmap string string)
    (i : Z) (pub : list LoaderEventType) (sh : list DialogMessage) :
  stream_write p d (mkState l (mkWorld (<[p := c]> fs) i pub sh))
  = Ret tt (mkState l (mkWorld (<[p := c ++ d]> fs) i pub sh)).
Proof.
  unfold stream_write. run. rewrite lookup_insert_eq. cbn [default].
  rewrite insert_insert_eq. reflexivity.
Qed.

Lemma for_each_below_write {A} (f : A -> string) (p : string) (table : list A) :
  forall (k : nat) (c : string) (l : Loader) (fs : gmap string string)
         (i : Z) (pub : list LoaderEventType) (sh : list DialogMessage),
  (k <= length table)%nat ->
  for_each_below (Z.of_nat k) table
    (fun a => stream_write p (f a ++ String LF ""))
    (mkState l (mkWorld (<[p := c]> fs) i pub sh))
  = Ret tt
      (mkState l
         (mkWorld (<[p := c ++ join_lines (map f (firstn k table))]> fs) i pub sh)).
Proof.
  induction table as [| x table IH]; intros k c l fs i pub sh Hk.
  - assert (k = 0%nat) as -> by (cbn in Hk; lia).
    cbn. rewrite append_nil_r. reflexivity.
  - destruct k as [| k].
    + cbn. rewrite append_nil_r. reflexivity.
    + cbn [for_each_below].
      replace (Z.of_nat (S k) <=? 0) with false by (symmetry; apply Z.leb_gt; lia).
      replace (Z.of_nat (S k) - 1) with (Z.of_nat k) by lia.
      unfold bind. rewrite stream_write_present.
      rewrite IH by (cbn in Hk; lia).
      cbn [firstn map join_lines].
      rewrite !append_assoc, append_cons, append_nil_l. reflexivity.
Qed.

Lemma size_t_sub_length {A} (table : list A) :
  table <> [] ->
  Z.of_nat (length table) < 2 ^ 32 ->
  size_t_sub (Z.of_nat (length table)) 1 = Z.of_nat (length table - 1).
Proof.
  intros Hne Hlt. unfold size_t_sub.
  destruct table as [| x table]; [congruence |]. cbn [length] in *.
  rewrite Z.mod_small by lia. lia.
Qed.

(** On an empty table of external applications the subtraction wraps, and
    the loop reads past the end of the table. *)
Lemma for_each_below_empty_table {A} (body : A -> M unit) (s : State) :
  for_each_below (size_t_sub (Z.of_nat (length (@nil A))) 1) [] body s = Crash.
Proof. reflexivity. Qed.

(** The files after [loader_make_menu_file] has written the menu file:
    the header, the names of the tables, and the old list when there is one,
    which is then removed. *)
Lemma loader_make_menu_file_absent (s : State) :
  files (world s) !! MAINMENU_APPS_PATH = None ->
  MAINMENU_APPS_PATH <> XTREME_APPS_PATH ->
  FLIPPER_EXTERNAL_APPS <> [] ->
  Z.of_nat (length FLIPPER_EXTERNAL_APPS) < 2 ^ 32 ->
  loader_make_menu_file s
  = Ret tt
      (mkState (loader s)
         (set_files
            (delete XTREME_APPS_PATH
               (<[MAINMENU_APPS_PATH :=
                    menu_file_header ++ join_lines written_entries
                    ++ default "" (files (world s) !! XTREME_APPS_PATH)]>
                  (files (world s))))
            (world s))).
Proof.
  intros Habs Hpaths Hne Hlt.
  unfold loader_make_menu_file. run.
  rewrite Habs.
  rewrite bool_decide_eq_false_2 by (intros [? ?]; discriminate).
  cbn [negb]. unfold file_stream_open_create_always, file_stream_open_existing. run.
  destruct s as [l [fs i pub sh]]. cbn [loader world files insomnia published shown] in *.
  unfold set_files. cbn [files insomnia published shown].
  rewrite stream_write_present.
  rewrite (for_each_below_write int_name) by lia.
  rewrite size_t_sub_length by assumption.
  rewrite (for_each_below_write ext_name) by lia.
  rewrite firstn_all.
  replace (firstn (length FLIPPER_EXTERNAL_APPS - 1) FLIPPER_EXTERNAL_APPS)
    with (removelast FLIPPER_EXTERNAL_APPS)
    by (rewrite removelast_firstn_len; f_equal; lia).
  cbn [world files].
  rewrite lookup_insert_ne by assumption.
  unfold written_entries. rewrite join_lines_app.
  rewrite append_nil_l, !append_assoc.
  unfold storage_common_remove. run.
  destruct (fs !! XTREME_APPS_PATH) as [old |]; cbn [default].
  - rewrite stream_write_present. cbn [files]. rewrite !append_assoc. reflexivity.
  - cbn [files]. rewrite append_nil_r. reflexivity.
Qed.

(** *** Reading the file *)

Lemma stream_read_line_line (line rest : string) :
  has_char LF line = false ->
  stream_read_line (line ++ String LF rest) = (line ++ String LF "", rest).
Proof.
  induction line as [| c line IH]; intros H.
  - reflexivity.
  - cbn in H. apply orb_false_elim in H as [Hc Hl].
    rewrite !append_cons. cbn [stream_read_line]. rewrite Hc, (IH Hl). reflexivity.
Qed.

Lemma read_version_header (rest : string) :
  sscanf_MenuAppList_Version menu_file_header = Some 1 ->
  read_version (menu_file_header ++ rest) = Some (1, rest).
Proof.
  intros Hs. unfold read_version.
  change menu_file_header with ("MenuAppList Version 1" ++ String LF "") in *.
  rewrite append_assoc. change (String LF "" ++ rest) with (String LF rest).
  rewrite stream_read_line_line by reflexivity.
  rewrite Hs. reflexivity.
Qed.

Lemma loader_read_menu_lines_spec (version : Z) (lines : list string) (s : State) :
  loader_read_menu_lines version lines s
  = Ret tt
      (mkState
         (set_menu_apps
            (menu_apps (loader s) ++ omap (menu_line_entry (world s) version) lines)
            (loader s))
         (world s)).
Proof.
  revert s. induction lines as [| line lines IH]; intros [[m a ar th ins f ma] w].
  - cbn. rewrite app_nil_r. reflexivity.
  - cbn [loader_read_menu_lines]. run.
    destruct (menu_line_entry w version line) as [entry |] eqn:E.
    + run. rewrite IH. cbn. rewrite E. rewrite <- app_assoc. reflexivity.
    + run. rewrite IH. cbn. rewrite E. reflexivity.
Qed.

Lemma loader_alloc_regenerates (s : State) :
  furi_hal_is_normal_boot = true ->
  menu_file_missing s ->
  MAINMENU_APPS_PATH <> XTREME_APPS_PATH ->
  FLIPPER_EXTERNAL_APPS <> [] ->
  Z.of_nat (length FLIPPER_EXTERNAL_APPS) < 2 ^ 32 ->
  sscanf_MenuAppList_Version menu_file_header = Some 1 ->
  let written :=
    join_lines written_entries ++ default "" (files (world s) !! XTREME_APPS_PATH) in
  let w' :=
    set_files
      (delete XTREME_APPS_PATH
         (<[MAINMENU_APPS_PATH := menu_file_header ++ written]>
            (delete MAINMENU_APPS_PATH (files (world s)))))
      (world s) in
  loader_alloc s
  = Ret tt
      (mkState
         (set_menu_apps (omap (menu_line_entry w' 1) (stream_lines written)) loader_init)
         w').
Proof.
  intros Hboot Hmiss Hpaths Hne Hlt Hscan written w'.
  unfold loader_alloc. run. rewrite Hboot. cbn [negb].
  unfold file_stream_open_existing. run.
  assert (Hmake : forall l fs,
            fs !! MAINMENU_APPS_PATH = None ->
            fs !! XTREME_APPS_PATH = files (world s) !! XTREME_APPS_PATH ->
            delete MAINMENU_APPS_PATH fs = delete MAINMENU_APPS_PATH (files (world s)) ->
            loader_make_menu_file (mkState l (set_files fs (world s)))
            = Ret tt (mkState l w')).
  { intros l fs Hnone Hx Hd.
    rewrite loader_make_menu_file_absent by assumption.
    cbn [loader world files set_files]. rewrite Hx.
    rewrite <- (delete_id fs MAINMENU_APPS_PATH Hnone) at 1. rewrite Hd.
    reflexivity. }
  assert (Hopen : files w' !! MAINMENU_APPS_PATH = Some (menu_file_header ++ written)).
  { unfold w'. cbn [files set_files].
    rewrite lookup_delete_ne by congruence. apply lookup_insert_eq. }
  assert (Hloop : forall l,
            l = loader_init ->
            loader_read_menu_lines 1 (stream_lines written) (mkState l w')
            = Ret tt
                (mkState
                   (set_menu_apps (omap (menu_line_entry w' 1) (stream_lines written))
                      loader_init) w')).
  { intros l ->. rewrite loader_read_menu_lines_spec. reflexivity. }
  destruct Hmiss as [Habs | (contents & Hpres & Hver)].
  - rewrite Habs.
    assert (Hs : mkState loader_init (world s)
                 = mkState loader_init (set_files (files (world s)) (world s)))
      by (destruct (world s); reflexivity).
    rewrite Hs, (Hmake loader_init (files (world s)) Habs eq_refl eq_refl).
    cbn [loader world]. rewrite Hopen.
    rewrite (read_version_header _ Hscan). apply Hloop. reflexivity.
  - rewrite Hpres, Hver.
    unfold storage_common_remove. run.
    rewrite (Hmake loader_init (delete MAINMENU_APPS_PATH (files (world s)))).
    + cbn [loader world]. rewrite Hopen.
      rewrite (read_version_header _ Hscan). apply Hloop. reflexivity.
    + apply lookup_delete_eq.
    + apply lookup_delete_ne. assumption.
    + apply delete_id, lookup_delete_eq.
Qed.

(** *** Written names, read back *)

Lemma In_removelast {A} (x : A) (l : list A) : In x (removelast l) -> In x l.
Proof.
  induction l as [| y l IH]; [auto |].
  destruct l as [| z l]; [intros [] |].
  intros [-> | H]; [left; reflexivity | right; exact (IH H)].
Qed.

(** A written name that is no file on storage is found in the tables under
    that very name; with an icon, it becomes a menu entry. *)
Lemma menu_line_entry_written (w : World) (n : string) :
  In n written_entries ->
  has_char LF n = false ->
  has_char CR n = false ->
  storage_file_exists w n = false ->
  Forall (fun a => int_icon a <> None) FLIPPER_APPS ->
  Forall (fun e => ext_icon e <> None) FLIPPER_EXTERNAL_APPS ->
  exists ic, menu_line_entry w 1 (n ++ String LF "") = Some (mkMenuApp n ic n).
Proof.
  intros Hin Hlf Hcr Hfile Hint Hext.
  unfold menu_line_entry, menu_line_lookup.
  change (furi_string_remove_all LF (furi_string_remove_all CR (n ++ String LF "")))
    with (stripped (n ++ String LF "")).
  rewrite (stripped_line n Hlf Hcr). cbn [Z.eqb]. rewrite Hfile.
  destruct (List.find (fun a => String.eqb n (int_name a)) FLIPPER_APPS) as [a |] eqn:Ea.
  - apply List.find_some in Ea as [Ha Hn]. apply String.eqb_eq in Hn. subst n.
    pose proof (proj1 (List.Forall_forall _ _) Hint a Ha) as Hic. cbn beta in Hic.
    destruct (int_icon a) as [ic |]; [| congruence]. exists ic. reflexivity.
  - assert (Hnot : ~ In n (map int_name FLIPPER_APPS)).
    { intros Hm. apply in_map_iff in Hm as (a & Hn & Ha).
      pose proof (List.find_none _ _ Ea a Ha) as Hb. cbn in Hb.
      subst n. rewrite String.eqb_refl in Hb. discriminate. }
    unfold written_entries in Hin. apply in_app_or in Hin as [Hin | Hin]; [contradiction |].
    apply in_map_iff in Hin as (e & Hn & He). apply In_removelast in He.
    destruct (List.find (fun e => String.eqb n (ext_name e)) FLIPPER_EXTERNAL_APPS)
      as [e' |] eqn:Ee.
    + apply List.find_some in Ee as [He' Hn']. apply String.eqb_eq in Hn'. subst n.
      pose proof (proj1 (List.Forall_forall _ _) Hext e' He') as Hic. cbn beta in Hic.
      rewrite Hn'.
      destruct (ext_icon e') as [ic |]; [| congruence]. exists ic.
      rewrite <- Hn'. reflexivity.
    + pose proof (List.find_none _ _ Ee e He) as Hb. cbn in Hb.
      subst n. rewrite String.eqb_refl in Hb. discriminate.
Qed.

Lemma omap_written_entries (w : World) (names : list string) :
  Forall (fun n => exists ic,
            menu_line_entry w 1 (n ++ String LF "") = Some (mkMenuApp n ic n)) names ->
  map exe (omap (menu_line_entry w 1) (map (fun n => n ++ String LF "") names)) = names
  /\ map label (omap (menu_line_entry w 1) (map (fun n => n ++ String LF "") names))
     = names.
Proof.
  induction 1 as [| n names [ic Hn] _ [IHe IHl]]; [split; reflexivity |].
  cbn [map]. cbn [omap list_omap]. rewrite Hn. cbn [map exe label].
  split; f_equal; assumption.
Qed.

(** C9, as the code has it: at a normal boot without a usable menu file,
    [loader_alloc] writes the file at version 1 (the header, the names of the
    tables, and the old list of additional applications when there is one)
    and reads it back; the menu holds, in the order written, the entries of
    the written lines that resolve.  When no old list is appended, no written
    name contains a line break, is the path of a file on storage or is the
    path of the menu file, and every entry of the two tables has an icon, the
    entries read back are the names written, one for one and in order. *)
Theorem menu_file_round_trip (s : State) :
  furi_hal_is_normal_boot = true ->
  menu_file_missing s ->
  MAINMENU_APPS_PATH <> XTREME_APPS_PATH ->
  FLIPPER_EXTERNAL_APPS <> [] ->
  Z.of_nat (length FLIPPER_EXTERNAL_APPS) < 2 ^ 32 ->
  sscanf_MenuAppList_Version menu_file_header = Some 1 ->
  exists s',
    loader_alloc s = Ret tt s'
    /\ files (world s') !! MAINMENU_APPS_PATH
       = Some (menu_file_header ++ join_lines written_entries
               ++ default "" (files (world s) !! XTREME_APPS_PATH))
    /\ menu_apps (loader s')
       = omap (menu_line_entry (world s') 1)
           (stream_lines (join_lines written_entries
                          ++ default "" (files (world s) !! XTREME_APPS_PATH)))
    /\ (files (world s) !! XTREME_APPS_PATH = None ->
        Forall (fun n => has_char LF n = false /\ has_char CR n = false
                         /\ files (world s) !! n = None
                         /\ n <> MAINMENU_APPS_PATH) written_entries ->
        Forall (fun a => int_icon a <> None) FLIPPER_APPS ->
        Forall (fun e => ext_icon e <> None) FLIPPER_EXTERNAL_APPS ->
        map exe (menu_apps (loader s')) = written_entries
        /\ map label (menu_apps (loader s')) = written_entries).
Proof.
  intros Hboot Hmiss Hpaths Hne Hlt Hscan.
  pose proof (loader_alloc_regenerates s Hboot Hmiss Hpaths Hne Hlt Hscan) as Hrun.
  cbv zeta in Hrun. eexists. split; [exact Hrun |].
  cbn [loader world files set_files menu_apps set_menu_apps].
  split; [rewrite lookup_delete_ne by congruence; apply lookup_insert_eq |].
  split; [reflexivity |].
  intros Hold Hnames Hint Hext. rewrite Hold. cbn [default].
  rewrite (stream_lines_join written_entries "")
    by (eapply List.Forall_impl; [| exact Hnames]; cbv beta; intros ? (? & _); assumption).
  cbn [stream_lines]. rewrite app_nil_r.
  apply omap_written_entries.
  apply List.Forall_forall. intros n Hn.
  pose proof (proj1 (List.Forall_forall _ _) Hnames n Hn) as (Hlf & Hcr & Hfile & Hm).
  apply menu_line_entry_written; try assumption.
  unfold storage_file_exists. cbn [files set_files].
  apply bool_decide_eq_false_2. intros [c Hc].
  rewrite lookup_delete in Hc. destruct (decide (XTREME_APPS_PATH = n)); [discriminate |].
  rewrite lookup_insert_ne in Hc by congruence.
  rewrite lookup_delete_ne in Hc by congruence. congruence.
Qed.

End MenuFile.

Lemma menu_file_round_trip_witness :
  exists s',
    loader_alloc (apps := Demo.apps) (env := Demo.env) Demo.idle = Ret tt s'
    /\ map exe (menu_apps (loader s')) = ["Sub-GHz"; "Bad KB"; "Clock"; "NFC"]
    /\ map label (menu_apps (loader s')) = ["Sub-GHz"; "Bad KB"; "Clock"; "NFC"].
Proof.
  destruct (@menu_file_round_trip Demo.apps Demo.env Demo.idle)
    as (s' & Hrun & _ & _ & Hsame).
  - reflexivity.
  - left. reflexivity.
  - discriminate.
  - discriminate.
  - reflexivity.
  - reflexivity.
  - exists s'. split; [exact Hrun |].
    apply Hsame.
    + reflexivity.
    + repeat constructor; discriminate.
    + repeat constructor; discriminate.
    + repeat constructor; discriminate.
Defined.

(** C9 as first stated fails: a line taken over from the old list of
    additional applications, naming a binary that is no longer on storage,
    is written to the file and skipped when the file is read back. *)
Lemma menu_file_round_trip_counterexample :
  exists s' written,
    loader_alloc (apps := Demo.apps) (env := Demo.env) Demo.stale = Ret tt s'
    /\ files (world s') !! MAINMENU_APPS_PATH (Applications := Demo.apps)
       = Some (menu_file_header ++ written)
    /\ map stripped (stream_lines written)
       = ["Sub-GHz"; "Bad KB"; "Clock"; "NFC"; "/ext/apps/Games/snake.fap"]
    /\ map exe (menu_apps (loader s')) = ["Sub-GHz"; "Bad KB"; "Clock"; "NFC"]
    /\ map exe (menu_apps (loader s')) <> map stripped (stream_lines written).
Proof.
  pose proof (@loader_alloc_regenerates Demo.apps Demo.env Demo.stale
                eq_refl (or_introl eq_refl) ltac:(discriminate) ltac:(discriminate)
                eq_refl eq_refl) as Hrun.
  cbv zeta in Hrun.
  eexists.
  exists (join_lines ["Sub-GHz"; "Bad KB"; "Clock"; "NFC"; "/ext/apps/Games/snake.fap"]).
  split; [exact Hrun |].
  split; [vm_compute; reflexivity |].
  split; [vm_compute; reflexivity |].
  split; [vm_compute; reflexivity |].
  vm_compute. discriminate.
Defined.

(** * Further properties of the loader *)

(** ** The two lookups *)

Lemma find_app_first {A} (f : A -> bool) (l1 l2 : list A) :
  List.find f (l1 ++ l2)
  = match List.find f l1 with Some x => Some x | None => List.find f l2 end.
Proof.
  induction l1 as [| x l1 IH]; cbn [app List.find]; [reflexivity |].
  destruct (f x); [reflexivity | exact IH].
Qed.

Lemma find_none_iff {A} (f : A -> bool) (l : list A) :
  List.find f l = None <-> forall x, In x l -> f x = false.
Proof.
  split; [apply List.find_none |].
  intros H. destruct (List.find f l) as [x |] eqn:E; [| reflexivity].
  apply List.find_some in E as [Hin Hx]. rewrite (H x Hin) in Hx. discriminate.
Qed.

Section Lookups.

Context {apps : Applications} {env : Collaborators}.

(** X1: the built-in lookup answers with the first entry, in the order
    ordinary, system, debug, whose name or identifier is the requested name;
    it finds nothing exactly when no entry of the three tables has the name
    as its name or identifier. *)
Theorem find_application_first_match (name : string) :
  loader_find_application_by_name name
  = List.find (fun a => String.eqb name (int_name a) || String.eqb name (int_appid a))
      (FLIPPER_APPS ++ FLIPPER_SYSTEM_APPS ++ FLIPPER_DEBUG_APPS)
  /\ (loader_find_application_by_name name = None
      <-> forall a, In a (FLIPPER_APPS ++ FLIPPER_SYSTEM_APPS ++ FLIPPER_DEBUG_APPS) ->
                    int_name a <> name /\ int_appid a <> name).
Proof.
  assert (Hfirst :
    loader_find_application_by_name name
    = List.find (fun a => String.eqb name (int_name a) || String.eqb name (int_appid a))
        (FLIPPER_APPS ++ FLIPPER_SYSTEM_APPS ++ FLIPPER_DEBUG_APPS)).
  { unfold loader_find_application_by_name, first_found,
           loader_find_application_by_name_in_list.
    rewrite !find_app_first.
    destruct (List.find _ FLIPPER_APPS); [reflexivity |].
    destruct (List.find _ FLIPPER_SYSTEM_APPS); [reflexivity |].
    destruct (List.find _ FLIPPER_DEBUG_APPS); reflexivity. }
  split; [exact Hfirst |].
  rewrite Hfirst, find_none_iff. split.
  - intros H a Ha. specialize (H a Ha). apply orb_false_elim in H as [Hn Hi].
    apply String.eqb_neq in Hn, Hi. split; congruence.
  - intros H a Ha. destruct (H a Ha) as [Hn Hi].
    apply orb_false_intro; apply String.eqb_neq; congruence.
Qed.

(** X2: the lookup of external applications answers with the path and flags
    of the first entry of that name, the external table before the settings
    table; it finds nothing exactly when neither table has the name. *)
Theorem find_external_application_first_match (app_name : string) :
  loader_find_external_application_by_name app_name
  = option_map (fun e => (ext_path e, ext_flags e))
      (List.find (fun e => String.eqb (ext_name e) app_name)
         (FLIPPER_EXTERNAL_APPS ++ FLIPPER_SETTINGS_APPS))
  /\ (loader_find_external_application_by_name app_name = None
      <-> ~ In app_name (map ext_name (FLIPPER_EXTERNAL_APPS ++ FLIPPER_SETTINGS_APPS))).
Proof.
  assert (Hfirst :
    loader_find_external_application_by_name app_name
    = option_map (fun e => (ext_path e, ext_flags e))
        (List.find (fun e => String.eqb (ext_name e) app_name)
           (FLIPPER_EXTERNAL_APPS ++ FLIPPER_SETTINGS_APPS))).
  { unfold loader_find_external_application_by_name. rewrite find_app_first.
    destruct (List.find _ FLIPPER_EXTERNAL_APPS); [reflexivity |].
    destruct (List.find _ FLIPPER_SETTINGS_APPS); reflexivity. }
  split; [exact Hfirst |].
  rewrite Hfirst. split.
  - intros H Hin. apply in_map_iff in Hin as (e & Hn & He).
    destruct (List.find _ (FLIPPER_EXTERNAL_APPS ++ FLIPPER_SETTINGS_APPS)) eqn:E;
      [discriminate |].
    pose proof (List.find_none _ _ E e He) as Hb. cbn beta in Hb.
    rewrite Hn, String.eqb_refl in Hb. discriminate.
  - intros H.
    destruct (List.find _ (FLIPPER_EXTERNAL_APPS ++ FLIPPER_SETTINGS_APPS)) as [e |] eqn:E;
      [| reflexivity].
    apply List.find_some in E as [He Hn]. apply String.eqb_eq in Hn.
    exfalso. apply H. apply in_map_iff. exists e. split; assumption.
Qed.

End Lookups.

(** ** Every way through the external pipeline *)

Section ExternalOutcomes.

Context {apps : Applications} {env : Collaborators}.

Variables (path : string) (args error_message : option string).
Variable flags : FlipperApplicationFlag.
Variable s : State.

(** The cases of the external pipeline, for the properties below. *)
Lemma start_external_app_cases :
  exists r em s',
    loader_start_external_app path args error_message flags s = Ret (r, em) s'
    /\ value r <> LoaderStatusErrorUnknownApp
    /\ (exists m, em = set_message error_message m)
    /\ files (world s') = files (world s)
    /\ app_args (loader s') = app_args (loader s)
    /\ (value r = LoaderStatusOk ->
        (exists t, app_thread (loader s') = Thread t /\ started t = true)
        /\ app_fap (loader s') = Some (mkFap (Some path) true)
        /\ app_insomniac (loader s') = negb (insomnia_safe flags)
        /\ published (world s')
           = (published (world s) ++ [LoaderEventTypeApplicationBeforeLoad])%list)
    /\ (value r <> LoaderStatusOk ->
        app_thread (loader s') = app_thread (loader s)
        /\ app_fap (loader s') = None
        /\ app_insomniac (loader s') = app_insomniac (loader s)
        /\ insomnia (world s') = insomnia (world s)
        /\ published (world s')
           = (published (world s) ++ [LoaderEventTypeApplicationBeforeLoad;
                                      LoaderEventTypeApplicationLoadFailed])%list).
Proof.
  assert (Hfail : forall r m dialogs,
    value r <> LoaderStatusOk ->
    value r <> LoaderStatusErrorUnknownApp ->
    loader_start_external_app path args error_message flags s
      = Ret (r, set_message error_message m) (load_failed_state s dialogs) ->
    exists r em s',
      loader_start_external_app path args error_message flags s = Ret (r, em) s'
      /\ value r <> LoaderStatusErrorUnknownApp
      /\ (exists m, em = set_message error_message m)
      /\ files (world s') = files (world s)
    /\ app_args (loader s') = app_args (loader s)
      /\ (value r = LoaderStatusOk ->
          (exists t, app_thread (loader s') = Thread t /\ started t = true)
          /\ app_fap (loader s') = Some (mkFap (Some path) true)
          /\ app_insomniac (loader s') = negb (insomnia_safe flags)
          /\ published (world s')
             = (published (world s) ++ [LoaderEventTypeApplicationBeforeLoad])%list)
      /\ (value r <> LoaderStatusOk ->
          app_thread (loader s') = app_thread (loader s)
          /\ app_fap (loader s') = None
          /\ app_insomniac (loader s') = app_insomniac (loader s)
          /\ insomnia (world s') = insomnia (world s)
          /\ published (world s')
             = (published (world s) ++ [LoaderEventTypeApplicationBeforeLoad;
                                        LoaderEventTypeApplicationLoadFailed])%list)).
  { intros r m dialogs Hnok Hnu Hrun.
    exists r, (set_message error_message m), (load_failed_state s dialogs).
    split; [exact Hrun |]. split; [exact Hnu |]. split; [eexists; reflexivity |].
    split; [reflexivity |].
    split; [reflexivity |].
    split; [intros Hok; contradiction |].
    intros _. repeat apply conj; reflexivity. }
  assert (Hstart : reaches_start s path ->
    exists r em s',
      loader_start_external_app path args error_message flags s = Ret (r, em) s'
      /\ value r <> LoaderStatusErrorUnknownApp
      /\ (exists m, em = set_message error_message m)
      /\ files (world s') = files (world s)
    /\ app_args (loader s') = app_args (loader s)
      /\ (value r = LoaderStatusOk ->
          (exists t, app_thread (loader s') = Thread t /\ started t = true)
          /\ app_fap (loader s') = Some (mkFap (Some path) true)
          /\ app_insomniac (loader s') = negb (insomnia_safe flags)
          /\ published (world s')
             = (published (world s) ++ [LoaderEventTypeApplicationBeforeLoad])%list)
      /\ (value r <> LoaderStatusOk ->
          app_thread (loader s') = app_thread (loader s)
          /\ app_fap (loader s') = None
          /\ app_insomniac (loader s') = app_insomniac (loader s)
          /\ insomnia (world s') = insomnia (world s)
          /\ published (world s')
             = (published (world s) ++ [LoaderEventTypeApplicationBeforeLoad;
                                        LoaderEventTypeApplicationLoadFailed])%list)).
  { intros Hr.
    destruct (flipper_application_is_plugin (files (world s)) path) eqn:Hplug.
    - eapply Hfail; [| | exact (start_external_plugin path args error_message flags s Hr Hplug)];
        discriminate.
    - do 3 eexists.
      split; [exact (start_external_started path args error_message flags s Hr Hplug) |].
      split; [discriminate |].
      split; [eexists; reflexivity |].
      unfold external_app_started, app_thread_started.
      split; [destruct (insomnia_safe flags); reflexivity |].
      split; [reflexivity |].
      split; [| intros H; exfalso; apply H; reflexivity].
      intros _. cbn.
      split; [eexists; split; reflexivity |].
      repeat apply conj; try reflexivity.
      destruct (insomnia_safe flags); reflexivity. }
  destruct (api_mismatch_of (flipper_application_preload (files (world s)) path)) eqn:Hm.
  - destruct (decide (flipper_application_map_to_memory (files (world s)) path
                      = FlipperApplicationLoadStatusSuccess)) as [Hl | Hl].
    + destruct (decide (dialog_message_show
                 (api_mismatch_dialog (flipper_application_preload (files (world s)) path)
                    (flipper_application_get_manifest (files (world s)) path))
                 = DialogMessageButtonRight)) as [Hd | Hd].
      * apply Hstart. split; [right; split; assumption | exact Hl].
      * eapply Hfail;
          [| | exact (start_external_mismatch_declined path args error_message flags s Hm Hl Hd)];
          discriminate.
    + eapply Hfail;
        [| | exact (start_external_mismatch_load_failed path args error_message flags s Hm Hl)];
        discriminate.
  - destruct (decide (flipper_application_preload (files (world s)) path
                      = FlipperApplicationPreloadStatusSuccess)) as [Hp | Hp].
    + destruct (decide (flipper_application_map_to_memory (files (world s)) path
                        = FlipperApplicationLoadStatusSuccess)) as [Hl | Hl].
      * apply Hstart. split; [left; exact Hp | exact Hl].
      * eapply Hfail;
          [| | exact (start_external_load_failed path args error_message flags s Hp Hl)];
          discriminate.
    + eapply Hfail;
        [| | exact (start_external_preload_failed path args error_message flags s Hm Hp)];
        discriminate.
Qed.

(** X3: the external pipeline always returns.  Its status is never that of
    an unknown application, and the message buffer, when there is one, holds
    a message.  When it is Ok, the slot holds a started thread
    and keeps the mapped binary, and only the before-load event has been
    published; when it is not, the thread pointer, the insomnia counter and
    the recorded ownership are as before, the binary is freed, and the
    before-load event is followed by the load-failed event.  The storage and
    the argument buffer of the slot are the same either way. *)
Theorem start_external_outcomes :
  exists r em s',
    loader_start_external_app path args error_message flags s = Ret (r, em) s'
    /\ value r <> LoaderStatusErrorUnknownApp
    /\ (exists m, em = set_message error_message m)
    /\ files (world s') = files (world s)
    /\ app_args (loader s') = app_args (loader s)
    /\ (value r = LoaderStatusOk ->
        (exists t, app_thread (loader s') = Thread t /\ started t = true)
        /\ app_fap (loader s') = Some (mkFap (Some path) true)
        /\ app_insomniac (loader s') = negb (insomnia_safe flags)
        /\ published (world s')
           = (published (world s) ++ [LoaderEventTypeApplicationBeforeLoad])%list)
    /\ (value r <> LoaderStatusOk ->
        app_thread (loader s') = app_thread (loader s)
        /\ app_fap (loader s') = None
        /\ app_insomniac (loader s') = app_insomniac (loader s)
        /\ insomnia (world s') = insomnia (world s)
        /\ published (world s')
           = (published (world s) ++ [LoaderEventTypeApplicationBeforeLoad;
                                      LoaderEventTypeApplicationLoadFailed])%list).
Proof. exact start_external_app_cases. Qed.

(** X4: a preload that fails for another reason than the API version, a
    hardware-target mismatch for one, is final: the user is asked nothing,
    and the start returns [LoaderStatusErrorInternal] with the kind of the
    preload status, whatever the map would have done. *)
Theorem fatal_preload_failure_asks_nothing :
  api_mismatch_of (flipper_application_preload (files (world s)) path) = false ->
  flipper_application_preload (files (world s)) path
    <> FlipperApplicationPreloadStatusSuccess ->
  exists r s',
    loader_start_external_app path args error_message flags s
      = Ret (r, set_message error_message
                  (preload_failed_message path
                     (flipper_application_preload (files (world s)) path))) s'
    /\ value r = LoaderStatusErrorInternal
    /\ error r = loader_status_error_from_preload_status
                   (flipper_application_preload (files (world s)) path)
    /\ (flipper_application_preload (files (world s)) path
          = FlipperApplicationPreloadStatusTargetMismatch ->
        error r = LoaderStatusErrorHWMismatch)
    /\ shown (world s') = shown (world s)
    /\ app_thread (loader s') = app_thread (loader s)
    /\ app_fap (loader s') = None.
Proof.
  intros Hm Hp. do 2 eexists.
  split; [exact (start_external_preload_failed path args error_message flags s Hm Hp) |].
  cbn. repeat apply conj; try reflexivity.
  - intros ->. reflexivity.
  - apply app_nil_r.
Qed.

(** X5: an API mismatch that the user chooses to ignore does not stand in the
    way: with a successful map of a binary that is no plugin, the start
    returns Ok after exactly one dialog, and the slot holds the started
    thread, tagged with the file name without extension. *)
Theorem accepted_mismatch_starts :
  api_mismatch_of (flipper_application_preload (files (world s)) path) = true ->
  flipper_application_map_to_memory (files (world s)) path
    = FlipperApplicationLoadStatusSuccess ->
  dialog_message_show
    (api_mismatch_dialog (flipper_application_preload (files (world s)) path)
       (flipper_application_get_manifest (files (world s)) path))
    = DialogMessageButtonRight ->
  flipper_application_is_plugin (files (world s)) path = false ->
  exists s' t,
    loader_start_external_app path args error_message flags s
      = Ret (mkStatusResult LoaderStatusOk LoaderStatusErrorUnknown,
             set_message error_message "App started") s'
    /\ app_thread (loader s') = Thread t
    /\ started t = true
    /\ thread_appid t = Some (path_extract_filename_no_ext path)
    /\ shown (world s')
       = (shown (world s)
          ++ [api_mismatch_dialog (flipper_application_preload (files (world s)) path)
                (flipper_application_get_manifest (files (world s)) path)])%list.
Proof.
  intros Hm Hl Hd Hplug.
  assert (Hr : reaches_start s path) by (split; [right; split; assumption | exact Hl]).
  do 2 eexists.
  split; [exact (start_external_started path args error_message flags s Hr Hplug) |].
  unfold external_app_started, app_thread_started, dialogs_before_start.
  rewrite Hm. cbn. repeat apply conj; try reflexivity.
  destruct (insomnia_safe flags); reflexivity.
Qed.

End ExternalOutcomes.

Lemma fatal_preload_failure_asks_nothing_witness :
  exists r s',
    loader_start_external_app (apps := Demo.apps) (env := DemoService.env)
        "/ext/apps/Tools/f18.fap" None (Some "") 0 DemoService.idle
      = Ret (r, Some "Preload failed, /ext/apps/Tools/f18.fap: unknown") s'
    /\ value r = LoaderStatusErrorInternal
    /\ error r = LoaderStatusErrorHWMismatch
    /\ shown (world s') = []
    /\ app_thread (loader s') = NULL
    /\ app_fap (loader s') = None.
Proof.
  destruct (@fatal_preload_failure_asks_nothing Demo.apps DemoService.env
              "/ext/apps/Tools/f18.fap" None (Some "") 0 DemoService.idle)
    as (r & s' & Hrun & Hv & _ & Hhw & Hshown & Ht & Hf);
    [reflexivity | discriminate |].
  exists r, s'.
  split; [exact Hrun |]. split; [exact Hv |]. split; [exact (Hhw eq_refl) |].
  split; [exact Hshown |]. split; [exact Ht | exact Hf].
Defined.

Lemma accepted_mismatch_starts_witness :
  exists s' t,
    loader_start_external_app (apps := Demo.apps) (env := Demo.env)
        "/ext/apps/Tools/new.fap" None (Some "") 0 Demo.idle
      = Ret (mkStatusResult LoaderStatusOk LoaderStatusErrorUnknown,
             Some "App started") s'
    /\ app_thread (loader s') = Thread t
    /\ started t = true
    /\ thread_appid t = Some "/ext/apps/Tools/new.fap"
    /\ map dialog_header (shown (world s')) = ["App Too New"].
Proof.
  destruct (@accepted_mismatch_starts Demo.apps Demo.env
              "/ext/apps/Tools/new.fap" None (Some "") 0 Demo.idle)
    as (s' & t & Hrun & Ht & Hs & Hid & Hshown);
    [reflexivity | reflexivity | reflexivity | reflexivity |].
  exists s', t.
  split; [exact Hrun |]. split; [exact Ht |]. split; [exact Hs |].
  split; [exact Hid |]. rewrite Hshown. reflexivity.
Defined.


(** ** Every way through a start on an empty slot *)

Section StartOutcomes.

Context {apps : Applications} {env : Collaborators}.

Lemma start_by_name_running
    (name : string) (args error_message : option string) (s : State) (t : FuriThread) :
  app_thread (loader s) = Thread t ->
  loader_do_start_by_name name args error_message s
  = Ret (mkStatusResult LoaderStatusErrorAppStarted LoaderStatusErrorUnknown,
         set_message error_message
           ("Loader is locked, please close the " ++ DQUOTE
            ++ thread_name t ++ DQUOTE ++ " first")) s.
Proof.
  intros Ht. unfold loader_do_start_by_name, loader_do_is_locked. step.
  rewrite Ht. cbn. results. reflexivity.
Qed.

(** X6: a start on an empty slot, whose argument buffer is empty, always
    returns.  With the status Ok, either the slot holds a started thread, or
    it is still empty and the applications browser is open; with any other
    status the slot is still empty, holds no arguments, and the insomnia
    counter is as before; with the status of an unknown application nothing
    at all has changed.  The storage is the same in every case. *)
Theorem start_on_empty_slot_outcomes
    (name : string) (args error_message : option string) (s : State) :
  app_thread (loader s) = NULL ->
  app_args (loader s) = None ->
  exists r em s',
    loader_do_start_by_name name args error_message s = Ret (r, em) s'
    /\ files (world s') = files (world s)
    /\ (value r = LoaderStatusOk ->
        (exists t, app_thread (loader s') = Thread t /\ started t = true)
        \/ (app_thread (loader s') = NULL
            /\ loader_applications (loader s') = true
            /\ world s' = world s))
    /\ (value r <> LoaderStatusOk ->
        app_thread (loader s') = NULL
        /\ app_args (loader s') = None
        /\ insomnia (world s') = insomnia (world s))
    /\ (value r = LoaderStatusErrorUnknownApp -> s' = s).
Proof.
  intros He Ha.
  destruct (loader_find_application_by_name (translate_app_name name)) as [app |] eqn:Hf.
  { do 3 eexists.
    split; [exact (start_by_name_internal name args error_message s He app Ha Hf) |].
    unfold internal_app_started, app_thread_started. cbn.
    split; [destruct (insomnia_safe (int_flags app)); reflexivity |].
    split; [intros _; left; eexists; split; reflexivity |].
    split; [intros H; exfalso; apply H; reflexivity | discriminate]. }
  destruct (decide (translate_app_name name = LOADER_APPLICATIONS_NAME)) as [Hn | Hn].
  { do 3 eexists.
    split; [exact (start_by_name_applications name args error_message s He Hf Hn) |].
    cbn. split; [reflexivity |].
    split; [intros _; right; repeat apply conj; [exact He | reflexivity | reflexivity] |].
    split; [intros H; exfalso; apply H; reflexivity | discriminate]. }
  destruct (storage_file_exists (world s)
              (fst (external_path_and_flags (translate_app_name name)))) eqn:Hx.
  - rewrite (start_by_name_external name args error_message s He Hf Hn Hx).
    destruct (start_external_app_cases
                (fst (external_path_and_flags (translate_app_name name))) args
                (set_message error_message "App started")
                (snd (external_path_and_flags (translate_app_name name))) s)
      as (r & em & s' & Hrun & Hnu & _ & Hfiles & Hargs & Hok & Hnok).
    exists r, em, s'. split; [exact Hrun |]. split; [exact Hfiles |].
    split; [intros H; left; exact (proj1 (Hok H)) |].
    split.
    + intros H. destruct (Hnok H) as (Ht & _ & _ & Hi & _).
      repeat apply conj; [congruence | congruence | exact Hi].
    + intros Hu. contradiction.
  - do 3 eexists.
    split; [exact (start_by_name_unknown name args error_message s He Hf Hn Hx) |].
    cbn. split; [reflexivity |].
    split; [discriminate |].
    split; [intros _; repeat apply conj; [exact He | exact Ha | reflexivity] | reflexivity].
Qed.

End StartOutcomes.

Lemma start_on_empty_slot_outcomes_witness :
  exists r em s',
    loader_do_start_by_name (apps := Demo.apps) (env := Demo.env)
        "Sub-GHz" None (Some "") Demo.idle = Ret (r, em) s'
    /\ files (world s') = Demo.storage.
Proof.
  destruct (@start_on_empty_slot_outcomes Demo.apps Demo.env
              "Sub-GHz" None (Some "") Demo.idle eq_refl eq_refl)
    as (r & em & s' & Hrun & Hfiles & _).
  exists r, em, s'. split; [exact Hrun | exact Hfiles].
Defined.


(** ** Starts and closes, one after the other *)

Section Composition.

Context {apps : Applications} {env : Collaborators}.

(** The world after the close of an application, from the world [w] in which
    the application ended. *)
Lemma loader_do_app_closed_world (s : State) (t : FuriThread) :
  app_thread (loader s) = Thread t ->
  exists s2,
    loader_do_app_closed s = Ret tt s2
    /\ loader s2 = set_thread NULL (set_fap None (set_args None (loader s)))
    /\ files (world s2) = files (world s)
    /\ shown (world s2) = shown (world s)
    /\ published (world s2)
       = (published (world s) ++ [LoaderEventTypeApplicationStopped])%list
    /\ insomnia (world s2)
       = insomnia (world s) - (if app_insomniac (loader s) then 1 else 0).
Proof.
  intros Ht. eexists. split; [exact (loader_do_app_closed_spec s t Ht) |].
  cbn. destruct (app_insomniac (loader s)); cbn; repeat apply conj; try reflexivity; lia.
Qed.

(** X7: the start of a built-in application on an empty slot, followed by
    its close, gives the loader back as it was, but for the remembered
    insomnia ownership: the slot is empty, the arguments stored for the
    application are freed, and the close takes from the insomnia counter
    exactly what the start added, in whatever world the application ended. *)
Theorem internal_start_then_close
    (name : string) (args error_message : option string) (s : State)
    (app : FlipperInternalApplication) :
  app_thread (loader s) = NULL ->
  app_args (loader s) = None ->
  app_fap (loader s) = None ->
  loader_find_application_by_name (translate_app_name name) = Some app ->
  exists s1,
    loader_do_start_by_name name args error_message s
      = Ret (mkStatusResult LoaderStatusOk LoaderStatusErrorUnknown,
             set_message error_message "App started") s1
    /\ app_args (loader s1) = (if strlen_pos args then args else None)
    /\ insomnia (world s1)
       = insomnia (world s) + (if insomnia_safe (int_flags app) then 0 else 1)
    /\ forall w : World,
         exists s2,
           loader_do_app_closed (mkState (loader s1) w) = Ret tt s2
           /\ loader s2
              = set_insomniac (negb (insomnia_safe (int_flags app))) (loader s)
           /\ insomnia (world s2)
              = insomnia w - (if insomnia_safe (int_flags app) then 0 else 1)
           /\ published (world s2)
              = (published w ++ [LoaderEventTypeApplicationStopped])%list.
Proof.
  intros He Ha Hfap Hf. eexists.
  split; [exact (start_by_name_internal name args error_message s He app Ha Hf) |].
  unfold internal_app_started, app_thread_started.
  split; [cbn; rewrite Ha; reflexivity |].
  split; [destruct (insomnia_safe (int_flags app)); cbn; lia |].
  intros w.
  edestruct (loader_do_app_closed_world) as (s2 & Hrun & Hl & _ & _ & Hp & Hi);
    [| exists s2; split; [exact Hrun |]].
  { cbn. reflexivity. }
  split.
  - rewrite Hl. destruct s as [[m a ar th ins f ma] w0]. cbn in *. subst. reflexivity.
  - split; [| exact Hp]. rewrite Hi. cbn.
    destruct (insomnia_safe (int_flags app)); reflexivity.
Qed.

(** X8: the same for a binary from storage that the pipeline starts: after
    the close the slot is empty again, the mapped binary is freed, and the
    insomnia counter has lost exactly what the start added. *)
Theorem external_start_then_close
    (path : string) (args error_message : option string)
    (flags : FlipperApplicationFlag) (s : State) :
  app_thread (loader s) = NULL ->
  app_args (loader s) = None ->
  reaches_start s path ->
  flipper_application_is_plugin (files (world s)) path = false ->
  exists s1,
    loader_start_external_app path args error_message flags s
      = Ret (mkStatusResult LoaderStatusOk LoaderStatusErrorUnknown,
             set_message error_message "App started") s1
    /\ app_fap (loader s1) = Some (mkFap (Some path) true)
    /\ insomnia (world s1)
       = insomnia (world s) + (if insomnia_safe flags then 0 else 1)
    /\ forall w : World,
         exists s2,
           loader_do_app_closed (mkState (loader s1) w) = Ret tt s2
           /\ loader s2
              = set_fap None (set_insomniac (negb (insomnia_safe flags)) (loader s))
           /\ insomnia (world s2)
              = insomnia w - (if insomnia_safe flags then 0 else 1)
           /\ published (world s2)
              = (published w ++ [LoaderEventTypeApplicationStopped])%list.
Proof.
  intros He Ha Hr Hplug. eexists.
  split; [exact (start_external_started path args error_message flags s Hr Hplug) |].
  unfold external_app_started, app_thread_started.
  split; [reflexivity |].
  split; [destruct (insomnia_safe flags); cbn; lia |].
  intros w.
  edestruct (loader_do_app_closed_world) as (s2 & Hrun & Hl & _ & _ & Hp & Hi);
    [| exists s2; split; [exact Hrun |]].
  { cbn. reflexivity. }
  split.
  - rewrite Hl. destruct s as [[m a ar th ins f ma] w0]. cbn in *. subst. reflexivity.
  - split; [| exact Hp]. rewrite Hi. cbn.
    destruct (insomnia_safe flags); reflexivity.
Qed.

(** X9: once a built-in application runs, a further start of any name is
    refused with a message that names that application, and changes
    nothing. *)
Theorem second_start_names_the_first
    (name : string) (args error_message : option string) (s : State)
    (app : FlipperInternalApplication)
    (name2 : string) (args2 error_message2 : option string) :
  app_thread (loader s) = NULL ->
  app_args (loader s) = None ->
  loader_find_application_by_name (translate_app_name name) = Some app ->
  exists s1,
    loader_do_start_by_name name args error_message s
      = Ret (mkStatusResult LoaderStatusOk LoaderStatusErrorUnknown,
             set_message error_message "App started") s1
    /\ loader_do_start_by_name name2 args2 error_message2 s1
       = Ret (mkStatusResult LoaderStatusErrorAppStarted LoaderStatusErrorUnknown,
              set_message error_message2
                ("Loader is locked, please close the " ++ DQUOTE
                 ++ int_name app ++ DQUOTE ++ " first")) s1
    /\ loader_do_get_application_name s1 = Ret (Some (int_name app)) s1.
Proof.
  intros He Ha Hf. eexists.
  split; [exact (start_by_name_internal name args error_message s He app Ha Hf) |].
  split.
  - exact (start_by_name_running name2 args2 error_message2
             (internal_app_started app args s) _ eq_refl).
  - rewrite loader_do_get_application_name_spec. reflexivity.
Qed.

(** X10: a start of the applications browser does not occupy the slot: the
    browser is open, the slot is empty and not locked, the world is
    untouched; a further start of the browser changes nothing more, and the
    close callback of the browser gives the loader back as it was before a
    browser was open. *)
Theorem applications_browser_leaves_slot_empty
    (name : string) (args error_message : option string) (s : State) :
  app_thread (loader s) = NULL ->
  loader_applications (loader s) = false ->
  loader_find_application_by_name (translate_app_name name) = None ->
  translate_app_name name = LOADER_APPLICATIONS_NAME ->
  exists s1,
    loader_do_start_by_name name args error_message s
      = Ret (mkStatusResult LoaderStatusOk LoaderStatusErrorUnknown,
             set_message error_message "App started") s1
    /\ loader_applications (loader s1) = true
    /\ app_thread (loader s1) = NULL
    /\ world s1 = world s
    /\ loader_do_is_locked s1 = Ret false s1
    /\ loader_do_start_by_name name args error_message s1
       = Ret (mkStatusResult LoaderStatusOk LoaderStatusErrorUnknown,
              set_message error_message "App started") s1
    /\ loader_do_applications_closed s1 = Ret tt s.
Proof.
  intros He Hb Hf Hn.
  exists (mkState (set_loader_applications true (loader s)) (world s)).
  split; [exact (start_by_name_applications name args error_message s He Hf Hn) |].
  split; [reflexivity |]. split; [exact He |]. split; [reflexivity |].
  split; [unfold loader_do_is_locked; step; cbn; rewrite He; reflexivity |].
  split.
  - rewrite (start_by_name_applications name args error_message
               (mkState (set_loader_applications true (loader s)) (world s)) He Hf Hn).
    destruct s as [[m a ar th ins f ma] w]. reflexivity.
  - destruct s as [[m a ar th ins f ma] w]. cbn in Hb. subst a. reflexivity.
Qed.

End Composition.

Lemma internal_start_then_close_witness :
  exists s1 s2,
    loader_do_start_by_name (apps := Demo.apps) (env := Demo.env)
        "Sub-GHz" (Some "fav.sub") (Some "") Demo.idle
      = Ret (mkStatusResult LoaderStatusOk LoaderStatusErrorUnknown,
             Some "App started") s1
    /\ app_args (loader s1) = Some "fav.sub"
    /\ insomnia (world s1) = 1
    /\ loader_do_app_closed (mkState (loader s1) (mkWorld Demo.storage 1 [] [])) = Ret tt s2
    /\ loader s2 = set_insomniac true loader_init
    /\ insomnia (world s2) = 0
    /\ published (world s2) = [LoaderEventTypeApplicationStopped].
Proof.
  destruct (@internal_start_then_close Demo.apps Demo.env
              "Sub-GHz" (Some "fav.sub") (Some "") Demo.idle
              (mkInternalApp 1 "Sub-GHz" "subghz" 3072 (Some Demo.icon_14) 0)
              eq_refl eq_refl eq_refl eq_refl)
    as (s1 & Hrun & Hargs & Hins & Hclose).
  destruct (Hclose (mkWorld Demo.storage 1 [] [])) as (s2 & Hc & Hl & Hi & Hp).
  exists s1, s2.
  split; [exact Hrun |]. split; [exact Hargs |]. split; [exact Hins |].
  split; [exact Hc |]. split; [exact Hl |]. split; [exact Hi | exact Hp].
Defined.

Lemma external_start_then_close_witness :
  exists s1 s2,
    loader_start_external_app (apps := Demo.apps) (env := Demo.env)
        "/ext/apps/NFC/nfc.fap" None (Some "") 0 Demo.idle
      = Ret (mkStatusResult LoaderStatusOk LoaderStatusErrorUnknown,
             Some "App started") s1
    /\ app_fap (loader s1) = Some (mkFap (Some "/ext/apps/NFC/nfc.fap") true)
    /\ insomnia (world s1) = 1
    /\ loader_do_app_closed (mkState (loader s1) (mkWorld Demo.storage 1 [] [])) = Ret tt s2
    /\ loader s2 = set_insomniac true loader_init
    /\ insomnia (world s2) = 0.
Proof.
  destruct (@external_start_then_close Demo.apps Demo.env
              "/ext/apps/NFC/nfc.fap" None (Some "") 0 Demo.idle
              eq_refl eq_refl (conj (or_introl eq_refl) eq_refl) eq_refl)
    as (s1 & Hrun & Hfap & Hins & Hclose).
  destruct (Hclose (mkWorld Demo.storage 1 [] [])) as (s2 & Hc & Hl & Hi & _).
  exists s1, s2.
  split; [exact Hrun |]. split; [exact Hfap |]. split; [exact Hins |].
  split; [exact Hc |]. split; [exact Hl | exact Hi].
Defined.

Lemma second_start_names_the_first_witness :
  exists s1,
    loader_do_start_by_name (apps := Demo.apps) (env := Demo.env)
        "Clock" None (Some "") Demo.idle
      = Ret (mkStatusResult LoaderStatusOk LoaderStatusErrorUnknown,
             Some "App started") s1
    /\ loader_do_start_by_name (apps := Demo.apps) (env := Demo.env)
         "Sub-GHz" None (Some "") s1
       = Ret (mkStatusResult LoaderStatusErrorAppStarted LoaderStatusErrorUnknown,
              Some ("Loader is locked, please close the " ++ DQUOTE
                    ++ "Clock" ++ DQUOTE ++ " first")) s1
    /\ loader_do_get_application_name s1 = Ret (Some "Clock") s1.
Proof.
  exact (@second_start_names_the_first Demo.apps Demo.env
           "Clock" None (Some "") Demo.idle
           (mkInternalApp 3 "Clock" "clock" Demo.MIN_STACK (Some Demo.icon_14) 1)
           "Sub-GHz" None (Some "") eq_refl eq_refl eq_refl).
Defined.

Lemma applications_browser_leaves_slot_empty_witness :
  exists s1,
    loader_do_start_by_name (apps := Demo.apps) (env := Demo.env)
        "Apps" None (Some "") Demo.idle
      = Ret (mkStatusResult LoaderStatusOk LoaderStatusErrorUnknown,
             Some "App started") s1
    /\ loader_applications (loader s1) = true
    /\ app_thread (loader s1) = NULL
    /\ world s1 = Demo.empty_world
    /\ loader_do_is_locked s1 = Ret false s1
    /\ loader_do_start_by_name (apps := Demo.apps) (env := Demo.env)
         "Apps" None (Some "") s1
       = Ret (mkStatusResult LoaderStatusOk LoaderStatusErrorUnknown,
              Some "App started") s1
    /\ loader_do_applications_closed s1 = Ret tt Demo.idle.
Proof.
  exact (@applications_browser_leaves_slot_empty Demo.apps Demo.env
           "Apps" None (Some "") Demo.idle eq_refl eq_refl eq_refl eq_refl).
Defined.


(** ** Lines of the menu file *)

Section MenuLines.

Context {apps : Applications} {env : Collaborators}.

(** X11: an entry that the reading loop makes of a line can be started by its
    [exe]: either [exe] is the path of a file on storage whose name and icon
    were loaded, or it is no such path and is the name of an entry with an
    icon, of the built-in table or else of the external table, and then the
    label is that name too. *)
Theorem menu_entry_resolves (w : World) (version : Z) (line : string) (e : MenuApp) :
  menu_line_entry w version line = Some e ->
  (storage_file_exists w (exe e) = true
   /\ exists icon_buf,
        flipper_application_load_name_and_icon (files w) (exe e)
          = Some (label e, icon_buf)
        /\ icon e = mkIcon 1 1 10 10 [icon_buf])
  \/ (storage_file_exists w (exe e) = false
      /\ label e = exe e
      /\ ((exists a, In a FLIPPER_APPS /\ int_name a = exe e /\ int_icon a = Some (icon e))
          \/ (~ In (exe e) (map int_name FLIPPER_APPS)
              /\ exists x, In x FLIPPER_EXTERNAL_APPS
                           /\ ext_name x = exe e /\ ext_icon x = Some (icon e)))).
Proof.
  unfold menu_line_entry, menu_line_lookup.
  set (l := if version =? 0 then _ else _).
  destruct (storage_file_exists w l) eqn:Hx.
  - unfold loader_menu_load_fap_meta.
    destruct (flipper_application_load_name_and_icon (files w) l) as [[n b] |] eqn:Hm;
      [| discriminate].
    intros H. inversion H; subst e. cbn. left.
    split; [exact Hx |]. exists b. split; [exact Hm | reflexivity].
  - destruct (List.find (fun a => String.eqb l (int_name a)) FLIPPER_APPS) as [a |] eqn:Ea.
    + destruct (int_icon a) as [ic |] eqn:Hic; [| discriminate].
      intros H. inversion H; subst e. cbn.
      apply List.find_some in Ea as [Ha Hn]. apply String.eqb_eq in Hn.
      right. rewrite <- Hn. split; [exact Hx |]. split; [reflexivity |].
      left. exists a. repeat apply conj; [exact Ha | congruence | exact Hic].
    + destruct (List.find (fun x => String.eqb l (ext_name x)) FLIPPER_EXTERNAL_APPS)
        as [x |] eqn:Ex; [| discriminate].
      destruct (ext_icon x) as [ic |] eqn:Hic; [| discriminate].
      intros H. inversion H; subst e. cbn.
      apply List.find_some in Ex as [Hin Hn]. apply String.eqb_eq in Hn.
      right. rewrite <- Hn. split; [exact Hx |]. split; [reflexivity |].
      right. split.
      * intros Hm. apply in_map_iff in Hm as (a & Hna & Ha).
        pose proof (List.find_none _ _ Ea a Ha) as Hb. cbn beta in Hb.
        rewrite Hna, String.eqb_refl in Hb. discriminate.
      * exists x. repeat apply conj; [exact Hin | congruence | exact Hic].
Qed.

(** X12: a file of version 0 is read as one of version 1 in which the two
    old names are replaced by the present ones: a line that strips to "RFID"
    is looked up as "125 kHz RFID", one that strips to "SubGHz" as "Sub-GHz",
    and every other line as it is. *)
Theorem version_0_renames_two_entries (w : World) (line : string) :
  menu_line_entry w 0 line
  = menu_line_entry w 1
      (if String.eqb (stripped line) "RFID" then "125 kHz RFID"
       else if String.eqb (stripped line) "SubGHz" then "Sub-GHz"
       else line).
Proof.
  unfold menu_line_entry, menu_line_lookup.
  change (furi_string_remove_all LF (furi_string_remove_all CR line))
    with (stripped line).
  cbn [Z.eqb].
  destruct (String.eqb (stripped line) "RFID"); [reflexivity |].
  destruct (String.eqb (stripped line) "SubGHz"); reflexivity.
Qed.

(** X13: the reading loop looks a line up by what is left of it without
    carriage returns and line feeds, wherever they stand: two lines that
    strip to the same text give the same entry, and a name without line
    breaks is what is left of it with a line feed, or a carriage return and
    a line feed, at its end. *)
Theorem line_breaks_are_ignored :
  (forall (w : World) (version : Z) (l1 l2 : string),
     stripped l1 = stripped l2 ->
     menu_line_entry w version l1 = menu_line_entry w version l2)
  /\ (forall n : string,
        has_char LF n = false -> has_char CR n = false ->
        stripped n = n
        /\ stripped (n ++ String LF "") = n
        /\ stripped (n ++ String CR (String LF "")) = n).
Proof.
  split.
  - intros w version l1 l2 H. unfold menu_line_entry, menu_line_lookup.
    change (furi_string_remove_all LF (furi_string_remove_all CR l1))
      with (stripped l1).
    change (furi_string_remove_all LF (furi_string_remove_all CR l2))
      with (stripped l2).
    rewrite H. reflexivity.
  - intros n Hlf Hcr. split; [| split].
    + unfold stripped.
      rewrite (furi_string_remove_all_absent CR n Hcr).
      apply (furi_string_remove_all_absent LF n Hlf).
    + apply stripped_line; assumption.
    + unfold stripped. rewrite !furi_string_remove_all_app.
      rewrite (furi_string_remove_all_absent CR n Hcr). cbn.
      rewrite (furi_string_remove_all_absent LF n Hlf). apply append_nil_r.
Qed.

(** X14: at a normal boot with a menu file whose first line gives a version
    up to 1, the storage is left as it is, the old list of additional
    applications included, and the menu holds, in the order of the file, the
    entries of the lines after the first that resolve. *)
Theorem loader_alloc_reads_existing_file
    (s : State) (contents : string) (version : Z) (rest : string) :
  furi_hal_is_normal_boot = true ->
  files (world s) !! MAINMENU_APPS_PATH = Some contents ->
  read_version contents = Some (version, rest) ->
  loader_alloc s
  = Ret tt
      (mkState
         (set_menu_apps
            (omap (menu_line_entry (world s) version) (stream_lines rest)) loader_init)
         (world s)).
Proof.
  intros Hboot Hfile Hver. unfold loader_alloc. run. rewrite Hboot. cbn [negb].
  unfold file_stream_open_existing. run. rewrite Hfile, Hver.
  rewrite loader_read_menu_lines_spec. reflexivity.
Qed.

End MenuLines.

Lemma menu_entry_resolves_witness :
  (storage_file_exists Demo.empty_world "Clock" = true
   /\ exists icon_buf,
        flipper_application_load_name_and_icon (Collaborators := Demo.env)
          Demo.storage "Clock" = Some ("Clock", icon_buf)
        /\ Demo.icon_14 = mkIcon 1 1 10 10 [icon_buf])
  \/ (storage_file_exists Demo.empty_world "Clock" = false
      /\ "Clock" = "Clock"
      /\ ((exists a, In a (FLIPPER_APPS (Applications := Demo.apps))
                     /\ int_name a = "Clock" /\ int_icon a = Some Demo.icon_14)
          \/ (~ In "Clock" (map int_name (FLIPPER_APPS (Applications := Demo.apps)))
              /\ exists x, In x (FLIPPER_EXTERNAL_APPS (Applications := Demo.apps))
                           /\ ext_name x = "Clock"
                           /\ ext_icon x = Some Demo.icon_14))).
Proof.
  exact (@menu_entry_resolves Demo.apps Demo.env Demo.empty_world 1
           ("Clock" ++ String CR (String LF ""))
           (mkMenuApp "Clock" Demo.icon_14 "Clock") eq_refl).
Defined.

Lemma loader_alloc_reads_existing_file_witness :
  loader_alloc (apps := Demo.apps) (env := DemoService.env) DemoService.with_menu_file
  = Ret tt
      (mkState
         (set_menu_apps
            [mkMenuApp "Clock" Demo.icon_14 "Clock";
             mkMenuApp "Old App" (mkIcon 1 1 10 10 ["old"]) "/ext/apps/Tools/old.fap";
             mkMenuApp "NFC" Demo.icon_14 "NFC"]
            loader_init)
         (mkWorld DemoService.menu_storage 0 [] [])).
Proof.
  exact (@loader_alloc_reads_existing_file Demo.apps DemoService.env
           DemoService.with_menu_file
           ("MenuAppList Version 1" ++ String LF ("Clock" ++ String CR (String LF
            ("/ext/apps/Tools/old.fap" ++ String LF ("Snake" ++ String LF
            ("NFC" ++ String LF ""))))))
           1
           ("Clock" ++ String CR (String LF
            ("/ext/apps/Tools/old.fap" ++ String LF ("Snake" ++ String LF
            ("NFC" ++ String LF "")))))
           eq_refl eq_refl eq_refl).
Defined.


(** ** What [loader_alloc] leaves alone *)

Section AllocFrame.

Context {apps : Applications} {env : Collaborators}.

Lemma same_but_menu_files_refl (w : World) : same_but_menu_files w w.
Proof. repeat split. Qed.

Lemma same_but_menu_files_trans (w1 w2 w3 : World) :
  same_but_menu_files w1 w2 -> same_but_menu_files w2 w3 -> same_but_menu_files w1 w3.
Proof.
  intros (Hi & Hp & Hs & Hf) (Hi' & Hp' & Hs' & Hf').
  repeat split; try congruence.
  intros p Hm Hx. rewrite (Hf' p Hm Hx). exact (Hf p Hm Hx).
Qed.

Lemma same_but_menu_files_insert (w : World) (c : string) :
  same_but_menu_files w (set_files (<[MAINMENU_APPS_PATH := c]> (files w)) w).
Proof.
  repeat split. intros p Hm Hx. cbn. rewrite lookup_insert_ne by congruence. reflexivity.
Qed.

Lemma same_but_menu_files_delete (w : World) (q : string) :
  q = MAINMENU_APPS_PATH \/ q = XTREME_APPS_PATH ->
  same_but_menu_files w (set_files (delete q (files w)) w).
Proof.
  intros Hq. repeat split. intros p Hm Hx. cbn.
  rewrite lookup_delete_ne by (destruct Hq; congruence). reflexivity.
Qed.

(** A computation that changes at most the menu of the loader, the menu
    file and the old list. *)
Let keeps_frame {A} (m : M A) : Prop :=
  forall s a s', m s = Ret a s' ->
    set_menu_apps [] (loader s') = set_menu_apps [] (loader s)
    /\ same_but_menu_files (world s) (world s').

Lemma keeps_frame_ret {A} (a : A) : keeps_frame (ret a).
Proof.
  intros s a' s' H. inversion H; subst.
  split; [reflexivity | apply same_but_menu_files_refl].
Qed.

Lemma keeps_frame_bind {A B} (m : M A) (k : A -> M B) :
  keeps_frame m -> (forall a, keeps_frame (k a)) -> keeps_frame (bind m k).
Proof.
  intros Hm Hk s b s'. unfold bind.
  destruct (m s) as [a s1 |] eqn:E; [| discriminate].
  intros H. destruct (Hm s a s1 E) as [Hl1 Hw1]. destruct (Hk a s1 b s' H) as [Hl2 Hw2].
  split; [congruence | eapply same_but_menu_files_trans; eassumption].
Qed.

Lemma keeps_frame_world (f : World -> World) :
  (forall w, same_but_menu_files w (f w)) -> keeps_frame (modify_world f).
Proof.
  intros Hf s a s' H. inversion H; subst. split; [reflexivity | apply Hf].
Qed.

Lemma keeps_frame_stream_write (d : string) :
  keeps_frame (stream_write MAINMENU_APPS_PATH d).
Proof. apply keeps_frame_world. intros w. apply same_but_menu_files_insert. Qed.

Lemma keeps_frame_remove (q : string) :
  q = MAINMENU_APPS_PATH \/ q = XTREME_APPS_PATH ->
  keeps_frame (storage_common_remove q).
Proof.
  intros Hq. apply keeps_frame_world. intros w. apply same_but_menu_files_delete, Hq.
Qed.

Lemma keeps_frame_open (p : string) : keeps_frame (file_stream_open_existing p).
Proof.
  intros s a s' H. inversion H; subst.
  split; [reflexivity | apply same_but_menu_files_refl].
Qed.

Lemma keeps_frame_for_each_below {A} (body : A -> M unit) (table : list A) :
  (forall x, keeps_frame (body x)) ->
  forall n, keeps_frame (for_each_below n table body).
Proof.
  intros Hb. induction table as [| x table IH]; intros n; cbn [for_each_below].
  - destruct (n <=? 0); [apply keeps_frame_ret | intros s a s' H; discriminate].
  - destruct (n <=? 0); [apply keeps_frame_ret |].
    apply keeps_frame_bind; [apply Hb | intros _; apply IH].
Qed.

Lemma keeps_frame_make_menu_file : keeps_frame loader_make_menu_file.
Proof.
  unfold loader_make_menu_file.
  apply keeps_frame_bind; [intros s a s' H; inversion H; subst;
                           split; [reflexivity | apply same_but_menu_files_refl] |].
  intros w. destruct (negb _); [| apply keeps_frame_ret].
  apply keeps_frame_bind;
    [apply keeps_frame_world; intros w0; apply same_but_menu_files_insert |].
  intros _. apply keeps_frame_bind; [apply keeps_frame_stream_write |].
  intros _. apply keeps_frame_bind;
    [apply keeps_frame_for_each_below; intros x; apply keeps_frame_stream_write |].
  intros _. apply keeps_frame_bind;
    [apply keeps_frame_for_each_below; intros x; apply keeps_frame_stream_write |].
  intros _. apply keeps_frame_bind; [apply keeps_frame_open |].
  intros old. apply keeps_frame_bind;
    [destruct old; [apply keeps_frame_stream_write | apply keeps_frame_ret] |].
  intros _. apply keeps_frame_remove. right. reflexivity.
Qed.

Lemma keeps_frame_read_menu_lines (version : Z) (lines : list string) :
  keeps_frame (loader_read_menu_lines version lines).
Proof.
  intros s a s' H. rewrite loader_read_menu_lines_spec in H. inversion H; subst.
  split; [reflexivity | apply same_but_menu_files_refl].
Qed.

(** The loader that [loader_alloc] returns, whatever the menu. *)
Lemma loader_alloc_frame_cases (s s' : State) :
  loader_alloc s = Ret tt s' ->
  loader s' = set_menu_apps (menu_apps (loader s')) loader_init
  /\ same_but_menu_files (world s) (world s').
Proof.
  unfold loader_alloc.
  match goal with
  | |- bind _ ?rest _ = _ -> _ => assert (Hk : keeps_frame (rest tt))
  end.
  { destruct (negb furi_hal_is_normal_boot); [apply keeps_frame_ret |].
    apply keeps_frame_bind; [apply keeps_frame_open |].
    intros stream. apply keeps_frame_bind.
    { destruct stream; [apply keeps_frame_ret |].
      apply keeps_frame_bind; [apply keeps_frame_make_menu_file |].
      intros _. apply keeps_frame_open. }
    intros [contents |]; [| apply keeps_frame_ret].
    apply keeps_frame_bind.
    { destruct (read_version contents); [apply keeps_frame_ret |].
      apply keeps_frame_bind; [apply keeps_frame_remove; left; reflexivity |].
      intros _. apply keeps_frame_bind; [apply keeps_frame_make_menu_file |].
      intros _. apply keeps_frame_bind; [apply keeps_frame_open |].
      intros [c |]; apply keeps_frame_ret. }
    intros [[version rest] |]; [apply keeps_frame_read_menu_lines | apply keeps_frame_ret]. }
  unfold bind at 1. unfold modify_loader at 1.
  intros H. apply Hk in H as [Hl Hw]. cbn [loader world] in Hl, Hw.
  split; [| exact Hw].
  destruct (loader s') as [m a ar th ins f ma]. cbn in Hl. inversion Hl; subst.
  reflexivity.
Qed.

(** X15: whenever [loader_alloc] returns, the slot of the loader is empty,
    with no arguments, no binary, no menu and no applications browser, and
    nothing of the world has changed but the menu file and the old list of
    additional applications: every other file, the insomnia counter, the
    events and the dialogs are as before. *)
Theorem loader_alloc_frame (s s' : State) :
  loader_alloc s = Ret tt s' ->
  app_thread (loader s') = NULL
  /\ app_args (loader s') = None
  /\ app_fap (loader s') = None
  /\ app_insomniac (loader s') = false
  /\ loader_menu (loader s') = None
  /\ loader_applications (loader s') = false
  /\ insomnia (world s') = insomnia (world s)
  /\ published (world s') = published (world s)
  /\ shown (world s') = shown (world s)
  /\ forall p, p <> MAINMENU_APPS_PATH -> p <> XTREME_APPS_PATH ->
               files (world s') !! p = files (world s) !! p.
Proof.
  intros H. apply loader_alloc_frame_cases in H as [Hl (Hi & Hp & Hs & Hf)].
  rewrite Hl. cbn. repeat apply conj; try reflexivity; assumption.
Qed.

End AllocFrame.

Lemma loader_alloc_frame_witness :
  app_thread (loader DemoService.booted) = NULL
  /\ app_args (loader DemoService.booted) = None
  /\ app_fap (loader DemoService.booted) = None
  /\ app_insomniac (loader DemoService.booted) = false
  /\ loader_menu (loader DemoService.booted) = None
  /\ loader_applications (loader DemoService.booted) = false
  /\ insomnia (world DemoService.booted) = 0
  /\ published (world DemoService.booted) = []
  /\ shown (world DemoService.booted) = []
  /\ files (world DemoService.booted) !! "/ext/apps/Tools/old.fap" = Some "ELF".
Proof.
  destruct (@loader_alloc_frame Demo.apps DemoService.env
              DemoService.with_menu_file DemoService.booted eq_refl)
    as (H1 & H2 & H3 & H4 & H5 & H6 & H7 & H8 & H9 & H10).
  repeat (split; [assumption |]).
  rewrite (H10 "/ext/apps/Tools/old.fap"); [reflexivity | discriminate | discriminate].
Defined.


(** ** The error dialogs *)

Section GuiErrors.

Context {apps : Applications} {env : Collaborators} {gui : Presentation}.

(** The state after one more dialog. *)
Lemma dialog_show_spec (d : DialogMessage) (s : State) :
  dialog_show d s
  = Ret (dialog_message_show d)
        (mkState (loader s) (set_shown (shown (world s) ++ [d]) (world s))).
Proof. reflexivity. Qed.

Lemma loader_show_gui_error_silent
    (status : LoaderMessageLoaderStatusResult) (name : string)
    (error_message : option string) (s : State) :
  value status = LoaderStatusOk \/ value status = LoaderStatusErrorAppStarted ->
  loader_show_gui_error status name error_message s = Ret tt s.
Proof.
  intros H. unfold loader_show_gui_error.
  destruct status as [v e]. cbn [value] in *.
  destruct H as [-> | ->]; decide_bools; reflexivity.
Qed.

(** The error dialogs change the world only, when they return. *)
Lemma loader_show_gui_error_loader
    (status : LoaderMessageLoaderStatusResult) (name : string)
    (error_message : option string) (s s' : State) :
  loader_show_gui_error status name error_message s = Ret tt s' ->
  loader s' = loader s /\ files (world s') = files (world s)
  /\ insomnia (world s') = insomnia (world s)
  /\ published (world s') = published (world s).
Proof.
  unfold loader_show_gui_error, loader_dialog_prepare_and_show, furi_hal_power_reset.
  destruct status as [v e]. cbn [value error].
  destruct (_ && _); [intros H; inversion H; subst; repeat split |].
  destruct (bool_decide (v = LoaderStatusErrorUnknownApp));
    [intros H; inversion H; subst; repeat split |].
  destruct (bool_decide (v = LoaderStatusErrorInternal));
    [| intros H; inversion H; subst; repeat split].
  destruct e;
    [ destruct error_message; [| discriminate]
    | .. 
    | unfold bind; rewrite dialog_show_spec; destruct (bool_decide _); [discriminate |] ];
    intros H; inversion H; subst; repeat split.
Qed.

Lemma dispatch_detached_occupied
    (name : string) (args : option string) (s : State) :
  app_thread (loader s) <> NULL ->
  loader_srv_dispatch (LoaderMessageTypeStartByNameDetachedWithGuiError name args) s
  = Ret NoResult s.
Proof.
  intros Hn. cbn [loader_srv_dispatch].
  assert (Hstart : exists m,
            loader_do_start_by_name name args (Some "") s
            = Ret (mkStatusResult LoaderStatusErrorAppStarted LoaderStatusErrorUnknown,
                   Some m) s).
  { destruct (app_thread (loader s)) as [| |t] eqn:E; [congruence | |].
    - eexists. unfold loader_do_start_by_name, loader_do_is_locked. step.
      rewrite E. cbn. reflexivity.
    - eexists. rewrite (start_by_name_running name args (Some "") s t E). reflexivity. }
  destruct Hstart as [m Hstart]. unfold bind at 1. rewrite Hstart.
  unfold bind. cbn [fst snd].
  rewrite loader_show_gui_error_silent by (right; reflexivity). reflexivity.
Qed.

(** X16: a start with error dialog on a slot that is not empty shows nothing
    and changes nothing: the refusal of a second start is kept from the
    user. *)
Theorem detached_start_on_occupied_slot_is_silent
    (name : string) (args : option string) (s : State) :
  app_thread (loader s) <> NULL ->
  loader_srv_dispatch (LoaderMessageTypeStartByNameDetachedWithGuiError name args) s
  = Ret NoResult s.
Proof. exact (dispatch_detached_occupied name args s). Qed.

(** X17: a start with error dialog of a binary with an API mismatch that the
    user declines shows the prompt of the mismatch and no error dialog after
    it; the slot stays as it was and the binary is freed. *)
Theorem detached_declined_mismatch_shows_one_dialog
    (name : string) (args : option string) (s : State) :
  let path := fst (external_path_and_flags (translate_app_name name)) in
  let preload_res := flipper_application_preload (files (world s)) path in
  let prompt :=
    api_mismatch_dialog preload_res
      (flipper_application_get_manifest (files (world s)) path) in
  app_thread (loader s) = NULL ->
  loader_find_application_by_name (translate_app_name name) = None ->
  translate_app_name name <> LOADER_APPLICATIONS_NAME ->
  storage_file_exists (world s) path = true ->
  api_mismatch_of preload_res = true ->
  flipper_application_map_to_memory (files (world s)) path
    = FlipperApplicationLoadStatusSuccess ->
  dialog_message_show prompt <> DialogMessageButtonRight ->
  loader_srv_dispatch (LoaderMessageTypeStartByNameDetachedWithGuiError name args) s
  = Ret NoResult (load_failed_state s [prompt]).
Proof.
  intros path preload_res prompt He Hf Hn Hx Hm Hl Hd.
  cbn [loader_srv_dispatch]. unfold bind at 1.
  rewrite (start_by_name_external name args (Some "") s He Hf Hn Hx).
  fold path.
  rewrite (start_external_mismatch_declined path args _ _ s Hm Hl Hd).
  unfold bind. cbn [fst snd].
  rewrite loader_show_gui_error_silent by (right; reflexivity). reflexivity.
Qed.

(** X18: the dialog of an internal error of a kind with a reference code:
    one dialog is shown, its header and text made of the title, the
    description and the code of its kind, and two different kinds never show
    the same dialog. *)
Theorem internal_error_dialogs
    (kind : LoaderStatusError) (name : string) (error_message : option string)
    (s : State) :
  kind <> LoaderStatusErrorUnknown ->
  kind <> LoaderStatusErrorOutOfMemory ->
  exists err,
    loader_show_gui_error (mkStatusResult LoaderStatusErrorInternal kind)
      name error_message s
    = Ret tt (mkState (loader s)
                (set_shown (shown (world s) ++ [gui_message (loader_dialog_prepare err)])
                   (world s)))
    /\ In err [err_invalid_flie; err_invalid_manifest; err_missing_imports;
               err_hw_target_mismatch; err_outdated_app; err_outdated_firmware]
    /\ forall kind',
         kind' <> LoaderStatusErrorUnknown ->
         kind' <> LoaderStatusErrorOutOfMemory ->
         loader_show_gui_error (mkStatusResult LoaderStatusErrorInternal kind')
           name error_message s
         = loader_show_gui_error (mkStatusResult LoaderStatusErrorInternal kind)
             name error_message s ->
         kind' = kind.
Proof.
  intros Hu Ho.
  assert (Hshow : forall err,
    loader_dialog_prepare_and_show err s
    = Ret tt (mkState (loader s)
                (set_shown (shown (world s) ++ [gui_message (loader_dialog_prepare err)])
                   (world s)))) by reflexivity.
  assert (Hinj : forall l d1 d2, Ret (A := unit) tt
             (mkState l (set_shown (shown (world s) ++ [d1]) (world s)))
           = Ret tt (mkState l (set_shown (shown (world s) ++ [d2]) (world s))) ->
           d1 = d2).
  { intros l d1 d2 H. inversion H as [H1].
    apply app_inv_head in H1. congruence. }
  unfold loader_show_gui_error. cbn [value error]. decide_bools. cbn [andb].
  destruct kind; try congruence;
    (eexists; split; [apply Hshow |];
     split; [cbn; tauto |];
     intros kind' Hu' Ho' Heq;
     destruct kind'; try congruence; try reflexivity;
     unfold loader_show_gui_error in Heq; cbn [value error] in Heq;
     rewrite ?(bool_decide_eq_false_2 (LoaderStatusErrorInternal = LoaderStatusErrorUnknownApp))
       in Heq by discriminate;
     rewrite ?(bool_decide_eq_true_2 (LoaderStatusErrorInternal = LoaderStatusErrorInternal))
       in Heq by reflexivity;
     cbn [andb] in Heq;
     rewrite !Hshow in Heq; apply Hinj in Heq; discriminate).
Qed.

End GuiErrors.

Lemma detached_start_on_occupied_slot_is_silent_witness :
  loader_srv_dispatch (apps := Demo.apps) (env := DemoService.env) (gui := DemoService.gui)
    (LoaderMessageTypeStartByNameDetachedWithGuiError "Nonexistent" None)
    DemoService.running
  = Ret NoResult DemoService.running.
Proof.
  exact (@detached_start_on_occupied_slot_is_silent
           Demo.apps DemoService.env DemoService.gui
           "Nonexistent" None DemoService.running ltac:(discriminate)).
Defined.

Lemma detached_declined_mismatch_shows_one_dialog_witness :
  loader_srv_dispatch (apps := Demo.apps) (env := DemoService.env) (gui := DemoService.gui)
    (LoaderMessageTypeStartByNameDetachedWithGuiError "/ext/apps/Tools/old.fap" None)
    DemoService.idle
  = Ret NoResult
      (load_failed_state DemoService.idle
         [api_mismatch_dialog (env := DemoService.env)
            FlipperApplicationPreloadStatusApiTooOld
            (mkManifest "app" Demo.MIN_STACK 70 2)]).
Proof.
  exact (@detached_declined_mismatch_shows_one_dialog
           Demo.apps DemoService.env DemoService.gui
           "/ext/apps/Tools/old.fap" None DemoService.idle
           eq_refl eq_refl ltac:(discriminate) eq_refl eq_refl eq_refl
           ltac:(discriminate)).
Defined.

Lemma internal_error_dialogs_witness :
  exists err,
    loader_show_gui_error (apps := Demo.apps) (env := DemoService.env)
        (gui := DemoService.gui)
        (mkStatusResult LoaderStatusErrorInternal LoaderStatusErrorHWMismatch)
        "/ext/apps/Tools/f18.fap" None DemoService.idle
    = Ret tt (mkState loader_init
                (mkWorld DemoService.storage 0 []
                   [gui_message (loader_dialog_prepare err)]))
    /\ In err [err_invalid_flie (gui := DemoService.gui);
               err_invalid_manifest (gui := DemoService.gui);
               err_missing_imports (gui := DemoService.gui);
               err_hw_target_mismatch (gui := DemoService.gui);
               err_outdated_app (gui := DemoService.gui);
               err_outdated_firmware (gui := DemoService.gui)].
Proof.
  destruct (@internal_error_dialogs Demo.apps DemoService.env DemoService.gui
              LoaderStatusErrorHWMismatch "/ext/apps/Tools/f18.fap" None DemoService.idle)
    as (err & Hrun & Hin & _); [discriminate | discriminate |].
  exists err. split; [exact Hrun | exact Hin].
Defined.


(** ** The slot under the dispatcher *)

Section Dispatcher.

Context {apps : Applications} {env : Collaborators} {gui : Presentation}.

Lemma start_by_name_locked
    (name : string) (args error_message : option string) (s : State) :
  app_thread (loader s) = LOADER_MAGIC_THREAD_VALUE ->
  loader_do_start_by_name name args error_message s
  = Ret (mkStatusResult LoaderStatusErrorAppStarted LoaderStatusErrorUnknown,
         set_message error_message "Loader is locked") s.
Proof.
  intros Ht. unfold loader_do_start_by_name, loader_do_is_locked. step.
  rewrite Ht. cbn. results. reflexivity.
Qed.

(** X19: while the slot is administratively locked, no message starts an
    application.  The close of an application is a failed check; the unlock
    empties the slot; every other message leaves the slot locked.  The world
    is untouched, a start is answered with the status that an application is
    started, a lock with false, the lock query with true, and the name and
    signal queries as if nothing ran. *)
Theorem locked_slot_transitions (s : State) (message : LoaderMessage) :
  app_thread (loader s) = LOADER_MAGIC_THREAD_VALUE ->
  (message = LoaderMessageTypeAppClosed -> loader_srv_dispatch message s = Crash)
  /\ (message <> LoaderMessageTypeAppClosed ->
      exists r s',
        loader_srv_dispatch message s = Ret r s'
        /\ world s' = world s
        /\ (message = LoaderMessageTypeUnlock -> app_thread (loader s') = NULL)
        /\ (message <> LoaderMessageTypeUnlock ->
            app_thread (loader s') = LOADER_MAGIC_THREAD_VALUE)
        /\ (forall name args error_message,
              message = LoaderMessageTypeStartByName name args error_message ->
              r = StatusValue
                    (mkStatusResult LoaderStatusErrorAppStarted LoaderStatusErrorUnknown)
                    (set_message error_message "Loader is locked")
              /\ s' = s)
        /\ (message = LoaderMessageTypeLock -> r = BoolValue false)
        /\ (message = LoaderMessageTypeIsLocked -> r = BoolValue true)
        /\ (message = LoaderMessageTypeGetApplicationName -> r = ApplicationName None)
        /\ (forall signal, message = LoaderMessageTypeSignal signal -> r = BoolValue false)).
Proof.
  intros Ht. split.
  - intros ->. cbn [loader_srv_dispatch]. unfold bind.
    rewrite loader_do_app_closed_no_thread; [reflexivity |].
    intros t. rewrite Ht. discriminate.
  - intros Hm.
    destruct message as [name args em | name args | | | | | | | | | signal |];
      try congruence.
    + exists (StatusValue
                (mkStatusResult LoaderStatusErrorAppStarted LoaderStatusErrorUnknown)
                (set_message em "Loader is locked")), s.
      cbn [loader_srv_dispatch]. unfold bind.
      rewrite (start_by_name_locked name args em s Ht).
      repeat apply conj; try reflexivity; try discriminate; try (intros; assumption).
      intros n a e H. inversion H; subst. split; reflexivity.
    + exists NoResult, s.
      rewrite dispatch_detached_occupied by (rewrite Ht; discriminate).
      repeat apply conj; try reflexivity; try discriminate; intros; assumption.
    + destruct s as [[m a ar th ins f ma] w]. cbn in Ht. subst th.
      destruct m; do 2 eexists; (split; [reflexivity |]);
        repeat apply conj; try reflexivity; try discriminate.
    + destruct s as [[m a ar th ins f ma] w]. cbn in Ht. subst th.
      destruct m; do 2 eexists; (split; [reflexivity |]);
        repeat apply conj; try reflexivity; try discriminate.
    + destruct s as [[m a ar th ins f ma] w]. cbn in Ht. subst th.
      destruct m; do 2 eexists; (split; [reflexivity |]);
        repeat apply conj; try reflexivity; try discriminate.
    + destruct s as [[m a ar th ins f ma] w]. cbn in Ht. subst th.
      do 2 eexists; (split; [reflexivity |]);
        repeat apply conj; try reflexivity; try discriminate.
    + destruct s as [[m a ar th ins f ma] w]. cbn in Ht. subst th.
      do 2 eexists; (split; [reflexivity |]);
        repeat apply conj; try reflexivity; try discriminate.
    + destruct s as [[m a ar th ins f ma] w]. cbn in Ht. subst th.
      do 2 eexists; (split; [reflexivity |]);
        repeat apply conj; try reflexivity; try discriminate.
      intros H. exfalso. apply H. reflexivity.
    + destruct s as [[m a ar th ins f ma] w]. cbn in Ht. subst th.
      destruct a; do 2 eexists; (split; [reflexivity |]);
        repeat apply conj; try reflexivity; try discriminate.
    + destruct s as [[m a ar th ins f ma] w]. cbn in Ht. subst th.
      do 2 eexists; (split; [reflexivity |]);
        repeat apply conj; try reflexivity; try discriminate.
    + destruct s as [[m a ar th ins f ma] w]. cbn in Ht. subst th.
      do 2 eexists; (split; [reflexivity |]);
        repeat apply conj; try reflexivity; try discriminate.
Qed.

(** X20: while an application runs, only its close changes the slot.  The
    unlock is a failed check; the close empties the slot and frees the
    arguments and the binary; every other message leaves the very same thread
    in the slot and the world untouched, a start being answered with the
    status that an application is started and a message that names the
    thread, a lock with false, the lock query with true, the name query with
    the name of the thread, and a signal with the answer of the thread. *)
Theorem running_slot_transitions (s : State) (t : FuriThread) (message : LoaderMessage) :
  app_thread (loader s) = Thread t ->
  (message = LoaderMessageTypeUnlock -> loader_srv_dispatch message s = Crash)
  /\ (message = LoaderMessageTypeAppClosed ->
      exists s',
        loader_srv_dispatch message s = Ret NoResult s'
        /\ app_thread (loader s') = NULL
        /\ app_args (loader s') = None
        /\ app_fap (loader s') = None)
  /\ (message <> LoaderMessageTypeUnlock ->
      message <> LoaderMessageTypeAppClosed ->
      exists r s',
        loader_srv_dispatch message s = Ret r s'
        /\ world s' = world s
        /\ app_thread (loader s') = Thread t
        /\ (forall name args error_message,
              message = LoaderMessageTypeStartByName name args error_message ->
              r = StatusValue
                    (mkStatusResult LoaderStatusErrorAppStarted LoaderStatusErrorUnknown)
                    (set_message error_message
                       ("Loader is locked, please close the " ++ DQUOTE
                        ++ thread_name t ++ DQUOTE ++ " first"))
              /\ s' = s)
        /\ (message = LoaderMessageTypeLock -> r = BoolValue false)
        /\ (message = LoaderMessageTypeIsLocked -> r = BoolValue true)
        /\ (message = LoaderMessageTypeGetApplicationName ->
            r = ApplicationName (Some (thread_name t)))
        /\ (forall signal, message = LoaderMessageTypeSignal signal ->
                           r = BoolValue (furi_thread_signal t signal))).
Proof.
  intros Ht. split; [| split].
  - intros ->. cbn [loader_srv_dispatch]. unfold bind.
    rewrite loader_do_unlock_not_locked; [reflexivity |].
    rewrite Ht. discriminate.
  - intros ->. cbn [loader_srv_dispatch]. unfold bind.
    rewrite (loader_do_app_closed_spec s t Ht). eexists.
    split; [reflexivity |]. repeat apply conj; reflexivity.
  - intros Hu Hc.
    destruct message as [name args em | name args | | | | | | | | | signal |];
      try congruence.
    + do 2 eexists. cbn [loader_srv_dispatch]. unfold bind.
      rewrite (start_by_name_running name args em s t Ht).
      split; [reflexivity |].
      repeat apply conj; try reflexivity; try discriminate; try assumption.
      intros n a e H. inversion H; subst. split; reflexivity.
    + exists NoResult, s.
      rewrite dispatch_detached_occupied by (rewrite Ht; discriminate).
      repeat apply conj; try reflexivity; try discriminate; assumption.
    + destruct s as [[m a ar th ins f ma] w]. cbn in Ht. subst th.
      destruct m; do 2 eexists; (split; [reflexivity |]);
        repeat apply conj; try reflexivity; try discriminate.
    + destruct s as [[m a ar th ins f ma] w]. cbn in Ht. subst th.
      destruct m; do 2 eexists; (split; [reflexivity |]);
        repeat apply conj; try reflexivity; try discriminate.
    + destruct s as [[m a ar th ins f ma] w]. cbn in Ht. subst th.
      destruct m; do 2 eexists; (split; [reflexivity |]);
        repeat apply conj; try reflexivity; try discriminate.
    + destruct s as [[m a ar th ins f ma] w]. cbn in Ht. subst th.
      do 2 eexists; (split; [reflexivity |]);
        repeat apply conj; try reflexivity; try discriminate.
    + destruct s as [[m a ar th ins f ma] w]. cbn in Ht. subst th.
      do 2 eexists; (split; [reflexivity |]);
        repeat apply conj; try reflexivity; try discriminate.
    + destruct s as [[m a ar th ins f ma] w]. cbn in Ht. subst th.
      destruct a; do 2 eexists; (split; [reflexivity |]);
        repeat apply conj; try reflexivity; try discriminate.
    + destruct s as [[m a ar th ins f ma] w]. cbn in Ht. subst th.
      do 2 eexists; (split; [reflexivity |]);
        repeat apply conj; try reflexivity; try discriminate.
      intros sg H. inversion H; subst. reflexivity.
    + destruct s as [[m a ar th ins f ma] w]. cbn in Ht. subst th.
      do 2 eexists; (split; [reflexivity |]);
        repeat apply conj; try reflexivity; try discriminate.
Qed.

(** *** The invariant of the slot *)

Lemma slot_owns_nothing_init : slot_owns_nothing loader_init.
Proof. intros _. split; reflexivity. Qed.

(** A start returns on every state whose slot owns nothing when it holds no
    thread, and keeps that; the message buffer, when there is one, holds a
    message afterwards. *)
Lemma start_by_name_total
    (name : string) (args error_message : option string) (s : State) :
  slot_owns_nothing (loader s) ->
  exists r em s',
    loader_do_start_by_name name args error_message s = Ret (r, em) s'
    /\ slot_owns_nothing (loader s')
    /\ (exists m, em = set_message error_message m).
Proof.
  intros Hinv.
  destruct (app_thread (loader s)) as [| |t] eqn:Et.
  2: { do 3 eexists. split; [exact (start_by_name_locked name args error_message s Et) |].
       split; [exact Hinv | eexists; reflexivity]. }
  2: { do 3 eexists. split; [exact (start_by_name_running name args error_message s t Et) |].
       split; [exact Hinv | eexists; reflexivity]. }
  assert (Hown : app_args (loader s) = None /\ app_fap (loader s) = None)
    by (apply Hinv; rewrite Et; reflexivity).
  destruct Hown as [Ha Hfap].
  destruct (loader_find_application_by_name (translate_app_name name)) as [app |] eqn:Hf.
  { do 3 eexists.
    split; [exact (start_by_name_internal name args error_message s Et app Ha Hf) |].
    split; [intros H; discriminate H | eexists; reflexivity]. }
  destruct (decide (translate_app_name name = LOADER_APPLICATIONS_NAME)) as [Hn | Hn].
  { do 3 eexists.
    split; [exact (start_by_name_applications name args error_message s Et Hf Hn) |].
    split; [| eexists; reflexivity].
    intros _. cbn. split; assumption. }
  destruct (storage_file_exists (world s)
              (fst (external_path_and_flags (translate_app_name name)))) eqn:Hx.
  - rewrite (start_by_name_external name args error_message s Et Hf Hn Hx).
    destruct (start_external_app_cases
                (fst (external_path_and_flags (translate_app_name name))) args
                (set_message error_message "App started")
                (snd (external_path_and_flags (translate_app_name name))) s)
      as (r & em & s' & Hrun & _ & [m Hem] & _ & Hargs & Hok & Hnok).
    exists r, em, s'. split; [exact Hrun |]. split.
    + destruct (decide (value r = LoaderStatusOk)) as [Hv | Hv].
      * destruct (Hok Hv) as [[t [Ht _]] _]. intros H. rewrite Ht in H. discriminate.
      * destruct (Hnok Hv) as (_ & Hf' & _). intros _. split; congruence.
    + exists m. rewrite Hem. apply set_message_twice.
  - do 3 eexists.
    split; [exact (start_by_name_unknown name args error_message s Et Hf Hn Hx) |].
    split; [exact Hinv | eexists; reflexivity].
Qed.

Lemma dispatch_keeps_slot_owns_nothing
    (s : State) (message : LoaderMessage) (r : LoaderMessageResult) (s' : State) :
  slot_owns_nothing (loader s) ->
  loader_srv_dispatch message s = Ret r s' ->
  slot_owns_nothing (loader s').
Proof.
  intros Hinv.
  destruct message as [name args em | name args | | | | | | | | | signal |];
    cbn [loader_srv_dispatch]; unfold bind.
  - destruct (start_by_name_total name args em s Hinv) as (r0 & em0 & s0 & Hrun & Hi & _).
    rewrite Hrun. intros H. inversion H; subst. exact Hi.
  - destruct (start_by_name_total name args (Some "") s Hinv)
      as (r0 & em0 & s0 & Hrun & Hi & _).
    rewrite Hrun. cbn [fst snd].
    destruct (loader_show_gui_error r0 name em0 s0) as [[] s1 |] eqn:Eg; [| discriminate].
    apply loader_show_gui_error_loader in Eg as [Hl _].
    intros H. inversion H; subst. rewrite Hl. exact Hi.
  - destruct s as [[m a ar th ins f ma] w]. destruct m;
      intros H; inversion H; subst; exact Hinv.
  - destruct s as [[m a ar th ins f ma] w]. destruct m;
      intros H; inversion H; subst; exact Hinv.
  - destruct s as [[m a ar th ins f ma] w]. destruct m;
      intros H; inversion H; subst; exact Hinv.
  - intros H. inversion H; subst. exact Hinv.
  - destruct (loader_do_app_closed s) as [[] s1 |] eqn:Ec; [| discriminate].
    intros H. inversion H; subst.
    destruct (app_thread (loader s)) as [| |t] eqn:Et.
    + rewrite loader_do_app_closed_no_thread in Ec; [discriminate |].
      intros t. rewrite Et. discriminate.
    + rewrite loader_do_app_closed_no_thread in Ec; [discriminate |].
      intros t. rewrite Et. discriminate.
    + rewrite (loader_do_app_closed_spec s t Et) in Ec. inversion Ec; subst.
      intros _. split; reflexivity.
  - destruct s as [[m a ar th ins f ma] w].
    destruct th; intros H; inversion H; subst; exact Hinv.
  - destruct s as [[m a ar th ins f ma] w].
    destruct th; intros H; inversion H; subst; exact Hinv.
  - destruct s as [[m a ar th ins f ma] w]. destruct a;
      intros H; inversion H; subst; exact Hinv.
  - destruct s as [[m a ar th ins f ma] w].
    destruct th; intros H; inversion H; subst; exact Hinv.
  - destruct s as [[m a ar th ins f ma] w].
    destruct th; intros H; inversion H; subst; exact Hinv.
Qed.

Lemma reachable_slot_owns_nothing_aux (s : State) :
  reachable s -> slot_owns_nothing (loader s).
Proof.
  induction 1 as [s0 s Halloc | s message r s' _ IH Hd | s w _ IH].
  - apply loader_alloc_frame_cases in Halloc as [Hl _]. rewrite Hl.
    intros _. split; reflexivity.
  - exact (dispatch_keeps_slot_owns_nothing s message r s' IH Hd).
  - exact IH.
Qed.

(** X21: in every state of the service, a slot that holds no thread owns
    neither an argument buffer nor a binary: what a start stores is given back
    by the close, or by the start itself when the load fails. *)
Theorem reachable_slot_owns_nothing (s : State) :
  reachable s -> slot_owns_nothing (loader s).
Proof. exact (reachable_slot_owns_nothing_aux s). Qed.

(** The loop stays within the states of the service, and answers every
    message. *)
Lemma loader_srv_loop_reachable
    (messages : list LoaderMessage) (s : State)
    (rs : list LoaderMessageResult) (s' : State) :
  reachable s ->
  loader_srv_loop messages s = Ret rs s' ->
  reachable s' /\ length rs = length messages.
Proof.
  revert s rs. induction messages as [| message messages IH]; intros s rs Hr.
  - intros H. inversion H; subst. split; [exact Hr | reflexivity].
  - cbn [loader_srv_loop]. unfold bind.
    destruct (loader_srv_dispatch message s) as [r s1 |] eqn:Ed; [| discriminate].
    destruct (loader_srv_loop messages s1) as [rs1 s2 |] eqn:El; [| discriminate].
    intros H. inversion H; subst.
    destruct (IH s1 rs1 (reachable_dispatch s message r s1 Hr Ed) El) as [Hr' Hlen].
    split; [exact Hr' | cbn; rewrite Hlen; reflexivity].
Qed.

(** The error dialogs abort only for the restart of the device, given a
    message buffer. *)
Lemma loader_show_gui_error_crash
    (status : LoaderMessageLoaderStatusResult) (name : string) (m : string) (s : State) :
  loader_show_gui_error status name (Some m) s = Crash ->
  value status = LoaderStatusErrorInternal
  /\ error status = LoaderStatusErrorOutOfMemory
  /\ dialog_message_show (gui_message out_of_memory_dialog) = DialogMessageButtonRight.
Proof.
  unfold loader_show_gui_error, loader_dialog_prepare_and_show, furi_hal_power_reset.
  destruct status as [v e]. cbn [value error].
  destruct (_ && _); [discriminate |].
  destruct (bool_decide (v = LoaderStatusErrorUnknownApp)); [discriminate |].
  destruct (bool_decide (v = LoaderStatusErrorInternal)) eqn:Ev; [| discriminate].
  apply bool_decide_eq_true_1 in Ev.
  destruct e; try discriminate.
  unfold bind. rewrite dialog_show_spec.
  destruct (bool_decide _) eqn:Ed; [| discriminate].
  apply bool_decide_eq_true_1 in Ed. intros _. repeat split; assumption.
Qed.

(** X22: in the states of the service, the dispatcher aborts on three
    occasions only: an unlock of a slot that is not administratively locked,
    the close of an application when the slot holds no thread, and the restart
    of the device that the user chooses in the out-of-memory dialog of a start
    with error dialog.  A plain start never aborts the service. *)
Theorem dispatcher_aborts_only_on_contract_violation
    (s : State) (message : LoaderMessage) :
  reachable s ->
  loader_srv_dispatch message s = Crash ->
  (message = LoaderMessageTypeUnlock
   /\ app_thread (loader s) <> LOADER_MAGIC_THREAD_VALUE)
  \/ (message = LoaderMessageTypeAppClosed /\ is_thread (app_thread (loader s)) = false)
  \/ (exists name args,
        message = LoaderMessageTypeStartByNameDetachedWithGuiError name args
        /\ dialog_message_show (gui_message out_of_memory_dialog)
           = DialogMessageButtonRight).
Proof.
  intros Hr. apply reachable_slot_owns_nothing_aux in Hr.
  destruct message as [name args em | name args | | | | | | | | | signal |];
    cbn [loader_srv_dispatch]; unfold bind.
  - destruct (start_by_name_total name args em s Hr) as (r0 & em0 & s0 & Hrun & _).
    rewrite Hrun. discriminate.
  - destruct (start_by_name_total name args (Some "") s Hr)
      as (r0 & em0 & s0 & Hrun & _ & [m Hem]).
    rewrite Hrun. cbn [fst snd]. cbn in Hem. subst em0.
    destruct (loader_show_gui_error r0 name (Some m) s0) as [[] s1 |] eqn:Eg;
      [discriminate |].
    apply loader_show_gui_error_crash in Eg as (_ & _ & Hd).
    intros _. right. right. exists name, args. split; [reflexivity | exact Hd].
  - destruct s as [[m a ar th ins f ma] w]. destruct m; discriminate.
  - destruct s as [[m a ar th ins f ma] w]. destruct m; discriminate.
  - destruct s as [[m a ar th ins f ma] w]. destruct m; discriminate.
  - discriminate.
  - destruct (app_thread (loader s)) as [| |t] eqn:Et.
    + intros _. right. left. split; reflexivity.
    + intros _. right. left. split; reflexivity.
    + rewrite (loader_do_app_closed_spec s t Et). discriminate.
  - destruct s as [[m a ar th ins f ma] w]. destruct th; discriminate.
  - destruct (app_thread (loader s)) as [| |t] eqn:Et.
    + intros _. left. split; [reflexivity | discriminate].
    + destruct s as [[m a ar th ins f ma] w]. cbn in Et. subst th. discriminate.
    + intros _. left. split; [reflexivity | discriminate].
  - destruct s as [[m a ar th ins f ma] w]. destruct a; discriminate.
  - destruct s as [[m a ar th ins f ma] w]. destruct th; discriminate.
  - destruct s as [[m a ar th ins f ma] w]. destruct th; discriminate.
Qed.

(** X23: the menu view.  A show-menu on a closed menu opens the menu, not
    the settings; a further show-settings or show-menu changes nothing, so an
    open menu is not turned into the settings; the close callback gives the
    loader back as it was, and on a closed menu it changes nothing.  None of
    this touches the slot or the world. *)
Theorem menu_view_messages (s : State) :
  loader_menu (loader s) = None ->
  exists s1,
    loader_srv_dispatch LoaderMessageTypeShowMenu s = Ret NoResult s1
    /\ loader_menu (loader s1) = Some false
    /\ app_thread (loader s1) = app_thread (loader s)
    /\ world s1 = world s
    /\ loader_srv_dispatch LoaderMessageTypeShowSettings s1 = Ret NoResult s1
    /\ loader_srv_dispatch LoaderMessageTypeShowMenu s1 = Ret NoResult s1
    /\ loader_srv_dispatch LoaderMessageTypeMenuClosed s1 = Ret NoResult s
    /\ loader_srv_dispatch LoaderMessageTypeMenuClosed s = Ret NoResult s.
Proof.
  intros Hm. destruct s as [[m a ar th ins f ma] w]. cbn in Hm. subst m.
  eexists. split; [reflexivity |]. repeat apply conj; reflexivity.
Qed.

(** X24: a start with error dialog of a binary that does not fit into memory
    shows the out-of-memory dialog with its reboot button.  When the user
    chooses it the device restarts and the handler does not return;
    otherwise the handler returns with the slot as it was and the binary
    freed. *)
Theorem out_of_memory_offers_reboot (name : string) (args : option string) (s : State) :
  let path := fst (external_path_and_flags (translate_app_name name)) in
  app_thread (loader s) = NULL ->
  loader_find_application_by_name (translate_app_name name) = None ->
  translate_app_name name <> LOADER_APPLICATIONS_NAME ->
  storage_file_exists (world s) path = true ->
  flipper_application_preload (files (world s)) path
    = FlipperApplicationPreloadStatusNotEnoughMemory ->
  (dialog_message_show (gui_message out_of_memory_dialog) = DialogMessageButtonRight ->
   loader_srv_dispatch (LoaderMessageTypeStartByNameDetachedWithGuiError name args) s
   = Crash)
  /\ (dialog_message_show (gui_message out_of_memory_dialog) <> DialogMessageButtonRight ->
      loader_srv_dispatch (LoaderMessageTypeStartByNameDetachedWithGuiError name args) s
      = Ret NoResult (load_failed_state s [gui_message out_of_memory_dialog])).
Proof.
  intros path He Hf Hn Hx Hp.
  assert (Hstart :
    loader_do_start_by_name name args (Some "") s
    = Ret (mkStatusResult LoaderStatusErrorInternal LoaderStatusErrorOutOfMemory,
           Some (preload_failed_message path
                   FlipperApplicationPreloadStatusNotEnoughMemory))
          (load_failed_state s [])).
  { rewrite (start_by_name_external name args (Some "") s He Hf Hn Hx). fold path.
    pose proof (start_external_preload_failed path args (Some "App started")
                  (snd (external_path_and_flags (translate_app_name name))) s) as H.
    cbv zeta in H. rewrite Hp in H. apply H; [reflexivity | discriminate]. }
  cbn [loader_srv_dispatch]. unfold bind at 1 3. rewrite Hstart. cbn [fst snd].
  unfold loader_show_gui_error. cbn [value error]. decide_bools. cbn [andb].
  rewrite (bool_decide_eq_true_2 (LoaderStatusErrorInternal = LoaderStatusErrorInternal))
    by reflexivity.
  unfold bind. rewrite dialog_show_spec.
  split; intros Hd.
  - rewrite Hd. decide_bools. reflexivity.
  - rewrite (bool_decide_eq_false_2 _ Hd). cbn.
    unfold load_failed_state. cbn. rewrite app_nil_r. reflexivity.
Qed.

(** X25: a start with error dialog of a name that resolves to no file.  When
    the requested name is a name of the external tables, the user is told to
    update the firmware; otherwise the dialog is that of an application that
    is not found.  Nothing but the dialog changes. *)
Theorem missing_application_dialog (name : string) (args : option string) (s : State) :
  app_thread (loader s) = NULL ->
  loader_find_application_by_name (translate_app_name name) = None ->
  translate_app_name name <> LOADER_APPLICATIONS_NAME ->
  storage_file_exists (world s)
    (fst (external_path_and_flags (translate_app_name name))) = false ->
  loader_srv_dispatch (LoaderMessageTypeStartByNameDetachedWithGuiError name args) s
  = Ret NoResult
      (mkState (loader s)
         (set_shown
            (shown (world s)
             ++ [match loader_find_external_application_by_name name with
                 | Some _ => gui_message update_needed_dialog
                 | None => gui_message (loader_dialog_prepare err_app_not_found)
                 end])
            (world s))).
Proof.
  intros He Hf Hn Hx.
  cbn [loader_srv_dispatch]. unfold bind at 1.
  rewrite (start_by_name_unknown name args (Some "") s He Hf Hn Hx). cbn [fst snd].
  unfold loader_show_gui_error. cbn [value error]. decide_bools. cbn [andb].
  destruct (loader_find_external_application_by_name name) as [pf |].
  - rewrite bool_decide_eq_true_2 by discriminate. reflexivity.
  - rewrite bool_decide_eq_false_2 by (intros H; apply H; reflexivity). reflexivity.
Qed.

End Dispatcher.

Lemma locked_slot_transitions_witness :
  loader_srv_dispatch (apps := Demo.apps) (env := DemoService.env) (gui := DemoService.gui)
    LoaderMessageTypeAppClosed DemoService.locked = Crash
  /\ exists r s',
       loader_srv_dispatch (apps := Demo.apps) (env := DemoService.env)
         (gui := DemoService.gui)
         (LoaderMessageTypeStartByName "Clock" None (Some "")) DemoService.locked
       = Ret r s'
       /\ r = StatusValue
                (mkStatusResult LoaderStatusErrorAppStarted LoaderStatusErrorUnknown)
                (Some "Loader is locked")
       /\ s' = DemoService.locked.
Proof.
  split.
  - exact (proj1 (@locked_slot_transitions Demo.apps DemoService.env DemoService.gui
                    DemoService.locked LoaderMessageTypeAppClosed eq_refl) eq_refl).
  - destruct (proj2 (@locked_slot_transitions Demo.apps DemoService.env DemoService.gui
                       DemoService.locked
                       (LoaderMessageTypeStartByName "Clock" None (Some "")) eq_refl)
                ltac:(discriminate))
      as (r & s' & Hrun & _ & _ & _ & Hstart & _).
    destruct (Hstart "Clock" None (Some "") eq_refl) as [Hr Hs].
    exists r, s'. split; [exact Hrun | split; [exact Hr | exact Hs]].
Defined.

Lemma running_slot_transitions_witness :
  loader_srv_dispatch (apps := Demo.apps) (env := DemoService.env) (gui := DemoService.gui)
    LoaderMessageTypeUnlock DemoService.running = Crash
  /\ (exists s',
        loader_srv_dispatch (apps := Demo.apps) (env := DemoService.env)
          (gui := DemoService.gui) LoaderMessageTypeAppClosed DemoService.running
        = Ret NoResult s'
        /\ app_thread (loader s') = NULL)
  /\ exists r s',
       loader_srv_dispatch (apps := Demo.apps) (env := DemoService.env)
         (gui := DemoService.gui) LoaderMessageTypeGetApplicationName DemoService.running
       = Ret r s'
       /\ r = ApplicationName (Some "Clock")
       /\ app_thread (loader s') = Thread Demo.clock_thread.
Proof.
  split; [| split].
  - exact (proj1 (@running_slot_transitions Demo.apps DemoService.env DemoService.gui
                    DemoService.running Demo.clock_thread LoaderMessageTypeUnlock eq_refl)
             eq_refl).
  - destruct (proj1 (proj2 (@running_slot_transitions Demo.apps DemoService.env
                              DemoService.gui DemoService.running Demo.clock_thread
                              LoaderMessageTypeAppClosed eq_refl)) eq_refl)
      as (s' & Hrun & Ht & _).
    exists s'. split; [exact Hrun | exact Ht].
  - destruct (proj2 (proj2 (@running_slot_transitions Demo.apps DemoService.env
                              DemoService.gui DemoService.running Demo.clock_thread
                              LoaderMessageTypeGetApplicationName eq_refl))
                ltac:(discriminate) ltac:(discriminate))
      as (r & s' & Hrun & _ & Ht & _ & _ & _ & Hname & _).
    exists r, s'. split; [exact Hrun | split; [exact (Hname eq_refl) | exact Ht]].
Defined.

Lemma reachable_slot_owns_nothing_witness :
  app_args (loader DemoService.booted) = None
  /\ app_fap (loader DemoService.booted) = None.
Proof.
  exact (@reachable_slot_owns_nothing Demo.apps DemoService.env DemoService.gui
           DemoService.booted
           (@reachable_alloc Demo.apps DemoService.env DemoService.gui
              DemoService.with_menu_file DemoService.booted eq_refl)
           eq_refl).
Defined.

Lemma dispatcher_aborts_only_on_contract_violation_witness :
  (LoaderMessageTypeUnlock = LoaderMessageTypeUnlock
   /\ app_thread (loader DemoService.booted) <> LOADER_MAGIC_THREAD_VALUE)
  \/ (LoaderMessageTypeUnlock = LoaderMessageTypeAppClosed
      /\ is_thread (app_thread (loader DemoService.booted)) = false)
  \/ (exists name args,
        LoaderMessageTypeUnlock
        = LoaderMessageTypeStartByNameDetachedWithGuiError name args
        /\ dialog_message_show (Collaborators := DemoService.env)
             (gui_message out_of_memory_dialog)
           = DialogMessageButtonRight).
Proof.
  exact (@dispatcher_aborts_only_on_contract_violation
           Demo.apps DemoService.env DemoService.gui
           DemoService.booted LoaderMessageTypeUnlock
           (@reachable_alloc Demo.apps DemoService.env DemoService.gui
              DemoService.with_menu_file DemoService.booted eq_refl)
           eq_refl).
Defined.

Lemma menu_view_messages_witness :
  exists s1,
    loader_srv_dispatch (apps := Demo.apps) (env := DemoService.env)
      (gui := DemoService.gui) LoaderMessageTypeShowMenu DemoService.idle
    = Ret NoResult s1
    /\ loader_menu (loader s1) = Some false
    /\ loader_srv_dispatch (apps := Demo.apps) (env := DemoService.env)
         (gui := DemoService.gui) LoaderMessageTypeShowSettings s1
       = Ret NoResult s1
    /\ loader_srv_dispatch (apps := Demo.apps) (env := DemoService.env)
         (gui := DemoService.gui) LoaderMessageTypeMenuClosed s1
       = Ret NoResult DemoService.idle.
Proof.
  destruct (@menu_view_messages Demo.apps DemoService.env DemoService.gui
              DemoService.idle eq_refl)
    as (s1 & Hshow & Hmenu & _ & _ & Hsettings & _ & Hclosed & _).
  exists s1. split; [exact Hshow |]. split; [exact Hmenu |].
  split; [exact Hsettings | exact Hclosed].
Defined.

Lemma out_of_memory_offers_reboot_witness :
  loader_srv_dispatch (apps := Demo.apps) (env := DemoService.env) (gui := DemoService.gui)
    (LoaderMessageTypeStartByNameDetachedWithGuiError "/ext/apps/Tools/huge.fap" None)
    DemoService.idle
  = Crash.
Proof.
  exact (proj1 (@out_of_memory_offers_reboot Demo.apps DemoService.env DemoService.gui
                  "/ext/apps/Tools/huge.fap" None DemoService.idle
                  eq_refl eq_refl ltac:(discriminate) eq_refl eq_refl)
           eq_refl).
Defined.

Lemma missing_application_dialog_witness :
  loader_srv_dispatch (apps := Demo.apps) (env := DemoService.env) (gui := DemoService.gui)
    (LoaderMessageTypeStartByNameDetachedWithGuiError "NFC" None) DemoService.idle
  = Ret NoResult
      (mkState loader_init
         (mkWorld DemoService.storage 0 []
            [gui_message (update_needed_dialog (gui := DemoService.gui))])).
Proof.
  exact (@missing_application_dialog Demo.apps DemoService.env DemoService.gui
           "NFC" None DemoService.idle
           eq_refl eq_refl ltac:(discriminate) eq_refl).
Defined.

